(** * Voice Memos exporter ([main.py]): the per-record export engine

    A shallow embedding of the loop body of [main] in [src/main.py]: the
    duration and label formatting, the planning of the source and
    destination paths, the table row renderer, the interactive key read with
    its terminal-mode handling, and the copy of the file.

    Python values are modelled as follows.
    - [str] is a list of Unicode code points ([pystr], code points in [N]);
      [len] is [length].
    - [int] is [Z]; [float] is the kernel's binary64 [float].
    - The terminal, the file system, standard input and standard output are
      fields of an explicit [world], threaded through a state-and-exception
      monad [M].

    The library calls of the loop body are modelled with it: [posixpath]
    for [os.path] and the [termios] constants of macOS (the program reads
    the database of the macOS Voice Memos application), [datetime] with its
    rounding of float seconds to microseconds, [shutil.copyfile] and
    [os.utime] on a file system in which the kernel resolves each path to
    the place of a file, the same place for every spelling of the path.
    The local time zone [local_tz] and the formatting of dates, which reads
    the time zone database, are parameters ([local_tz], [strftime]). The
    library is CPython 3.11 on a POSIX system with a 64-bit [time_t]. *)

From Stdlib Require Import ZArith NArith Lia List Bool Ascii String.
From Stdlib Require Import Floats.PrimFloat Floats.FloatOps Floats.SpecFloat.
From Stdlib Require Import Floats.FloatAxioms.
From stdpp Require Import base option list gmap.
Import ListNotations.

Set Warnings "-inexact-float".
Local Open Scope Z_scope.

(** ** Python strings *)

Module Py.

(** A Python [str]: the sequence of its code points. *)
Definition pystr : Type := list N.

(** An ASCII literal of the source, as a [pystr]. *)
Definition lit (s : string) : pystr :=
  map N_of_ascii (list_ascii_of_string s).

(** [len(s)] as a Python [int]. *)
Definition len (s : pystr) : Z := Z.of_nat (length s).

(** [c in s] for a one-character string [c]. *)
Definition contains (c : N) (s : pystr) : bool := existsb (N.eqb c) s.

(** [s.replace(a, b)] for one-character strings [a] and [b]. *)
Definition replace (a b : N) (s : pystr) : pystr :=
  map (fun c => if N.eqb c a then b else c) s.

(** [s.rfind(c)] for a one-character string [c]: the highest index of [c]
    in [s], or [-1]. *)
Fixpoint rfind (c : N) (s : pystr) : Z :=
  match s with
  | [] => -1
  | x :: s' =>
      let r := rfind c s' in
      if 0 <=? r then r + 1 else if N.eqb x c then 0 else -1
  end.

(** The slice [s[:k]], for any integer [k]. *)
Definition slice_to (k : Z) (s : pystr) : pystr :=
  if k <? 0 then take (Z.to_nat (len s + k)) s else take (Z.to_nat k) s.

(** The slice [s[k:]], for any integer [k]. *)
Definition slice_from (k : Z) (s : pystr) : pystr :=
  if k <? 0 then drop (Z.to_nat (len s + k)) s else drop (Z.to_nat k) s.

(** [sep.join(xs)]. *)
Fixpoint join (sep : pystr) (xs : list pystr) : pystr :=
  match xs with
  | [] => []
  | [x] => x
  | x :: xs' => x ++ sep ++ join sep xs'
  end.

(** [c * n]: the one-character string [c] repeated. *)
Definition times (c : N) (n : Z) : pystr := replicate (Z.to_nat n) c.

(** ["{:w}".format(s)] for a string [s]: left-justified in a field of
    minimum width [w], padded with spaces, never truncated. *)
Definition format_width (w : Z) (s : pystr) : pystr :=
  s ++ times 32%N (w - len s).

(** The truth value of a string. *)
Definition truthy (s : pystr) : bool :=
  match s with [] => false | _ => true end.

(** *** Decimal conversions of [%]-formatting *)

Definition digit (n : Z) : N := Z.to_N (48 + n).

Fixpoint digits_fuel (fuel : nat) (n : Z) : pystr :=
  match fuel with
  | O => []
  | S f =>
      if n <? 10 then [digit n]
      else digits_fuel f (n / 10) ++ [digit (n mod 10)]
  end.

(** The decimal digits of [n >= 0]; the recursion divides by ten at least as
    fast as the binary length shrinks, which [str_nat_unfold] turns into the
    usual equation. *)
Definition str_nat (n : Z) : pystr :=
  digits_fuel (S (Z.to_nat (Z.log2 n))) n.

(** ["%d" % n]. *)
Definition fmt_d (n : Z) : pystr :=
  if n <? 0 then 45%N :: str_nat (- n) else str_nat n.

(** Zeros on the left up to [w] characters. *)
Definition zfill (w : Z) (s : pystr) : pystr := times 48%N (w - len s) ++ s.

(** ["%0wd" % n]: the sign counts in the width. *)
Definition fmt_0d (w : Z) (n : Z) : pystr :=
  if n <? 0 then 45%N :: zfill (w - 1) (str_nat (- n)) else zfill w (str_nat n).

End Py.
Import Py.

(** ** Exceptions and results *)

(** The exceptions the modelled code can raise. *)
Inductive exn : Type :=
  | ValueError
  | UnicodeEncodeError
  | OverflowError
  | TypeError
  | KeyboardInterrupt
  | SystemExit
  | OSError
  | FileNotFoundError
  | NotADirectoryError
  | IsADirectoryError
  | PermissionError
  | SameFileError
  | SpecialFileError.

(** [isinstance(e, OSError)]: the exceptions an [except OSError] clause
    catches. [shutil.SameFileError] and [shutil.SpecialFileError] derive
    from [OSError]; [UnicodeEncodeError] derives from [ValueError]. *)
Definition is_OSError (e : exn) : bool :=
  match e with
  | OSError | FileNotFoundError | NotADirectoryError | IsADirectoryError
  | PermissionError | SameFileError | SpecialFileError => true
  | _ => false
  end.

(** What a call produces: a value, or a raised exception. *)
Inductive result (A : Type) : Type :=
  | Ok (a : A)
  | Raise (e : exn).
Arguments Ok {A} a.
Arguments Raise {A} e.

(** ** Seconds as binary64 floats, and their conversion to microseconds

    [datetime.timedelta(seconds=x)] and [datetime.fromtimestamp(x, tz)] both
    split the float [x] with [modf], multiply the fractional part by [1e6]
    in binary64 and round the product half-to-even to a whole number of
    microseconds. *)

Module Seconds.

(** The exact value [m * 2^e] of a finite float. *)
Definition float_exact (x : float) : result (Z * Z) :=
  match Prim2SF x with
  | S754_zero _ => Ok (0, 0)
  | S754_finite s m e => Ok (if s then Z.neg m else Z.pos m, e)
  | S754_infinity _ => Raise OverflowError
  | S754_nan => Raise ValueError
  end.

(** [modf]: the integral part (rounded toward zero). *)
Definition modf_int (m e : Z) : Z :=
  if 0 <=? e then m * 2 ^ e else Z.quot m (2 ^ (- e)).

(** [modf]: the fractional part, a float with the sign of the argument. *)
Definition modf_frac (m e : Z) : float :=
  if 0 <=? e then zero
  else match Z.rem m (2 ^ (- e)) with
       | Z0 => zero
       | Zpos p => SF2Prim (S754_finite false p e)
       | Zneg p => SF2Prim (S754_finite true p e)
       end.

(** The integer nearest to [m * 2^e], ties to even. *)
Definition round_half_even (m e : Z) : Z :=
  if 0 <=? e then m * 2 ^ e
  else
    let d := 2 ^ (- e) in
    let q := m / d in
    let r := m mod d in
    if 2 * r <? d then q
    else if d <? 2 * r then q + 1
    else if Z.even q then q else q + 1.

(** The number of microseconds in [x] seconds. *)
Definition to_us (x : float) : result Z :=
  match float_exact x with
  | Raise e => Raise e
  | Ok (m, e) =>
      match float_exact (PrimFloat.mul (modf_frac m e) 1e6) with
      | Raise e' => Raise e'
      | Ok (m', e') => Ok (modf_int m e * 1000000 + round_half_even m' e')
      end
  end.

End Seconds.

(** ** [datetime.timedelta] *)

Module Timedelta.

(** A normalized [timedelta]: [0 <= seconds < 86400] and
    [0 <= microseconds < 1000000]. *)
Record t : Type := mk { days : Z; seconds : Z; microseconds : Z }.

Definition of_us (us : Z) : t :=
  {| days := us / 86400000000;
     seconds := us mod 86400000000 / 1000000;
     microseconds := us mod 1000000 |}.

(** [timedelta(seconds=x)] for a float [x]; the number of days is bounded by
    999999999 in magnitude. *)
Definition of_seconds (x : float) : result t :=
  match Seconds.to_us x with
  | Raise e => Raise e
  | Ok us =>
      let td := of_us us in
      if (days td <? -999999999) || (999999999 <? days td)
      then Raise OverflowError else Ok td
  end.

(** [str(td)]. *)
Definition str (td : t) : pystr :=
  let mm := seconds td / 60 in
  let ss := seconds td mod 60 in
  let hh := mm / 60 in
  let mm := mm mod 60 in
  let s := fmt_d hh ++ lit ":" ++ fmt_0d 2 mm ++ lit ":" ++ fmt_0d 2 ss in
  let s :=
    if days td =? 0 then s
    else fmt_d (days td) ++ lit " day"
         ++ (if Z.abs (days td) =? 1 then [] else lit "s") ++ lit ", " ++ s in
  if microseconds td =? 0 then s
  else s ++ lit "." ++ fmt_0d 6 (microseconds td).

End Timedelta.

(** Lines 160-162 of [main]: the text of the Duration column, from the
    [timedelta] of the record's duration. *)
Definition duration_str (td : Timedelta.t) : pystr :=
  let duration_str := Timedelta.str td in
  let duration_str :=
    if contains 46%N duration_str
    then slice_to (rfind 46%N duration_str + 3) duration_str
    else duration_str ++ lit ".00" in
  if len duration_str =? 10 then lit "0" ++ duration_str else duration_str.

(** The same, from the float of the database row; raises what
    [timedelta(seconds=...)] raises. *)
Definition duration_display (x : float) : result pystr :=
  match Timedelta.of_seconds x with
  | Raise e => Raise e
  | Ok td => Ok (duration_str td)
  end.

(** ** [posixpath]: the functions of [os.path] the program calls *)

Module Path.

Definition sep : N := 47.
Definition extsep : N := 46.

(** [s.rstrip(c)]. *)
Fixpoint rstrip (c : N) (s : pystr) : pystr :=
  match s with
  | [] => []
  | x :: s' =>
      match rstrip c s' with
      | [] => if N.eqb x c then [] else [x]
      | r => x :: r
      end
  end.

(** [s.startswith("/")] and [s.endswith("/")]. *)
Definition startswith_sep (s : pystr) : bool :=
  match s with
  | c :: _ => N.eqb c sep
  | [] => false
  end.

Definition endswith_sep (s : pystr) : bool :=
  match last s with
  | Some c => N.eqb c sep
  | None => false
  end.

(** [os.path.join(a, b)]: an absolute [b] replaces [a]; otherwise the two are
    joined with one separator, unless [a] is empty or ends with one. *)
Definition join (a b : pystr) : pystr :=
  if startswith_sep b then b
  else if negb (truthy a) || endswith_sep a then a ++ b
  else a ++ [sep] ++ b.

(** [os.path.dirname(p)]. *)
Definition dirname (p : pystr) : pystr :=
  let i := rfind sep p + 1 in
  let head := slice_to i p in
  if truthy head && negb (forallb (N.eqb sep) head) then rstrip sep head
  else head.

(** [os.path.splitext(p)]: the extension starts at the last dot of the last
    component, unless only dots stand before it in that component. *)
Definition splitext (p : pystr) : pystr * pystr :=
  let sepIndex := rfind sep p in
  let dotIndex := rfind extsep p in
  if sepIndex <? dotIndex then
    let leading := slice_to (dotIndex - (sepIndex + 1)) (slice_from (sepIndex + 1) p) in
    if forallb (N.eqb extsep) leading then (p, [])
    else (slice_to dotIndex p, slice_from dotIndex p)
  else (p, []).

End Path.

(** ** The table: [_cols], [getWidth], [helper_str], [body_row] *)

Module Col.
Record t : Type := mk { n : pystr; w : Z }.
End Col.

Definition _cols : list Col.t :=
  [ Col.mk (lit "Date") 19;
    Col.mk (lit "Duration") 11;
    Col.mk (lit "Old Path") 32;
    Col.mk (lit "New Path") 60;
    Col.mk (lit "Status") 12 ].

(** [getWidth(name)]: the width of the first column called [name]; [False],
    which counts as [0] in arithmetic, when there is none. *)
Definition getWidth (name : pystr) : Z :=
  (fix go (cs : list Col.t) : Z :=
     match cs with
     | [] => 0
     | c :: cs' => if decide (Col.n c = name) then Col.w c else go cs'
     end) _cols.

(** The five cells of a row: what [body_row] receives as [content_list]. *)
Definition cells : Type := (pystr * pystr * pystr * pystr * pystr)%type.

Definition cell_list (c : cells) : list pystr :=
  let '(c0, c1, c2, c3, c4) := c in [c0; c1; c2; c3; c4].

(** [helper_str(seperator).format] applied to the cells of [content_list]:
    [helper_str] builds the format string ["{0:19}<sep>{1:11}<sep>..."], whose field [{i:w}] renders
    the [i]-th cell in width [w]. *)
Definition helper_str (seperator : pystr) (content_list : cells) : pystr :=
  Py.join seperator
    (zip_with (fun c s => format_width (Col.w c) s) _cols (cell_list content_list)).

(** The vertical bar of the table, U+2502. *)
Definition bar : N := 9474.

(** [body_row(content_list)]. *)
Definition body_row (content_list : cells) : pystr :=
  [bar; 32%N] ++ helper_str [32%N; bar; 32%N] content_list ++ [32%N; bar].

(** Lines 178-185 of [main]: a path is shown whole when it is shorter than
    the column less three, and otherwise as ["..."] and its tail. *)
Definition path_short (column : pystr) (path : pystr) : pystr :=
  if len path <? getWidth column - 3 then path
  else lit "..." ++ slice_from (- getWidth column + 3) path.

(** ** Labels and paths *)

(** [s.encode('ascii', 'ignore').decode('ascii')]: the code points below 128
    are kept, the others dropped. *)
Definition ascii_ignore (s : pystr) : pystr :=
  List.filter (fun c => (c <? 128)%N) s.

(** Line 163: the label as read from the row. *)
Definition sanitize (row2 : pystr) : pystr :=
  replace 47%N 95%N (ascii_ignore row2).

(** Lines 163-166: the label used for the new name. *)
Definition label_of (row2 : pystr) : pystr :=
  let label := sanitize row2 in
  if contains 84%N label && contains 90%N label then lit "VoiceMemo"
  else label.

(** ** Dates *)

(** A time zone: the offset of its local time from UTC, in microseconds,
    at each instant (given in microseconds since the Unix epoch). The
    program has two: [timezone("UTC")] and, from
    [tzlocal.get_localzone()], the local zone of the process. *)
Record tzinfo : Type := mk_tzinfo { utcoffset : Z -> Z }.

Definition UTC : tzinfo := mk_tzinfo (fun _ => 0).

(** An aware [datetime]: an instant, in microseconds since the Unix epoch,
    and the zone it is expressed in. *)
Record datetime : Type := mk_datetime { timestamp_us : Z; tz : tzinfo }.

(** [datetime.min] and the microsecond after [datetime.max], as
    microseconds since the Unix epoch: years 1 to 9999. *)
Definition min_us : Z := -62135596800000000.
Definition end_us : Z := 253402300800000000.

Definition in_years_1_9999 (us : Z) : bool := (min_us <=? us) && (us <? end_us).

(** Line 95: the seconds between 1.1.1970 and 1.1.2001, as the source
    writes them. *)
Definition _dt_offset : float := 978307200.825232.

(** [z.fromutc(d)] for the instant [us]: the local date is the instant plus
    the offset, and the sum raises [OverflowError] outside years 1 to
    9999. *)
Definition fromutc (us : Z) (z : tzinfo) : result datetime :=
  if in_years_1_9999 (us + utcoffset z us) then Ok (mk_datetime us z)
  else Raise OverflowError.

(** [datetime.fromtimestamp(t, tz=z)]. The float is rounded to whole
    microseconds; its whole seconds must fit the 64-bit [time_t]
    ([OverflowError]); [gmtime] fails where the year does not fit an [int]
    ([OSError], [EOVERFLOW]); the date must lie in years 1 to 9999
    ([ValueError]); the result is then converted to the zone. *)
Definition fromtimestamp (t : float) (z : tzinfo) : result datetime :=
  match Seconds.to_us t with
  | Raise e => Raise e
  | Ok us =>
      let timet := us / 1000000 in
      if (timet <? - 2 ^ 63) || (2 ^ 63 <? timet) then Raise OverflowError
      else if (timet <? -67768040609740800) || (67768036191676799 <? timet)
      then Raise OSError
      else if negb (in_years_1_9999 us) then Raise ValueError
      else fromutc us z
  end.

(** [d.astimezone(z)]: the same instant in another zone; the date is
    taken to UTC first and to the zone [z] then, and either step raises
    [OverflowError] outside years 1 to 9999. *)
Definition astimezone (d : datetime) (z : tzinfo) : result datetime :=
  if in_years_1_9999 (timestamp_us d) then fromutc (timestamp_us d) z
  else Raise OverflowError.

(** [time.mktime(d.timetuple())] for a date [d] in the local zone of the
    process, the zone [mktime] reads the tuple in: the time tuple has no
    field for the microseconds, so this is the whole second the instant [d]
    lies in. *)
Definition mktime_timetuple (d : datetime) : Z := timestamp_us d / 1000000.

(** ** The terminal *)

Module Termios.

(** What [termios.tcgetattr] returns:
    [[iflag, oflag, cflag, lflag, ispeed, ospeed, cc]]. *)
Record attrs : Type := mk {
  iflag : Z; oflag : Z; cflag : Z; lflag : Z;
  ispeed : Z; ospeed : Z; cc : list Z
}.

(** The constants of macOS. *)
Definition ECHO : Z := 8.
Definition ICANON : Z := 256.
Definition VMIN : nat := 16.
Definition VTIME : nat := 17.

Definition set_lflag (v : Z) (a : attrs) : attrs :=
  mk (iflag a) (oflag a) (cflag a) v (ispeed a) (ospeed a) (cc a).

Definition set_cc (v : list Z) (a : attrs) : attrs :=
  mk (iflag a) (oflag a) (cflag a) (lflag a) (ispeed a) (ospeed a) v.

(** Line 199: [new[3] = new[3] & ~termios.ECHO]. *)
Definition without_echo (new : attrs) : attrs :=
  set_lflag (Z.land (lflag new) (Z.lnot ECHO)) new.

(** The mode [tty.setcbreak] installs, from the current one. *)
Definition cbreak (mode : attrs) : attrs :=
  let mode := set_lflag (Z.land (lflag mode) (Z.lnot (Z.lor ECHO ICANON))) mode in
  set_cc (<[VTIME := 0]> (<[VMIN := 1]> (cc mode))) mode.

(** Keys are echoed. *)
Definition echoes (a : attrs) : bool := Z.testbit (lflag a) 3.

(** Input is delivered line by line. *)
Definition canonical (a : attrs) : bool := Z.testbit (lflag a) 8.

(** The raw, non-echoing mode of the interactive read: every key is
    delivered at once and none is echoed. *)
Definition raw_noecho (a : attrs) : bool := negb (echoes a) && negb (canonical a).

End Termios.

(** ** The world: files, terminal, standard streams *)

(** A regular file: its bytes and its two timestamps, in whole seconds and
    nanoseconds as [os.stat] reports them in [st_atime_ns], [st_mtime_ns]. *)
Record file : Type := mk_file {
  content : list N; st_atime_ns : Z; st_mtime_ns : Z
}.

(** *** The file system

    The kernel resolves a path to the place of a file: the same place for
    every spelling of the path ([a//b], [a/./b], a symbolic link, another
    case of the letters on a volume that ignores it), whether a file is
    there or not; or it fails, when a folder on the way is missing or is
    no folder, when the name is too long, and so on. The places, and what
    the process may do at each of them, are the same for the whole run;
    what the places hold changes. A place holds nothing, a regular file, a
    folder or a named pipe; the device has room and does not fail, and no
    other process writes during the run. *)

(** The place of a file: its device and inode number. *)
Definition ino : Type := N.

(** The error numbers Python gives a class of their own, and the others. *)
Inductive errno : Type :=
  | ENOENT | ENOTDIR | EISDIR | EACCES | EPERM | Errno (code : Z).

(** The exception [OSError(errno, ...)] constructs. *)
Definition OSError_of (e : errno) : exn :=
  match e with
  | ENOENT => FileNotFoundError
  | ENOTDIR => NotADirectoryError
  | EISDIR => IsADirectoryError
  | EACCES | EPERM => PermissionError
  | Errno _ => OSError
  end.

(** What a path resolves to. *)
Inductive place : Type :=
  | At (i : ino)
  | Unresolved (e : errno).

(** What a place holds. *)
Inductive obj : Type :=
  | Regular (f : file)
  | Folder
  | Pipe.

(** What the process does with a file: [open(p, 'rb')] and the reads,
    [open(p, 'wb')] and the writes, [os.utime] with given times. *)
Inductive access : Type := Reading | Writing | Stamping.

Record filesystem : Type := mk_filesystem {
  node : pystr -> place;          (* the resolution of paths *)
  denied : access -> ino -> option errno;
                                  (* the error of an access the kernel does
                                     not permit at a place: a file or a
                                     folder without the permission, a
                                     read-only volume, a file of another
                                     owner for [os.utime] *)
  accessed : file -> Z -> Z;      (* the access time of a file after a read
                                     at the given time, as the volume keeps
                                     access times *)
  files : gmap ino obj            (* what the places hold *)
}.

Definition set_files (v : gmap ino obj) (fsys : filesystem) : filesystem :=
  mk_filesystem (node fsys) (denied fsys) (accessed fsys) v.

(** What [sys.stdin.read(1)] meets: a character, or Control-C. The end of
    the list is the end of the input. *)
Inductive stdin_event : Type :=
  | Char (c : N)
  | Interrupt.

Record world : Type := mk_world {
  fs : filesystem;             (* the file system *)
  clock_ns : Z;                (* the time a written file is stamped with *)
  tty : Termios.attrs;         (* the attributes of the terminal of stdin *)
  stdin : list stdin_event;    (* the input still to come *)
  stdout : pystr;              (* what was printed so far *)
  reads : list Termios.attrs   (* the terminal attributes in force at each
                                  [sys.stdin.read(1)], oldest first *)
}.

Definition set_fs (v : filesystem) (w : world) : world :=
  mk_world v (clock_ns w) (tty w) (stdin w) (stdout w) (reads w).
Definition set_tty (v : Termios.attrs) (w : world) : world :=
  mk_world (fs w) (clock_ns w) v (stdin w) (stdout w) (reads w).
Definition set_stdout (v : pystr) (w : world) : world :=
  mk_world (fs w) (clock_ns w) (tty w) (stdin w) v (reads w).

(** *** The monad of the loop body: state and exceptions *)

Definition M (A : Type) : Type := world -> result A * world.

Definition ret {A} (a : A) : M A := fun w => (Ok a, w).

Definition bind {A B} (m : M A) (k : A -> M B) : M B :=
  fun w =>
    match m w with
    | (Ok a, w') => k a w'
    | (Raise e, w') => (Raise e, w')
    end.

(** A pure call that may raise. *)
Definition lift {A} (r : result A) : M A := fun w => (r, w).

Declare Scope M_scope.
Delimit Scope M_scope with M.
Notation "x <- m ;; k" := (bind m (fun x => k))
  (at level 100, m at next level, right associativity) : M_scope.
Notation "m ;; k" := (bind m (fun _ => k))
  (at level 100, right associativity) : M_scope.
Local Open Scope M_scope.

(** [print(s, end=e)]. *)
Definition print (s e : pystr) : M unit :=
  fun w => (Ok tt, set_stdout (stdout w ++ s ++ e) w).

Definition newline : pystr := [10%N].
Definition carriage_return : pystr := [13%N].

(** *** The calls on files *)

(** A code point the file system encoding (UTF-8 with [surrogateescape])
    cannot encode: a surrogate other than U+DC80 to U+DCFF. *)
Definition unencodable (c : N) : bool :=
  ((55296 <=? c) && (c <=? 57343) && negb ((56448 <=? c) && (c <=? 56575)))%N.

(** What the conversion of a path for a system call raises, before the
    call: [UnicodeEncodeError], or [ValueError] on an embedded null
    character. *)
Definition fsencode_error (p : pystr) : option exn :=
  if existsb unencodable p then Some UnicodeEncodeError
  else if contains 0%N p then Some ValueError
  else None.

(** [os.stat(p)]: the place of [p] and what it holds. *)
Definition os_stat (p : pystr) (fsys : filesystem) : result (ino * obj) :=
  match fsencode_error p with
  | Some e => Raise e
  | None =>
      match node fsys p with
      | Unresolved e => Raise (OSError_of e)
      | At i =>
          match files fsys !! i with
          | None => Raise FileNotFoundError
          | Some o => Ok (i, o)
          end
      end
  end.

(** [shutil._samefile(src, dst)]: [os.path.samefile] compares the device
    and inode of the two paths; an [OSError] of [os.stat] means they are
    not the same, any other exception goes through. *)
Definition _samefile (src dst : pystr) (fsys : filesystem) : result bool :=
  match os_stat src fsys with
  | Raise e => if is_OSError e then Ok false else Raise e
  | Ok (i, _) =>
      match os_stat dst fsys with
      | Raise e => if is_OSError e then Ok false else Raise e
      | Ok (j, _) => Ok (i =? j)%N
      end
  end.

(** The check of [shutil.copyfile] on each of its two paths: a named pipe
    is refused, a path [os.stat] fails on with an [OSError] is let
    through. *)
Definition _refuse_pipe (fn : pystr) (fsys : filesystem) : result unit :=
  match os_stat fn fsys with
  | Raise e => if is_OSError e then Ok tt else Raise e
  | Ok (_, Pipe) => Raise SpecialFileError
  | Ok _ => Ok tt
  end.

(** [os.path.exists(p)]: [os.stat] succeeds. *)
Definition exists_ (p : pystr) (fsys : filesystem) : bool :=
  match os_stat p fsys with
  | Ok _ => true
  | Raise _ => false
  end.

(** [open(p, 'rb')]: the place of the file and the file. A named pipe does
    not come here: [shutil.copyfile] has refused it. *)
Definition open_rb (p : pystr) (fsys : filesystem) : result (ino * file) :=
  match os_stat p fsys with
  | Raise e => Raise e
  | Ok (i, Regular f) =>
      match denied fsys Reading i with
      | Some e => Raise (OSError_of e)
      | None => Ok (i, f)
      end
  | Ok (_, Folder) => Raise IsADirectoryError
  | Ok (_, Pipe) => Raise SpecialFileError
  end.

(** [open(p, 'wb')]: the place of the file that is created or emptied. A
    named pipe does not come here either. *)
Definition open_wb (p : pystr) (fsys : filesystem) : result ino :=
  match fsencode_error p with
  | Some e => Raise e
  | None =>
      match node fsys p with
      | Unresolved e => Raise (OSError_of e)
      | At i =>
          match files fsys !! i with
          | Some Folder => Raise IsADirectoryError
          | Some Pipe => Raise SpecialFileError
          | Some (Regular _) | None =>
              match denied fsys Writing i with
              | Some e => Raise (OSError_of e)
              | None => Ok i
              end
          end
      end
  end.

(** [shutil.copyfile(src, dst)]: refuses to copy a file onto itself and to
    copy a named pipe, opens the source, then creates the destination or
    empties it, and copies the bytes. The [IsADirectoryError] of a
    destination that does not exist (its name ends with a slash) becomes
    [FileNotFoundError]. The source is read and the destination is written
    at the time of the clock; a destination that existed keeps its access
    time. *)
Definition copyfile (src dst : pystr) : M unit :=
  fun w =>
    let fsys := fs w in
    match _samefile src dst fsys with
    | Raise e => (Raise e, w)
    | Ok true => (Raise SameFileError, w)
    | Ok false =>
    match _refuse_pipe src fsys with
    | Raise e => (Raise e, w)
    | Ok _ =>
    match _refuse_pipe dst fsys with
    | Raise e => (Raise e, w)
    | Ok _ =>
    match open_rb src fsys with
    | Raise e => (Raise e, w)
    | Ok (i, f) =>
    match open_wb dst fsys with
    | Raise IsADirectoryError =>
        (Raise (if exists_ dst fsys then IsADirectoryError
                else FileNotFoundError), w)
    | Raise e => (Raise e, w)
    | Ok j =>
        let atime :=
          match files fsys !! j with
          | Some (Regular g) => st_atime_ns g
          | _ => clock_ns w
          end in
        let read :=
          mk_file (content f) (accessed fsys f (clock_ns w)) (st_mtime_ns f) in
        let written := mk_file (content f) atime (clock_ns w) in
        (Ok tt,
         set_fs (set_files (<[j := Regular written]>
                              (<[i := Regular read]> (files fsys))) fsys) w)
    end end end end end.

(** [os.utime(path, (atime, mtime))], the times in whole seconds. The
    timestamps of folders and pipes are not kept. *)
Definition utime (path : pystr) (atime mtime : Z) : M unit :=
  fun w =>
    let fsys := fs w in
    match os_stat path fsys with
    | Raise e => (Raise e, w)
    | Ok (i, o) =>
        match denied fsys Stamping i with
        | Some e => (Raise (OSError_of e), w)
        | None =>
            match o with
            | Regular f =>
                let stamped :=
                  mk_file (content f) (atime * 1000000000) (mtime * 1000000000) in
                (Ok tt,
                 set_fs (set_files (<[i := Regular stamped]> (files fsys)) fsys) w)
            | _ => (Ok tt, w)
            end
        end
    end.

(** *** The terminal calls *)

(** [termios.tcsetattr(fd, termios.TCSADRAIN, mode)]. *)
Definition tcsetattr (mode : Termios.attrs) : M unit :=
  fun w => (Ok tt, set_tty mode w).

(** [termios.tcgetattr(fd)]. *)
Definition tcgetattr : M Termios.attrs := fun w => (Ok (tty w), w).

(** [tty.setcbreak(sys.stdin)]. *)
Definition setcbreak : M unit :=
  mode <- tcgetattr ;; tcsetattr (Termios.cbreak mode).

(** Lines 202-207, the loop
    [while key not in (10, 27): try: key = ord(sys.stdin.read(1))
     finally: termios.tcsetattr(fd, termios.TCSADRAIN, old)]
    on the input [input], with [cur] the attributes of the terminal and
    [log] the record of the reads. Each turn reads under the attributes in
    force, then runs the [finally] clause, which installs [old]; at the end
    of the input [read(1)] returns the empty string, on which [ord] raises
    [TypeError]. *)
Fixpoint key_loop (old : Termios.attrs) (key : Z) (input : list stdin_event)
    (cur : Termios.attrs) (log : list Termios.attrs)
    : result Z * (list stdin_event * Termios.attrs * list Termios.attrs) :=
  if (key =? 10) || (key =? 27) then (Ok key, (input, cur, log))
  else
    match input with
    | [] => (Raise TypeError, ([], old, log ++ [cur]))
    | Interrupt :: rest => (Raise KeyboardInterrupt, (rest, old, log ++ [cur]))
    | Char c :: rest => key_loop old (Z.of_N c) rest old (log ++ [cur])
    end.

(** Lines 194-207: the pending row is printed, the terminal is set not to
    echo and to deliver single keys, and keys are read until Enter (10) or
    Escape (27). *)
Definition read_key (pending_row : pystr) : M Z :=
  print pending_row carriage_return ;;
  old <- tcgetattr ;;
  new <- tcgetattr ;;
  let new := Termios.without_echo new in
  tcsetattr new ;;
  setcbreak ;;
  fun w =>
    let '(r, (input, cur, log)) := key_loop old 0 (stdin w) (tty w) (reads w) in
    (r, mk_world (fs w) (clock_ns w) cur input (stdout w) log).

(** ** The loop body of [main] *)

Module Args.
(** The parsed command line, as far as the loop reads it. *)
Record t : Type := mk {
  db_path : pystr;
  export_path : pystr;
  all : bool;
  date_in_name : bool;
  date_in_name_format : pystr
}.
End Args.

Module Row.
(** A row of [ZCLOUDRECORDING]: [ZDATE], [ZDURATION], [ZCUSTOMLABEL] and
    [ZPATH], which is [None] when the column is NULL. *)
Record t : Type := mk {
  ZDATE : float;
  ZDURATION : float;
  ZCUSTOMLABEL : pystr;
  ZPATH : option pystr
}.
End Row.

(** Lines 167-168: the path of the recording, empty when the row has none. *)
Definition path_old_of (args : Args.t) (row : Row.t) : pystr :=
  let recordings_dir := Path.dirname (Args.db_path args) in
  match Row.ZPATH row with
  | Some p => if truthy p then Path.join recordings_dir p else []
  | None => []
  end.

Section Loop.

(** [d.strftime(format)], which reads the time zone database. *)
Variable strftime : datetime -> pystr -> pystr.

(** Line 16: [local_tz = tzlocal.get_localzone()], the zone of the
    process. *)
Variable local_tz : tzinfo.

(** Lines 170-174: the name of the exported file. *)
Definition new_name (args : Args.t) (date : datetime) (label path_old : pystr)
    : pystr :=
  if Args.date_in_name args then
    let local_time_str := strftime date (Args.date_in_name_format args) in
    local_time_str ++ lit "_" ++ label ++ snd (Path.splitext path_old)
  else label ++ snd (Path.splitext path_old).

(** Lines 169-177: the path of the exported file, empty when there is no
    recording. *)
Definition path_new_of (args : Args.t) (date : datetime) (label path_old : pystr)
    : pystr :=
  if truthy path_old
  then Path.join (Args.export_path args) (new_name args date label path_old)
  else [].

(** Lines 157-159: the local date of the row. *)
Definition date_of (row : Row.t) : result datetime :=
  match fromtimestamp (PrimFloat.add (Row.ZDATE row) _dt_offset) UTC with
  | Raise e => Raise e
  | Ok date_utc => astimezone date_utc local_tz
  end.

(** Lines 159-162 and 178-185, with the [body_row] call of lines 189, 195,
    214 and 218: the row of the table for a record, with its status. *)
Definition table_row (date : datetime) (td : Timedelta.t)
    (path_old path_new status : pystr) : pystr :=
  let date_str := strftime date (lit "%d.%m.%Y %H:%M:%S") in
  let duration_str := duration_str td in
  let path_old_short := path_short (lit "Old Path") path_old in
  let path_new_short := path_short (lit "New Path") path_new in
  body_row (date_str, duration_str, path_old_short, path_new_short, status).

(** Lines 191-207: the key that decides on the record; in bulk mode it is
    10 without any read. *)
Definition decide_key (args : Args.t) (pending_row : pystr) : M Z :=
  if Args.all args then ret 10 else read_key pending_row.

(** Lines 210-214: the export of the recording. *)
Definition export (date : datetime) (path_old path_new exported_row : pystr)
    : M unit :=
  copyfile path_old path_new ;;
  let mod_time := mktime_timetuple date in
  utime path_new mod_time mod_time ;;
  print exported_row newline.

(** Lines 156-218: one turn of [for row in rows]. *)
Definition process_row (args : Args.t) (row : Row.t) : M unit :=
  date <- lift (date_of row) ;;
  td <- lift (Timedelta.of_seconds (Row.ZDURATION row)) ;;
  let label := label_of (Row.ZCUSTOMLABEL row) in
  let path_old := path_old_of args row in
  let path_new := path_new_of args date label path_old in
  let row_with := table_row date td path_old path_new in
  if negb (truthy path_old) then print (row_with (lit "No File")) newline
  else
    key <- decide_key args (row_with (lit "Export?")) ;;
    if key =? 10 then export date path_old path_new (row_with (lit "Exported!"))
    else if key =? 27 then print (row_with (lit "Not Exported")) newline
    else ret tt.

(** Line 154: [for row in rows]. *)
Fixpoint for_rows (args : Args.t) (rows : list Row.t) : M unit :=
  match rows with
  | [] => ret tt
  | row :: rows' => process_row args row ;; for_rows args rows'
  end.

End Loop.

(** ** The frame of the table and the run of [main] around the loop *)

(** [[f(c) for c in _cols]], as the arguments of a [format] call. *)
Definition col_cells (f : Col.t -> pystr) : cells :=
  match map f _cols with
  | [c0; c1; c2; c3; c4] => (c0, c1, c2, c3, c4)
  | _ => ([], [], [], [], [])
  end.

(** The horizontal line of the table, U+2500. *)
Definition dash : N := 9472.

(** [["─" * c["w"] for c in _cols]]. *)
Definition dashes : cells := col_cells (fun c => times dash (Col.w c)).

(** Line 149: the top border, with its corners U+250C and U+2510 and its
    junctions U+252C. *)
Definition top_border : pystr :=
  [9484%N; dash] ++ helper_str [dash; 9516%N; dash] dashes ++ [dash; 9488%N].

(** Line 150: the row of the column names. *)
Definition header_row : pystr :=
  [bar; 32%N] ++ helper_str [32%N; bar; 32%N] (col_cells Col.n) ++ [32%N; bar].

(** Line 151: the line under the names, with U+251C, U+253C and U+2524. *)
Definition separator : pystr :=
  [9500%N; dash] ++ helper_str [dash; 9532%N; dash] dashes ++ [dash; 9508%N].

(** Line 221: the bottom border, with U+2514, U+2534 and U+2518. *)
Definition bottom_border : pystr :=
  [9492%N; dash] ++ helper_str [dash; 9524%N; dash] dashes ++ [dash; 9496%N].

(** Line 79: the notice of the switch to bulk mode; it starts with the
    warning sign U+26A0 U+FE0F. *)
Definition notice : pystr :=
  [9888%N; 65039%N]
  ++ lit " Non-interactive environment detected, auto-switching to --all mode".

Definition set_all (v : bool) (args : Args.t) : Args.t :=
  Args.mk (Args.db_path args) (Args.export_path args) v
          (Args.date_in_name args) (Args.date_in_name_format args).

(** Lines 78-80: without a terminal on standard input ([sys.stdin.isatty()]
    false), interactive mode is given up for bulk mode, with a notice. *)
Definition auto_all (isatty : bool) (args : Args.t) : M Args.t :=
  if negb isatty && negb (Args.all args)
  then print notice newline ;; ret (set_all true args)
  else ret args.

(** Lines 144-151: the empty line, the instructions of interactive mode, and
    the head of the table. *)
Definition print_head (args : Args.t) : M unit :=
  print [] newline ;;
  (if negb (Args.all args) then
     print (lit "Press ENTER to export the memo shown in the current row or ESC to go to next memo.") newline ;;
     print (lit "Do not press other keys.") newline ;;
     print [] newline
   else ret tt) ;;
  print top_border newline ;;
  print header_row newline ;;
  print separator newline.

(** Lines 221-224: the bottom of the table and the closing statement. *)
Definition print_foot (args : Args.t) : M unit :=
  print bottom_border newline ;;
  print [] newline ;;
  print (lit "Done. Memos exported to: " ++ Args.export_path args) newline ;;
  print [] newline.

Section Run.

Variable strftime : datetime -> pystr -> pystr.
Variable local_tz : tzinfo.

(** Lines 143-224: the table, for the rows read from the database and the
    options with the export folder expanded and created. *)
Definition main_table (args : Args.t) (rows : list Row.t) : M unit :=
  print_head args ;;
  for_rows strftime local_tz args rows ;;
  print_foot args.

(** Lines 78-80, lines 136-137 and lines 143-224: the run of [main] on the
    rows read from the database, with the options that hold the export
    folder expanded and created. Without rows, [exit()] ends the run. *)
Definition run (isatty : bool) (args : Args.t) (rows : list Row.t) : M unit :=
  args <- auto_all isatty args ;;
  match rows with
  | [] => lift (Raise SystemExit)
  | _ :: _ => main_table args rows
  end.

End Run.

(** * Definitions for the statements

    Predicates and values the properties below are stated with; none of
    them is part of the program. *)

(** The printable characters of ASCII: from the space to the tilde. *)
Definition printable (c : N) : bool := ((32 <=? c) && (c <? 127))%N.

(** The last [k] decimal digits of [n]. *)
Fixpoint fixed_digits (k : nat) (n : Z) : pystr :=
  match k with
  | O => []
  | S k' => fixed_digits k' (n / 10) ++ [digit (n mod 10)]
  end.

(** The two digits of a number below 100. *)
Definition two_digits (n : Z) : pystr := [digit (n / 10); digit (n mod 10)].

(** The text [HH:MM:SS.cc] of a duration of [us] microseconds. *)
Definition hh_mm_ss_cc (us : Z) : pystr :=
  two_digits (us / 3600000000) ++ lit ":"
  ++ two_digits (us / 60000000 mod 60) ++ lit ":"
  ++ two_digits (us / 1000000 mod 60) ++ lit "."
  ++ two_digits (us mod 1000000 / 10000).

(** The row has no path: the column is NULL or empty. *)
Definition no_path (row : Row.t) : Prop :=
  Row.ZPATH row = None \/ Row.ZPATH row = Some [].

(** A terminal in its usual mode: keys are echoed and input comes line by
    line. *)
Definition cooked : Termios.attrs :=
  Termios.mk 11010 3 19200 (Z.lor 1216 (Z.lor Termios.ECHO Termios.ICANON))
             9600 9600 (replicate 20 0).

(** A file system without any file, where no path resolves. *)
Definition no_files : filesystem :=
  mk_filesystem (fun _ => Unresolved ENOENT) (fun _ _ => None)
                (fun f _ => st_atime_ns f) ∅.

(** A world with nothing printed and no file, whose user presses the keys
    [keys]. *)
Definition at_prompt (keys : list stdin_event) : world :=
  mk_world no_files 0 cooked keys [] [].

(** The command [m] reads no key and does not touch the terminal. *)
Definition no_terminal {A} (m : M A) : Prop :=
  forall w : world,
    stdin (snd (m w)) = stdin w /\ tty (snd (m w)) = tty w /\
    reads (snd (m w)) = reads w.

(** The options: the database and the export folder of a user [me], no date
    in the names, and bulk mode as [all] says. *)
Definition sample_args (all : bool) : Args.t :=
  Args.mk (lit "/Users/me/Library/Recordings/CloudRecordings.db")
          (lit "/Users/me/Voice Memos Export")
          all false (lit "%Y-%m-%d-%H-%M-%S_").

(** The record of the scenario of the specification, five seconds long. *)
Definition sample_row : Row.t :=
  Row.mk 700000000.0 5.0 (lit "Meeting Notes") (Some (lit "rec1.m4a")).

(** The same record without a recording. *)
Definition sample_row_no_file : Row.t :=
  Row.mk 700000000.0 5.0 (lit "Meeting Notes") None.

(** A local zone one hour east of UTC. *)
Definition sample_tz : tzinfo := mk_tzinfo (fun _ => 3600000000).

(** Its date, 1678307200.825232 seconds after the Unix epoch, and its
    duration. *)
Definition sample_date : datetime := mk_datetime 1678307200825232 sample_tz.
Definition sample_td : Timedelta.t := Timedelta.mk 0 5 0.

(** A stand-in for [strftime], which leaves the format as it is. *)
Definition sample_strftime (d : datetime) (format : pystr) : pystr := format.

(** The recording, and a world that holds it, with the keys the user will
    press. The folder of the recordings holds two places, the export
    folder two more; the second spelling of a path of the export folder,
    with two slashes, resolves to the place of the first. *)
Definition sample_file : file := mk_file [0; 0; 0; 28; 102; 116; 121; 112]%N 17 17.

Definition sample_paths : list (pystr * ino) :=
  [(lit "/Users/me/Library/Recordings/rec1.m4a", 1%N);
   (lit "/Users/me/Library/Recordings/rec2.m4a", 2%N);
   (lit "/Users/me/Voice Memos Export", 10%N);
   (lit "/Users/me/Voice Memos Export/", 10%N);
   (lit "/Users/me/Voice Memos Export/Meeting Notes.m4a", 11%N);
   (lit "/Users/me/Voice Memos Export//Meeting Notes.m4a", 11%N);
   (lit "/Users/me/Voice Memos Export/Shopping list.m4a", 12%N)].

Definition sample_node (p : pystr) : place :=
  match List.find (fun e => bool_decide (fst e = p)) sample_paths with
  | Some (_, i) => At i
  | None => Unresolved ENOENT
  end.

(** The sample file system with the files [v]: every access is permitted,
    and a read sets the access time. *)
Definition sample_fs (v : gmap ino obj) : filesystem :=
  mk_filesystem sample_node (fun _ _ => None) (fun _ now => now) v.

Definition sample_world (keys : list stdin_event) : world :=
  mk_world (sample_fs (<[10%N := Folder]> {[ 1%N := Regular sample_file ]}))
           1700000000000000000 cooked keys [] [].

(** The destination of a record: the path its recording is exported to,
    empty when the date of the record does not convert. *)
Definition destination (strftime : datetime -> pystr -> pystr)
    (local_tz : tzinfo) (args : Args.t) (row : Row.t) : pystr :=
  match date_of local_tz row with
  | Ok date =>
      path_new_of strftime args date (label_of (Row.ZCUSTOMLABEL row))
                  (path_old_of args row)
  | Raise _ => []
  end.

(** What is seen of a place without its access time: nothing, a folder, a
    pipe, or a regular file with its bytes and its modification time. *)
Definition seen (o : option obj) : option obj :=
  match o with
  | Some (Regular f) => Some (Regular (mk_file (content f) 0 (st_mtime_ns f)))
  | _ => o
  end.

(** The file system [b] comes after [a] in a run: paths resolve as before
    and the process may do what it might before; a regular file is still a
    regular file, a folder or a pipe is as it was, and a place that held
    nothing holds nothing or a regular file. *)
Definition evolves (a b : filesystem) : Prop :=
  node b = node a /\ denied b = denied a /\ accessed b = accessed a /\
  forall i : ino,
    match files a !! i with
    | Some (Regular _) => exists f, files b !! i = Some (Regular f)
    | Some o => files b !! i = Some o
    | None => files b !! i = None \/ exists f, files b !! i = Some (Regular f)
    end.

(** The command [m] lets the file system evolve. *)
Definition evolving {A} (m : M A) : Prop :=
  forall w : world, evolves (fs w) (fs (snd (m w))).

(** The command [m] leaves in view what is not at the places of the paths
    [touched]: every other place shows what it showed. With the view
    [seen], the access time of a file that was read is left out; with the
    whole view, nothing is. *)
Definition leaves {A} (view : option obj -> option obj)
    (touched : pystr -> Prop) (m : M A) : Prop :=
  forall (w : world) (i : ino),
    (forall p, touched p -> node (fs w) p <> At i) ->
    view (files (fs (snd (m w))) !! i) = view (files (fs w) !! i).

Definition whole (o : option obj) : option obj := o.

(** The places a copy from [src] to [dst] is known to leave in view: all
    but the place of [dst] with the view [seen]; all but those of [src] and
    [dst] with the whole view. *)
Definition written (src dst p : pystr) : Prop := p = dst.
Definition read_or_written (src dst p : pystr) : Prop := p = src \/ p = dst.

(** The recording at [src] can be exported to [dst] in the file system:
    [open(src, 'rb')] gives the file [f] at the place [i], [open(dst,
    'wb')] gives the place [j], another place than [i], and the process
    may set the times of the file at [j]. *)
Definition can_export (fsys : filesystem) (src dst : pystr)
    (i : ino) (f : file) (j : ino) : Prop :=
  open_rb src fsys = Ok (i, f) /\ open_wb dst fsys = Ok j /\
  denied fsys Stamping j = None /\ i <> j.

(** The file system after the export of the file [f] at the place [i] to
    the place [j], with the times [t] in whole seconds, read at the time
    [now]. *)
Definition exported (fsys : filesystem) (i : ino) (f : file) (j : ino)
    (t now : Z) : filesystem :=
  set_files
    (<[j := Regular (mk_file (content f) (t * 1000000000) (t * 1000000000))]>
       (<[i := Regular (mk_file (content f) (accessed fsys f now)
                                (st_mtime_ns f))]> (files fsys)))
    fsys.

(** A key that [read_key] discards: neither Enter nor Escape. *)
Definition discarded_key (d : N) : Prop := d <> 10%N /\ d <> 27%N.

(** A second record with the label of the first, three seconds long, and a
    world that holds both recordings. *)
Definition sample_row_2 : Row.t :=
  Row.mk 700000100.0 3.0 (lit "Meeting Notes") (Some (lit "rec2.m4a")).

Definition sample_file_2 : file := mk_file [1; 2; 3]%N 23 23.

Definition sample_world_2 : world :=
  mk_world (sample_fs (<[10%N := Folder]>
                         (<[2%N := Regular sample_file_2]>
                            {[ 1%N := Regular sample_file ]})))
           1700000000000000000 cooked [] [] [].

(** The indexes of the characters of [s] that satisfy [P]. *)
Definition positions (P : N -> bool) (s : pystr) : list nat :=
  map fst (List.filter (fun ic => P (snd ic)) (combine (seq 0 (length s)) s)).

(** The places of the vertical lines of the table. *)
Definition junctions : list nat := [0; 22; 36; 71; 134; 149]%nat.

(** The five cells fit their columns. *)
Definition cells_fit (c : cells) : Prop :=
  let '(c0, c1, c2, c3, c4) := c in
  (length c0 <= 19 /\ length c1 <= 11 /\ length c2 <= 32 /\
   length c3 <= 60 /\ length c4 <= 12)%nat.

(** The record can be exported in the file system [fsys]: its date and
    duration convert and, when it has a recording, the recording can be
    exported to the destination of the record. *)
Definition exportable (strftime : datetime -> pystr -> pystr)
    (local_tz : tzinfo) (args : Args.t) (fsys : filesystem) (row : Row.t)
    : Prop :=
  (exists date, date_of local_tz row = Ok date) /\
  (exists td, Timedelta.of_seconds (Row.ZDURATION row) = Ok td) /\
  (no_path row \/
   exists (i : ino) (f : file) (j : ino),
     can_export fsys (path_old_of args row)
                (destination strftime local_tz args row) i f j).

(** The line of a record in a bulk run: its row, with the status
    "Exported!" or, without a recording, "No File". *)
Definition bulk_line (strftime : datetime -> pystr -> pystr)
    (local_tz : tzinfo) (args : Args.t) (row : Row.t) : pystr :=
  match date_of local_tz row, Timedelta.of_seconds (Row.ZDURATION row) with
  | Ok date, Ok td =>
      table_row strftime date td (path_old_of args row)
        (destination strftime local_tz args row)
        (if truthy (path_old_of args row) then lit "Exported!" else lit "No File")
      ++ newline
  | _, _ => []
  end.

(** The text before the rows of a bulk run, and the text after the rows. *)
Definition bulk_head_text : pystr :=
  newline ++ top_border ++ newline ++ header_row ++ newline
  ++ separator ++ newline.

Definition foot_text (args : Args.t) : pystr :=
  bottom_border ++ newline ++ newline
  ++ (lit "Done. Memos exported to: " ++ Args.export_path args) ++ newline
  ++ newline.

(** The command [m] only adds to what was printed. *)
Definition appends {A} (m : M A) : Prop :=
  forall w : world, exists out : pystr, stdout (snd (m w)) = stdout w ++ out.

(** The days of [str(td)]: nothing for no day, ["1 day, "], ["-1 day, "],
    and ["D days, "] otherwise. *)
Definition day_text (d : Z) : pystr :=
  if d =? 0 then []
  else fmt_d d ++ lit " day" ++ (if Z.abs d =? 1 then [] else lit "s")
       ++ lit ", ".

(** The record has a recording: its path in the database is not empty. *)
Definition has_path (row : Row.t) : bool :=
  match Row.ZPATH row with
  | Some p => truthy p
  | None => false
  end.

(** The lines of a record in an interactive run where the user presses
    Escape: the pending row, rewritten in place by the row with the status
    "Not Exported"; or the row "No File" alone. *)
Definition skip_line (strftime : datetime -> pystr -> pystr)
    (local_tz : tzinfo) (args : Args.t) (row : Row.t) : pystr :=
  match date_of local_tz row, Timedelta.of_seconds (Row.ZDURATION row) with
  | Ok date, Ok td =>
      let row_with :=
        table_row strftime date td (path_old_of args row)
                  (destination strftime local_tz args row) in
      if has_path row
      then row_with (lit "Export?") ++ carriage_return
           ++ row_with (lit "Not Exported") ++ newline
      else row_with (lit "No File") ++ newline
  | _, _ => []
  end.

(** A third record, with a label of its own, for the second recording. *)
Definition sample_row_3 : Row.t :=
  Row.mk 700000100.0 3.0 (lit "Shopping list") (Some (lit "rec2.m4a")).

(** Two worlds with the same files and the same clock. *)
Definition same_files (w1 w2 : world) : Prop :=
  fs w1 = fs w2 /\ clock_ns w1 = clock_ns w2.

(** A float that is not a number or not finite, with the exception its
    conversion to an integer raises. *)
Definition not_finite (x : float) : option exn :=
  match Prim2SF x with
  | S754_infinity _ => Some OverflowError
  | S754_nan => Some ValueError
  | _ => None
  end.

(** A record whose duration is infinite. *)
Definition sample_row_endless : Row.t :=
  Row.mk 700000000.0 infinity (lit "Meeting Notes") (Some (lit "rec1.m4a")).

(** The options with the date in the names, in a format with slashes. *)
Definition sample_args_dated : Args.t :=
  Args.mk (lit "/Users/me/Library/Recordings/CloudRecordings.db")
          (lit "/Users/me/Voice Memos Export")
          true true (lit "%d/%m/%Y").

(** * Checks of the definitions on concrete values *)

Example lit_Z : lit "TZ/_" = [84; 90; 47; 95]%N.
Proof. reflexivity. Qed.

Example rfind_ex : rfind 46%N (lit "a.b.c") = 3 /\ rfind 46%N (lit "abc") = -1.
Proof. split; reflexivity. Qed.

Example slice_ex :
  slice_from (-3) (lit "abcdef") = lit "def" /\
  slice_from (-9) (lit "abc") = lit "abc" /\
  slice_to 4 (lit "abcdef") = lit "abcd".
Proof. repeat split; reflexivity. Qed.

Example fmt_ex :
  fmt_d 0 = lit "0" /\ fmt_d 1234 = lit "1234" /\ fmt_d (-17) = lit "-17" /\
  fmt_0d 2 7 = lit "07" /\ fmt_0d 6 825232 = lit "825232" /\
  fmt_0d 6 50 = lit "000050" /\ fmt_0d 2 123 = lit "123".
Proof. repeat split; reflexivity. Qed.

Example to_us_ex :
  Seconds.to_us 3661.5 = Ok 3661500000 /\
  Seconds.to_us 0.1 = Ok 100000 /\
  Seconds.to_us (-0.25) = Ok (-250000) /\
  Seconds.to_us 700000000.0 = Ok 700000000000000 /\
  Seconds.to_us 0.0000005 = Ok 0 /\
  Seconds.to_us 0.0000015 = Ok 2 /\
  Seconds.to_us infinity = Raise OverflowError /\
  Seconds.to_us nan = Raise ValueError.
Proof. repeat split; vm_compute; reflexivity. Qed.

Example duration_display_ex :
  duration_display 3661.5 = Ok (lit "01:01:01.50") /\
  duration_display 0 = Ok (lit "00:00:00.00") /\
  duration_display 45296.129999 = Ok (lit "12:34:56.12") /\
  duration_display 86400 = Ok (lit "1 day, 0:00:00.00") /\
  duration_display 200000.5 = Ok (lit "2 days, 7:33:20.50") /\
  duration_display (-1) = Ok (lit "-1 day, 23:59:59.00").
Proof. repeat split; vm_compute; reflexivity. Qed.

Example join_ex :
  Path.join (lit "") (lit "a") = lit "a" /\
  Path.join (lit "x") (lit "") = lit "x/" /\
  Path.join (lit "x/") (lit "a") = lit "x/a" /\
  Path.join (lit "x") (lit "/a") = lit "/a" /\
  Path.join (lit "/db/Recordings") (lit "rec1.m4a") = lit "/db/Recordings/rec1.m4a".
Proof. repeat split; reflexivity. Qed.

Example dirname_ex :
  Path.dirname (lit "a") = lit "" /\
  Path.dirname (lit "/a") = lit "/" /\
  Path.dirname (lit "//a") = lit "//" /\
  Path.dirname (lit "/x/y//a") = lit "/x/y" /\
  Path.dirname (lit "x/") = lit "x".
Proof. repeat split; reflexivity. Qed.

Example splitext_ex :
  Path.splitext (lit "/a/b.c/.m4a") = (lit "/a/b.c/.m4a", lit "") /\
  Path.splitext (lit "x..m4a") = (lit "x.", lit ".m4a") /\
  Path.splitext (lit "..m4a") = (lit "..m4a", lit "") /\
  Path.splitext (lit "a/b.c/d") = (lit "a/b.c/d", lit "") /\
  Path.splitext (lit "/db/rec1.m4a") = (lit "/db/rec1", lit ".m4a").
Proof. repeat split; reflexivity. Qed.

Example body_row_ex :
  body_row (lit "01.01.2024 10:00:00", lit "00:00:05.00", lit "", lit "", lit "No File")
  = [bar] ++ lit " 01.01.2024 10:00:00 " ++ [bar] ++ lit " 00:00:05.00 " ++ [bar]
    ++ times 32%N 34 ++ [bar] ++ times 32%N 62 ++ [bar] ++ lit " No File      " ++ [bar].
Proof. reflexivity. Qed.

Example label_ex :
  label_of (lit "Meeting Notes") = lit "Meeting Notes" /\
  label_of (lit "2023-05-01T10:00:00Z") = lit "VoiceMemo" /\
  label_of (lit "a/b" ++ [233%N; 8364%N] ++ lit "c") = lit "a_bc".
Proof. repeat split; reflexivity. Qed.

Example frame_ex :
  top_border = [9484%N] ++ times dash 21 ++ [9516%N] ++ times dash 13
               ++ [9516%N] ++ times dash 34 ++ [9516%N] ++ times dash 62
               ++ [9516%N] ++ times dash 14 ++ [9488%N] /\
  header_row = [bar] ++ lit " Date                " ++ [bar]
               ++ lit " Duration    " ++ [bar]
               ++ lit " Old Path                         " ++ [bar]
               ++ lit " New Path                                                     "
               ++ [bar] ++ lit " Status       " ++ [bar].
Proof. split; reflexivity. Qed.

(** * Strings: lengths, slices, searches *)

Lemma length_lit_times (c : N) (n : Z) : length (times c n) = Z.to_nat n.
Proof. unfold times. apply length_replicate. Qed.

Lemma length_format_width (w : Z) (s : pystr) :
  length (format_width w s) = Nat.max (Z.to_nat w) (length s).
Proof.
  unfold format_width, len. rewrite length_app, length_lit_times. lia.
Qed.

Lemma format_width_prefix (w : Z) (s : pystr) :
  take (length s) (format_width w s) = s.
Proof. unfold format_width. now rewrite take_app_length. Qed.

Lemma slice_from_tail (k : Z) (s : pystr) :
  0 < k <= len s ->
  slice_from (- k) s = drop (length s - Z.to_nat k) s /\
  length (slice_from (- k) s) = Z.to_nat k.
Proof.
  unfold slice_from, len. intros Hk.
  destruct (Z.ltb_spec (- k) 0) as [_ | H]; [| lia].
  replace (Z.to_nat (Z.of_nat (length s) + - k))
    with (length s - Z.to_nat k)%nat by lia.
  split; [reflexivity |]. rewrite length_drop. lia.
Qed.

Lemma slice_to_app_length (a b : pystr) : slice_to (len a) (a ++ b) = a.
Proof.
  unfold slice_to, len.
  destruct (Z.ltb_spec (Z.of_nat (length a)) 0) as [H | _]; [lia |].
  rewrite Nat2Z.id. apply take_app_length.
Qed.

(** * The table *)

Lemma getWidth_columns :
  getWidth (lit "Date") = 19 /\ getWidth (lit "Duration") = 11 /\
  getWidth (lit "Old Path") = 32 /\ getWidth (lit "New Path") = 60 /\
  getWidth (lit "Status") = 12.
Proof. repeat split; reflexivity. Qed.

(** The length of a body row: the frame takes 16 characters, and each cell
    takes its column's width or, when it is longer, its own length. *)
Lemma body_row_length (c0 c1 c2 c3 c4 : pystr) :
  length (body_row (c0, c1, c2, c3, c4)) =
  (16 + Nat.max 19 (length c0) + Nat.max 11 (length c1)
      + Nat.max 32 (length c2) + Nat.max 60 (length c3)
      + Nat.max 12 (length c4))%nat.
Proof.
  unfold body_row, helper_str, cell_list, _cols. cbn [zip_with Py.join Col.w].
  repeat (rewrite ?length_app, ?length_format_width; cbn [length]).
  change (Z.to_nat 19) with 19%nat. change (Z.to_nat 11) with 11%nat.
  change (Z.to_nat 32) with 32%nat. change (Z.to_nat 60) with 60%nat.
  change (Z.to_nat 12) with 12%nat. lia.
Qed.

(** A path shorter than the column less three is shown as it is. *)
Lemma path_short_small (column path : pystr) :
  len path < getWidth column - 3 -> path_short column path = path.
Proof.
  unfold path_short. intros H.
  destruct (Z.ltb_spec (len path) (getWidth column - 3)); [reflexivity | lia].
Qed.

(** Any other path is shown as three dots and its last characters, which
    fill the column. *)
Lemma path_short_large (column path : pystr) :
  3 < getWidth column -> getWidth column - 3 <= len path ->
  path_short column path =
    lit "..." ++ drop (length path - Z.to_nat (getWidth column - 3)) path /\
  len (path_short column path) = getWidth column.
Proof.
  unfold path_short. intros Hw H.
  destruct (Z.ltb_spec (len path) (getWidth column - 3)); [lia |].
  replace (- getWidth column + 3) with (- (getWidth column - 3)) by lia.
  destruct (slice_from_tail (getWidth column - 3) path) as [E L]; [lia |].
  rewrite E. split; [reflexivity |].
  rewrite <- E. unfold len. rewrite length_app, L. cbn [length lit]. 
  change (length (lit "...")) with 3%nat. lia.
Qed.

Lemma path_short_fits (column path : pystr) :
  3 < getWidth column -> len (path_short column path) <= getWidth column.
Proof.
  intros Hw. destruct (Z.lt_ge_cases (len path) (getWidth column - 3)) as [H | H].
  - rewrite path_short_small by exact H. lia.
  - destruct (path_short_large column path Hw H) as [_ L]. lia.
Qed.

(** C2, as stated, fails: [body_row] pads a cell but never cuts one, so a
    row with a cell longer than its column is longer than the others. The
    Duration cell of a recording of one day is such a cell. *)
Lemma body_row_length_not_constant :
  length (body_row (lit "01.01.2024 10:00:00", lit "00:00:05.00",
                    lit "", lit "", lit "No File")) = 150%nat /\
  length (body_row (lit "01.01.2024 10:00:00", lit "1 day, 0:00:00.00",
                    lit "", lit "", lit "No File")) = 156%nat /\
  take 17 (drop 24 (body_row (lit "01.01.2024 10:00:00", lit "1 day, 0:00:00.00",
                              lit "", lit "", lit "No File")))
  = lit "1 day, 0:00:00.00".
Proof. repeat split; reflexivity. Qed.

(** C2, amended: the row renderer pads every cell with spaces on the right
    up to the width of its column and cuts none; only the two path cells are
    shortened, before the row is rendered: a path shorter than the column
    less three is kept, any other becomes three dots followed by its last
    (width - 3) characters. So a row whose Date, Duration and Status cells
    fit their columns (19, 11 and 12 characters) and whose path cells are
    the shortened paths is 150 characters long, whatever the paths. *)
Theorem body_row_length_shortened_paths
    (date_str duration status path_old path_new : pystr) :
  len date_str <= 19 -> len duration <= 11 -> len status <= 12 ->
  length (body_row (date_str, duration,
                    path_short (lit "Old Path") path_old,
                    path_short (lit "New Path") path_new, status)) = 150%nat
  /\ (len path_old < 29 -> path_short (lit "Old Path") path_old = path_old)
  /\ (29 <= len path_old ->
      path_short (lit "Old Path") path_old
      = lit "..." ++ drop (length path_old - 29) path_old)
  /\ (len path_new < 57 -> path_short (lit "New Path") path_new = path_new)
  /\ (57 <= len path_new ->
      path_short (lit "New Path") path_new
      = lit "..." ++ drop (length path_new - 57) path_new).
Proof.
  intros Hd Hu Hs.
  destruct getWidth_columns as (_ & _ & Wo & Wn & _).
  assert (Lo := path_short_fits (lit "Old Path") path_old).
  assert (Ln := path_short_fits (lit "New Path") path_new).
  rewrite Wo in Lo. rewrite Wn in Ln.
  repeat split.
  - rewrite body_row_length. unfold len in *. lia.
  - intros H. apply path_short_small. rewrite Wo. lia.
  - intros H. destruct (path_short_large (lit "Old Path") path_old) as [E _];
      rewrite ?Wo; try lia. rewrite E, Wo. reflexivity.
  - intros H. apply path_short_small. rewrite Wn. lia.
  - intros H. destruct (path_short_large (lit "New Path") path_new) as [E _];
      rewrite ?Wn; try lia. rewrite E, Wn. reflexivity.
Qed.

(** The theorem on a recording whose source path has 50 characters: the Old
    Path cell is three dots and the last 29 characters of the path. *)
Lemma body_row_length_shortened_paths_witness :
  let path_old := lit "/Users/me/Library/Recordings/20240101 100000-A.m4a" in
  let path_new := lit "/Users/me/Voice Memos Export/Meeting Notes.m4a" in
  length (body_row (lit "01.01.2024 10:00:00", lit "00:00:05.00",
                    path_short (lit "Old Path") path_old,
                    path_short (lit "New Path") path_new,
                    lit "Exported!")) = 150%nat
  /\ path_short (lit "Old Path") path_old
     = lit "..." ++ drop (length path_old - 29) path_old.
Proof.
  intros path_old path_new.
  destruct (body_row_length_shortened_paths
              (lit "01.01.2024 10:00:00") (lit "00:00:05.00") (lit "Exported!")
              path_old path_new) as (L & _ & E & _);
    [vm_compute; discriminate ..| ].
  split; [exact L | apply E; vm_compute; discriminate].
Defined.

(** * Labels *)

Lemma ascii_ignore_cons (c : N) (s : pystr) :
  ascii_ignore (c :: s) =
  if (c <? 128)%N then c :: ascii_ignore s else ascii_ignore s.
Proof. reflexivity. Qed.

Lemma sanitize_cons (c : N) (s : pystr) :
  sanitize (c :: s) =
  if (c <? 128)%N then (if (c =? 47)%N then 95%N else c) :: sanitize s
  else sanitize s.
Proof.
  unfold sanitize. rewrite ascii_ignore_cons.
  destruct (c <? 128)%N; reflexivity.
Qed.

(** Every character of the label is a 7-bit one and none is a slash. *)
Lemma sanitize_ascii (raw : pystr) :
  Forall (fun c => (c < 128)%N /\ c <> 47%N) (sanitize raw).
Proof.
  induction raw as [| c s IH]; [constructor |].
  rewrite sanitize_cons.
  destruct (N.ltb_spec c 128) as [Hc | Hc]; [| exact IH].
  constructor; [| exact IH].
  destruct (N.eqb_spec c 47) as [-> | Hne]; split; (lia || assumption).
Qed.

(** A label of 7-bit characters without a slash is left as it is. *)
Lemma sanitize_clean (raw : pystr) :
  Forall (fun c => (c < 128)%N /\ c <> 47%N) raw -> sanitize raw = raw.
Proof.
  induction 1 as [| c s [Hc Hne] _ IH]; [reflexivity |].
  rewrite sanitize_cons, IH.
  destruct (N.ltb_spec c 128); [| lia].
  destruct (N.eqb_spec c 47); [contradiction | reflexivity].
Qed.

(** A 7-bit character other than the slash stays in the label: the control
    characters do. *)
Lemma sanitize_keeps (raw : pystr) (c : N) :
  (c < 128)%N -> c <> 47%N -> In c raw -> In c (sanitize raw).
Proof.
  intros Hc Hne. induction raw as [| x s IH]; [intros [] |].
  rewrite sanitize_cons. intros [-> | Hin].
  - destruct (N.ltb_spec c 128); [| lia].
    destruct (N.eqb_spec c 47); [contradiction | now left].
  - destruct (x <? 128)%N; [right |]; now apply IH.
Qed.

(** ['T' in s] and ['Z' in s] as membership. *)
Lemma contains_In (c : N) (s : pystr) : contains c s = true <-> In c s.
Proof.
  unfold contains. rewrite existsb_exists. split.
  - intros (x & Hin & E). apply N.eqb_eq in E. now subst.
  - intros Hin. exists c. split; [exact Hin | apply N.eqb_refl].
Qed.

(** A character of the label comes from the raw label: itself, or a slash
    turned into an underscore. *)
Lemma sanitize_from (raw : pystr) (c : N) :
  In c (sanitize raw) -> In c raw \/ (c = 95%N /\ In 47%N raw).
Proof.
  induction raw as [| x s IH]; [intros [] |].
  rewrite sanitize_cons.
  destruct (x <? 128)%N.
  - intros [E | Hin].
    + destruct (N.eqb_spec x 47) as [-> | _].
      * right. split; [now symmetry | now left].
      * left. now left.
    + destruct (IH Hin) as [H | [H1 H2]]; [left | right; split; trivial]; now right.
  - intros Hin.
    destruct (IH Hin) as [H | [H1 H2]]; [left | right; split; trivial]; now right.
Qed.

(** C3, as stated, fails: a tab is a 7-bit character, so it stays in the
    label, and it is not printable. *)
Lemma sanitize_keeps_control_character :
  sanitize (lit "Memo" ++ [9%N] ++ lit "1") = lit "Memo" ++ [9%N] ++ lit "1" /\
  In 9%N (sanitize (lit "Memo" ++ [9%N] ++ lit "1")) /\
  printable 9%N = false.
Proof.
  split; [reflexivity |]. split; [| reflexivity].
  apply sanitize_keeps; [lia | discriminate |].
  apply in_or_app. right. now left.
Qed.

(** C3, amended: the sanitized label is the raw label without the
    characters outside the 7-bit range (code points 128 and above), each
    slash replaced by an underscore. All its characters are 7-bit ones and
    none is a slash; the 7-bit characters other than the slash are kept as
    they are, the control characters among them. *)
Theorem sanitize_spec (raw : pystr) :
  sanitize raw
    = map (fun c => if (c =? 47)%N then 95%N else c)
          (List.filter (fun c => (c <? 128)%N) raw)
  /\ Forall (fun c => (c < 128)%N /\ c <> 47%N) (sanitize raw)
  /\ (forall c, (c < 128)%N -> c <> 47%N -> In c raw -> In c (sanitize raw))
  /\ (forall c, In c (sanitize raw) -> In c raw \/ (c = 95%N /\ In 47%N raw)).
Proof.
  split; [reflexivity |]. split; [apply sanitize_ascii |].
  split; [intros c; apply sanitize_keeps | intros c; apply sanitize_from].
Qed.

(** C7: a sanitized label that contains both a [T] and a [Z] is replaced by
    ["VoiceMemo"]; the naming options play no part in it. The same holds
    when the raw label contains the two letters, since both pass the
    sanitizing. *)
Theorem label_of_T_and_Z (row2 : pystr) :
  (In 84%N (sanitize row2) /\ In 90%N (sanitize row2)) \/
  (In 84%N row2 /\ In 90%N row2) ->
  label_of row2 = lit "VoiceMemo".
Proof.
  intros H.
  assert (In 84%N (sanitize row2) /\ In 90%N (sanitize row2)) as [HT HZ].
  { destruct H as [H | [HT HZ]]; [exact H |].
    split; apply sanitize_keeps; trivial; lia. }
  unfold label_of.
  apply contains_In in HT. apply contains_In in HZ.
  now rewrite HT, HZ.
Qed.

(** The label of the scenario of the specification. *)
Lemma label_of_T_and_Z_witness :
  label_of (lit "2023-05-01T10:00:00Z") = lit "VoiceMemo".
Proof.
  apply label_of_T_and_Z. right. split; apply contains_In; reflexivity.
Defined.

(** * Decimal digits *)

(** The recursion of [str_nat] has fuel to spare: with any two amounts of
    fuel above the binary length of [n], the digits are the same. *)
Lemma digits_fuel_enough (f : nat) :
  forall (n : Z) (g : nat),
    0 <= n < 2 ^ Z.of_nat (S f) -> n < 2 ^ Z.of_nat (S g) ->
    digits_fuel (S f) n = digits_fuel (S g) n.
Proof.
  induction f as [| f IH]; intros n g Hf Hg.
  - cbn [digits_fuel]. change (2 ^ Z.of_nat 1) with 2 in Hf.
    destruct (Z.ltb_spec n 10); [reflexivity | lia].
  - cbn [digits_fuel]. fold (digits_fuel (S f)).
    destruct (Z.ltb_spec n 10) as [| Hn]; [reflexivity |].
    destruct g as [| g].
    { change (2 ^ Z.of_nat 1) with 2 in Hg. lia. }
    fold (digits_fuel (S g)). f_equal.
    rewrite !Nat2Z.inj_succ, !Z.pow_succ_r in Hf, Hg by lia.
    apply IH; rewrite ?Nat2Z.inj_succ, ?Z.pow_succ_r by lia.
    + split; [apply Z.div_pos; lia |].
      apply Z.div_lt_upper_bound; lia.
    + apply Z.div_lt_upper_bound; lia.
Qed.

(** The equation of [str_nat]: the digits of [n / 10], then the last digit. *)
Lemma str_nat_unfold (n : Z) :
  10 <= n -> str_nat n = str_nat (n / 10) ++ [digit (n mod 10)].
Proof.
  intros Hn. unfold str_nat.
  assert (Hl := Z.log2_spec n ltac:(lia)).
  assert (Hq : 0 < n / 10) by (apply Z.div_str_pos; lia).
  assert (Hlq := Z.log2_spec (n / 10) Hq).
  assert (Hpos : 3 <= Z.log2 n) by (apply Z.log2_le_pow2; lia).
  destruct (Z.to_nat (Z.log2 n)) as [| L] eqn:EL; [lia |].
  cbn [digits_fuel]. fold (digits_fuel (S L)).
  destruct (Z.ltb_spec n 10); [lia |]. f_equal.
  assert (E2 : 2 ^ Z.succ (Z.log2 n) = 2 * 2 ^ Z.of_nat (S L)).
  { rewrite Z.pow_succ_r by lia. f_equal. f_equal. lia. }
  apply digits_fuel_enough.
  - split; [lia |]. apply Z.div_lt_upper_bound; lia.
  - rewrite Nat2Z.inj_succ, Z2Nat.id by apply Z.log2_nonneg. lia.
Qed.

Lemma str_nat_small (n : Z) : 0 <= n < 10 -> str_nat n = [digit n].
Proof.
  intros Hn. unfold str_nat. cbn [digits_fuel].
  destruct (Z.ltb_spec n 10); [reflexivity | lia].
Qed.

Lemma fixed_digits_S (k : nat) (n : Z) :
  fixed_digits (S k) n = fixed_digits k (n / 10) ++ [digit (n mod 10)].
Proof. reflexivity. Qed.

Lemma fixed_digits_zero (k : nat) : fixed_digits k 0 = times 48%N (Z.of_nat k).
Proof.
  unfold times. rewrite Nat2Z.id.
  induction k as [| k IH]; [reflexivity |].
  cbn [fixed_digits]. change (0 / 10) with 0. rewrite IH.
  change [digit (0 mod 10)] with (replicate 1 48%N).
  rewrite <- replicate_add. f_equal. lia.
Qed.

Lemma zfill_snoc (k : Z) (s : pystr) (d : N) :
  zfill (k + 1) (s ++ [d]) = zfill k s ++ [d].
Proof.
  unfold zfill, len. rewrite length_app, <- app_assoc. cbn [length].
  do 2 f_equal. lia.
Qed.

(** A number below [10^k], filled with zeros to [k] characters, shows its
    [k] digits. *)
Lemma zfill_str_nat (k : nat) :
  forall n : Z, 0 <= n < 10 ^ Z.of_nat (S k) ->
    zfill (Z.of_nat (S k)) (str_nat n) = fixed_digits (S k) n.
Proof.
  induction k as [| k IH]; intros n Hn.
  - change (10 ^ Z.of_nat 1) with 10 in Hn.
    rewrite str_nat_small by lia. cbn [fixed_digits app].
    rewrite Z.mod_small by lia. reflexivity.
  - rewrite (fixed_digits_S (S k)).
    rewrite (Nat2Z.inj_succ (S k)), <- Z.add_1_r.
    destruct (Z.lt_ge_cases n 10) as [Hs | Hb].
    + rewrite str_nat_small by lia.
      change [digit n] with ([] ++ [digit n]). rewrite zfill_snoc.
      rewrite Z.div_small, Z.mod_small by lia.
      rewrite fixed_digits_zero. unfold zfill, len. cbn [length].
      rewrite app_nil_r, Z.sub_0_r. reflexivity.
    + rewrite str_nat_unfold by lia. rewrite zfill_snoc. f_equal.
      apply IH. split; [apply Z.div_pos; lia |].
      apply Z.div_lt_upper_bound; [lia |].
      rewrite (Nat2Z.inj_succ (S k)), Z.pow_succ_r in Hn by lia. lia.
Qed.

Lemma fmt_0d_2 (n : Z) : 0 <= n < 100 -> fmt_0d 2 n = two_digits n.
Proof.
  intros Hn. unfold fmt_0d. destruct (Z.ltb_spec n 0); [lia |].
  rewrite (zfill_str_nat 1) by (change (10 ^ Z.of_nat 2) with 100; lia).
  unfold two_digits. cbn [fixed_digits app].
  rewrite (Z.mod_small (n / 10)); [reflexivity |].
  split; [apply Z.div_pos; lia | apply Z.div_lt_upper_bound; lia].
Qed.

Lemma fmt_0d_6 (n : Z) :
  0 <= n < 1000000 -> fmt_0d 6 n = fixed_digits 6 n.
Proof.
  intros Hn. unfold fmt_0d. destruct (Z.ltb_spec n 0); [lia |].
  apply (zfill_str_nat 5). change (10 ^ Z.of_nat 6) with 1000000. lia.
Qed.

Lemma fmt_d_one (n : Z) : 0 <= n < 10 -> fmt_d n = [digit n].
Proof.
  intros Hn. unfold fmt_d. destruct (Z.ltb_spec n 0); [lia |].
  now apply str_nat_small.
Qed.

Lemma fmt_d_two (n : Z) : 10 <= n < 100 -> fmt_d n = two_digits n.
Proof.
  intros Hn. unfold fmt_d. destruct (Z.ltb_spec n 0); [lia |].
  rewrite str_nat_unfold by lia. rewrite str_nat_small; [reflexivity |].
  split; [apply Z.div_pos; lia | apply Z.div_lt_upper_bound; lia].
Qed.

(** * The Duration column *)

Lemma contains_app (c : N) (a b : pystr) :
  contains c (a ++ b) = contains c a || contains c b.
Proof. unfold contains. apply existsb_app. Qed.

Lemma digit_no_dot (n : Z) : 0 <= n < 10 -> N.eqb 46 (digit n) = false.
Proof. intros Hn. apply N.eqb_neq. unfold digit. lia. Qed.

Lemma two_digits_no_dot (n : Z) :
  0 <= n < 100 -> contains 46%N (two_digits n) = false.
Proof.
  intros Hn. unfold two_digits, contains. cbn [existsb].
  rewrite !digit_no_dot; [reflexivity | |].
  - apply Z.mod_pos_bound. lia.
  - split; [apply Z.div_pos; lia | apply Z.div_lt_upper_bound; lia].
Qed.

Lemma fixed_digits_no_dot (k : nat) :
  forall n : Z, contains 46%N (fixed_digits k n) = false.
Proof.
  induction k as [| k IH]; intros n; [reflexivity |].
  rewrite fixed_digits_S, contains_app, IH. unfold contains. cbn [existsb].
  rewrite digit_no_dot; [reflexivity | apply Z.mod_pos_bound; lia].
Qed.

Lemma rfind_absent (c : N) (s : pystr) : contains c s = false -> rfind c s = -1.
Proof.
  induction s as [| x s IH]; [reflexivity |].
  unfold contains in *. cbn [existsb rfind]. intros H.
  apply orb_false_iff in H as [Hx Hs]. rewrite (IH Hs).
  rewrite N.eqb_sym, Hx. reflexivity.
Qed.

(** The last occurrence: [c] between [a] and a [b] without [c] is found at
    the length of [a]. *)
Lemma rfind_last (c : N) (a b : pystr) :
  contains c b = false -> rfind c (a ++ c :: b) = len a.
Proof.
  intros Hb. unfold len. induction a as [| x a IH].
  - cbn [app rfind length]. rewrite (rfind_absent c b Hb), N.eqb_refl.
    reflexivity.
  - cbn [app rfind length]. rewrite IH.
    destruct (Z.leb_spec 0 (Z.of_nat (length a))); lia.
Qed.

Lemma mod_60_two_digits (a : Z) : 0 <= a mod 60 < 100.
Proof. pose proof (Z.mod_pos_bound a 60). lia. Qed.

(** [str(td)] for a duration of [us] microseconds, from zero to less than a
    day. *)
Lemma timedelta_str_below_a_day (us : Z) :
  0 <= us < 86400000000 ->
  Timedelta.str (Timedelta.of_us us) =
    fmt_d (us / 3600000000) ++ lit ":" ++ two_digits (us / 60000000 mod 60)
    ++ lit ":" ++ two_digits (us / 1000000 mod 60)
    ++ (if us mod 1000000 =? 0 then []
        else lit "." ++ fixed_digits 6 (us mod 1000000)).
Proof.
  intros Hus. unfold Timedelta.str, Timedelta.of_us.
  cbn [Timedelta.days Timedelta.seconds Timedelta.microseconds].
  rewrite (Z.div_small us 86400000000), (Z.mod_small us 86400000000) by lia.
  cbn [Z.eqb].
  replace (us / 1000000 / 60 / 60) with (us / 3600000000)
    by (rewrite !Z.div_div by lia; reflexivity).
  replace (us / 1000000 / 60) with (us / 60000000)
    by (rewrite !Z.div_div by lia; reflexivity).
  rewrite !fmt_0d_2 by apply mod_60_two_digits.
  destruct (Z.eqb_spec (us mod 1000000) 0) as [E | E].
  - rewrite app_nil_r. reflexivity.
  - rewrite fmt_0d_6 by (apply Z.mod_pos_bound; lia).
    rewrite <- !app_assoc. reflexivity.
Qed.

Lemma length_hh_mm_ss_cc (us : Z) : length (hh_mm_ss_cc us) = 11%nat.
Proof. reflexivity. Qed.

Lemma slice_to_app_plus (a b : pystr) (k : Z) :
  0 <= k -> slice_to (len a + k) (a ++ b) = a ++ take (Z.to_nat k) b.
Proof.
  intros Hk. unfold slice_to, len.
  destruct (Z.ltb_spec (Z.of_nat (length a) + k) 0); [lia |].
  replace (Z.to_nat (Z.of_nat (length a) + k))
    with (length a + Z.to_nat k)%nat by lia.
  apply take_app_add.
Qed.

Lemma two_digits_one (n : Z) :
  0 <= n < 10 -> two_digits n = lit "0" ++ [digit n].
Proof.
  intros Hn. unfold two_digits.
  rewrite Z.div_small, Z.mod_small by lia. reflexivity.
Qed.

(** The first two of the six digits of the microseconds are the hundredths
    of a second. *)
Lemma take_2_fixed_digits_6 (n : Z) :
  0 <= n < 1000000 ->
  take 2 (fixed_digits 6 n) = two_digits (n / 10000).
Proof.
  intros Hn. cbn [fixed_digits app take]. unfold two_digits.
  rewrite !Z.div_div by lia. cbn [Z.mul Pos.mul Pos.add].
  rewrite (Z.mod_small (n / 100000)); [reflexivity |].
  split; [apply Z.div_pos; lia | apply Z.div_lt_upper_bound; lia].
Qed.

(** Lines 160-162 on a duration from zero to less than a day. *)
Lemma duration_str_below_a_day (us : Z) :
  0 <= us < 86400000000 ->
  duration_str (Timedelta.of_us us) = hh_mm_ss_cc us.
Proof.
  intros Hus. unfold duration_str, hh_mm_ss_cc.
  rewrite timedelta_str_below_a_day by exact Hus.
  assert (Hh : 0 <= us / 3600000000 < 24).
  { split; [apply Z.div_pos; lia | apply Z.div_lt_upper_bound; lia]. }
  assert (Hu := Z.mod_pos_bound us 1000000 ltac:(lia)).
  set (hh := us / 3600000000) in *.
  set (mm := two_digits (us / 60000000 mod 60)).
  set (ss := two_digits (us / 1000000 mod 60)).
  assert (Hmm : contains 46%N mm = false)
    by apply two_digits_no_dot, mod_60_two_digits.
  assert (Hss : contains 46%N ss = false)
    by apply two_digits_no_dot, mod_60_two_digits.
  assert (Lmm : length mm = 2%nat) by reflexivity.
  assert (Lss : length ss = 2%nat) by reflexivity.
  assert (Hfmt : fmt_d hh = (if hh <? 10 then [digit hh] else two_digits hh)).
  { destruct (Z.ltb_spec hh 10); [apply fmt_d_one | apply fmt_d_two]; lia. }
  assert (Hhd : contains 46%N (fmt_d hh) = false).
  { rewrite Hfmt. destruct (Z.ltb_spec hh 10).
    - unfold contains. cbn [existsb]. now rewrite digit_no_dot by lia.
    - apply two_digits_no_dot. lia. }
  assert (Lh : length (fmt_d hh) = if hh <? 10 then 1%nat else 2%nat).
  { rewrite Hfmt. now destruct (hh <? 10). }
  assert (E2 : two_digits hh
               = (if hh <? 10 then lit "0" ++ fmt_d hh else fmt_d hh)).
  { rewrite Hfmt. destruct (Z.ltb_spec hh 10); [| reflexivity].
    apply two_digits_one. lia. }
  rewrite E2. clear E2 Hfmt.
  set (base := fmt_d hh ++ lit ":" ++ mm ++ lit ":" ++ ss).
  assert (Hbase : contains 46%N base = false).
  { unfold base. rewrite !contains_app, Hhd, Hmm, Hss. reflexivity. }
  assert (Lbase : len base = if hh <? 10 then 7 else 8).
  { unfold base, len. rewrite !length_app, Lh, Lmm, Lss.
    now destruct (hh <? 10). }
  destruct (Z.eqb_spec (us mod 1000000) 0) as [E | E].
  - (* a whole number of seconds: ".00" is appended *)
    rewrite E. change (two_digits (0 / 10000)) with (lit "00").
    replace (fmt_d hh ++ lit ":" ++ mm ++ lit ":" ++ ss ++ []) with base
      by (unfold base; now rewrite app_nil_r).
    rewrite Hbase.
    replace (len (base ++ lit ".00")) with (len base + 3)
      by (unfold len; rewrite length_app; cbn [length lit]; 
          change (length (lit ".00")) with 3%nat; lia).
    rewrite Lbase. unfold base.
    destruct (hh <? 10); cbn [Z.add Pos.add Z.eqb Pos.eqb];
      rewrite <- ?app_assoc; reflexivity.
  - (* the digits after the second are cut *)
    replace (fmt_d hh ++ lit ":" ++ mm ++ lit ":" ++ ss
             ++ lit "." ++ fixed_digits 6 (us mod 1000000))
      with (base ++ 46%N :: fixed_digits 6 (us mod 1000000))
      by (unfold base; rewrite <- !app_assoc; reflexivity).
    assert (Hdot : contains 46%N
                     (base ++ 46%N :: fixed_digits 6 (us mod 1000000)) = true).
    { rewrite contains_app. unfold contains at 2. cbn [existsb].
      rewrite N.eqb_refl. apply orb_true_r. }
    rewrite Hdot.
    rewrite rfind_last by apply fixed_digits_no_dot.
    rewrite slice_to_app_plus by lia.
    change (Z.to_nat 3) with 3%nat.
    change (take 3 (46%N :: fixed_digits 6 (us mod 1000000)))
      with (46%N :: take 2 (fixed_digits 6 (us mod 1000000))).
    rewrite take_2_fixed_digits_6 by lia.
    replace (len (base ++ 46%N :: two_digits (us mod 1000000 / 10000)))
      with (len base + 3)
      by (unfold len; rewrite length_app; cbn [length two_digits]; lia).
    rewrite Lbase. unfold base.
    destruct (hh <? 10); cbn [Z.add Pos.add Z.eqb Pos.eqb];
      rewrite <- ?app_assoc; reflexivity.
Qed.

(** C10, as stated, fails just below one day: [timedelta] rounds the
    duration to the microsecond, so a duration in the last half microsecond
    before 86400 seconds becomes one day, whose text has 17 characters. *)
Lemma duration_display_rounds_up_to_a_day :
  PrimFloat.leb 0 86399.9999999 = true /\
  PrimFloat.ltb 86399.9999999 86400 = true /\
  Seconds.to_us 86399.9999999 = Ok 86400000000 /\
  duration_display 86399.9999999 = Ok (lit "1 day, 0:00:00.00") /\
  length (lit "1 day, 0:00:00.00") = 17%nat.
Proof. repeat split; vm_compute; reflexivity. Qed.

(** C10, amended: for every duration that [timedelta] rounds to a number of
    microseconds from zero to less than 86400 seconds, the text of the
    Duration column has exactly 11 characters, [HH:MM:SS.cc]: two digits
    each for the hours, the minutes and the seconds, a dot, and the first
    two digits of the microseconds (the others are cut; [.00] when there
    are none). *)
Theorem duration_display_format (x : float) (us : Z) :
  Seconds.to_us x = Ok us -> 0 <= us < 86400000000 ->
  let hh := us / 3600000000 in
  let mm := us / 60000000 mod 60 in
  let ss := us / 1000000 mod 60 in
  let cc := us mod 1000000 / 10000 in
  duration_display x
    = Ok (two_digits hh ++ lit ":" ++ two_digits mm ++ lit ":"
          ++ two_digits ss ++ lit "." ++ two_digits cc)
  /\ length (two_digits hh ++ lit ":" ++ two_digits mm ++ lit ":"
             ++ two_digits ss ++ lit "." ++ two_digits cc) = 11%nat
  /\ 0 <= hh < 24 /\ 0 <= mm < 60 /\ 0 <= ss < 60 /\ 0 <= cc < 100.
Proof.
  intros Hx Hus hh mm ss cc.
  split; [| split; [reflexivity |]].
  - unfold duration_display, Timedelta.of_seconds. rewrite Hx.
    unfold Timedelta.of_us at 1 2. cbn [Timedelta.days].
    rewrite (Z.div_small us 86400000000) by lia. cbn [Z.ltb Z.compare orb].
    f_equal. apply (duration_str_below_a_day us Hus).
  - assert (Hu := Z.mod_pos_bound us 1000000 ltac:(lia)).
    repeat split; try (apply Z.mod_pos_bound; lia).
    + apply Z.div_pos; lia.
    + apply Z.div_lt_upper_bound; lia.
    + apply Z.div_pos; lia.
    + apply Z.div_lt_upper_bound; lia.
Qed.

(** The theorem on a duration of one hour, one minute and a second and a
    half. *)
Lemma duration_display_format_witness :
  duration_display 3661.5 = Ok (lit "01:01:01.50").
Proof.
  apply (duration_display_format 3661.5 3661500000);
    [vm_compute; reflexivity | lia].
Defined.

(** * Dates *)

Lemma to_us_inv {A} (x : float) (k : Z -> result A) (a : A) :
  match Seconds.to_us x with Raise e => Raise e | Ok us => k us end = Ok a ->
  exists us : Z, Seconds.to_us x = Ok us /\ k us = Ok a.
Proof.
  destruct (Seconds.to_us x) as [us | e]; [| discriminate].
  intros H. now exists us.
Qed.

Lemma in_years_1_9999_spec (us : Z) :
  in_years_1_9999 us = true
  <-> -62135596800000000 <= us < 253402300800000000.
Proof. unfold in_years_1_9999, min_us, end_us. lia. Qed.

Lemma fromutc_ok (us : Z) (z : tzinfo) (d : datetime) :
  fromutc us z = Ok d ->
  d = mk_datetime us z /\ in_years_1_9999 (us + utcoffset z us) = true.
Proof.
  unfold fromutc. destruct (in_years_1_9999 _); [| discriminate].
  intros H. injection H as <-. now split.
Qed.

(** What [fromtimestamp] returns, when it returns. *)
Lemma fromtimestamp_ok (t : float) (z : tzinfo) (d : datetime) :
  fromtimestamp t z = Ok d ->
  Seconds.to_us t = Ok (timestamp_us d) /\ tz d = z /\
  -62135596800000000 <= timestamp_us d < 253402300800000000.
Proof.
  unfold fromtimestamp. intros H.
  apply to_us_inv in H as (us & Hus & H). cbv zeta in H.
  destruct ((us / 1000000 <? - 2 ^ 63) || (2 ^ 63 <? us / 1000000));
    [discriminate |].
  destruct ((us / 1000000 <? -67768040609740800)
            || (67768036191676799 <? us / 1000000)); [discriminate |].
  destruct (in_years_1_9999 us) eqn:Hr; cbn [negb] in H; [| discriminate].
  apply fromutc_ok in H as [-> _]. cbn [timestamp_us tz].
  apply in_years_1_9999_spec in Hr. repeat split; trivial; apply Hr.
Qed.

(** What [date_of] returns, when it returns: the instant of the rounded
    sum, in the local zone, where both the date in UTC and the local date
    lie in years 1 to 9999. *)
Lemma date_of_ok (local_tz : tzinfo) (row : Row.t) (date : datetime) :
  date_of local_tz row = Ok date ->
  Seconds.to_us (PrimFloat.add (Row.ZDATE row) _dt_offset)
  = Ok (timestamp_us date) /\
  tz date = local_tz /\
  -62135596800000000 <= timestamp_us date < 253402300800000000 /\
  -62135596800000000 <= timestamp_us date + utcoffset local_tz (timestamp_us date)
  < 253402300800000000.
Proof.
  unfold date_of. intros H.
  destruct (fromtimestamp _ UTC) as [date_utc | e] eqn:E; [| discriminate].
  destruct (fromtimestamp_ok _ _ _ E) as (Hus & Hz & Hr).
  unfold astimezone in H.
  destruct (in_years_1_9999 (timestamp_us date_utc)); [| discriminate].
  apply fromutc_ok in H as [-> Hl]. cbn [timestamp_us tz].
  apply in_years_1_9999_spec in Hl. repeat split; trivial; lia.
Qed.



(** * Paths *)

Lemma truthy_nonempty (s : pystr) : truthy s = true <-> s <> [].
Proof. destruct s; cbn; split; congruence. Qed.

Lemma join_nonempty_r (a b : pystr) : b <> [] -> Path.join a b <> [].
Proof.
  intros Hb. unfold Path.join.
  destruct (Path.startswith_sep b); [exact Hb |].
  destruct (negb (truthy a) || Path.endswith_sep a);
    intros E; apply app_eq_nil in E as [_ E]; [| discriminate E].
  contradiction.
Qed.

Lemma join_nonempty_l (a b : pystr) : a <> [] -> Path.join a b <> [].
Proof.
  intros Ha. unfold Path.join.
  destruct (Path.startswith_sep b) eqn:Eb.
  - destruct b; [discriminate Eb | discriminate].
  - destruct (negb (truthy a) || Path.endswith_sep a);
      intros E; apply app_eq_nil in E as [E _]; contradiction.
Qed.

Lemma path_old_of_empty (args : Args.t) (row : Row.t) :
  path_old_of args row = [] <-> no_path row.
Proof.
  unfold path_old_of, no_path. destruct (Row.ZPATH row) as [p |].
  - destruct p as [| c p]; cbn [truthy].
    + split; [now right | reflexivity].
    + split.
      * intros E. now apply join_nonempty_r in E.
      * intros [E | E]; discriminate E.
  - split; [now left | reflexivity].
Qed.

Lemma path_old_of_path (args : Args.t) (row : Row.t) (p : pystr) :
  Row.ZPATH row = Some p -> p <> [] ->
  path_old_of args row = Path.join (Path.dirname (Args.db_path args)) p.
Proof.
  intros E Hp. unfold path_old_of. rewrite E.
  apply truthy_nonempty in Hp. now rewrite Hp.
Qed.

Lemma path_short_nil :
  path_short (lit "Old Path") [] = [] /\ path_short (lit "New Path") [] = [].
Proof. split; reflexivity. Qed.

Section Planning.

Variable strftime : datetime -> pystr -> pystr.

Lemma path_new_of_empty (args : Args.t) (date : datetime) (label path_old : pystr) :
  Args.export_path args <> [] ->
  path_new_of strftime args date label path_old = [] <-> path_old = [].
Proof.
  intros He. unfold path_new_of. destruct path_old as [| c p]; cbn [truthy].
  - split; reflexivity.
  - split; [| discriminate]. intros E. now apply join_nonempty_l in E.
Qed.

End Planning.

(** * The key read *)

(** With Enter or Escape already in [key], the loop is over. *)
Lemma key_loop_done (old : Termios.attrs) (key : Z) (input : list stdin_event)
    (cur : Termios.attrs) (log : list Termios.attrs) :
  key = 10 \/ key = 27 ->
  key_loop old key input cur log = (Ok key, (input, cur, log)).
Proof.
  intros Hk.
  assert (E : (key =? 10) || (key =? 27) = true)
    by (destruct Hk; subst; reflexivity).
  destruct input as [| [c |] rest]; cbn [key_loop]; now rewrite E.
Qed.

(** One turn of the loop on a character. *)
Lemma key_loop_char (old : Termios.attrs) (key : Z) (c : N)
    (rest : list stdin_event) (cur : Termios.attrs) (log : list Termios.attrs) :
  key <> 10 -> key <> 27 ->
  key_loop old key (Char c :: rest) cur log
  = key_loop old (Z.of_N c) rest old (log ++ [cur]).
Proof.
  intros H1 H2. cbn [key_loop].
  destruct (Z.eqb_spec key 10); [contradiction |].
  destruct (Z.eqb_spec key 27); [contradiction | reflexivity].
Qed.

(** Whatever the input, a loop that starts without a decision ends with the
    terminal in the mode [old], and every read after the first one was made
    in that mode. *)
Lemma key_loop_modes (old : Termios.attrs) (input : list stdin_event) :
  forall (key : Z) (cur : Termios.attrs) (log : list Termios.attrs),
    key <> 10 -> key <> 27 ->
    exists n : nat,
      snd (key_loop old key input cur log)
      = (drop (S n) input, old, log ++ cur :: replicate n old).
Proof.
  induction input as [| [c |] rest IH]; intros key cur log H1 H2.
  - exists 0%nat. cbn [key_loop].
    destruct (Z.eqb_spec key 10); [contradiction |].
    destruct (Z.eqb_spec key 27); [contradiction | reflexivity].
  - rewrite key_loop_char by assumption.
    destruct (Z.eq_dec (Z.of_N c) 10) as [E | E1];
      [| destruct (Z.eq_dec (Z.of_N c) 27) as [E | E2]].
    + exists 0%nat. rewrite key_loop_done by now left. reflexivity.
    + exists 0%nat. rewrite key_loop_done by now right. reflexivity.
    + destruct (IH (Z.of_N c) old (log ++ [cur]) E1 E2) as [n Hn].
      exists (S n). rewrite Hn, <- app_assoc. reflexivity.
  - exists 0%nat. cbn [key_loop].
    destruct (Z.eqb_spec key 10); [contradiction |].
    destruct (Z.eqb_spec key 27); [contradiction | reflexivity].
Qed.

(** The world after [read_key], in terms of the loop. *)
Lemma read_key_unfold (pending_row : pystr) (w : world) :
  read_key pending_row w =
  let new := Termios.cbreak (Termios.without_echo (tty w)) in
  let '(r, (input, cur, log)) := key_loop (tty w) 0 (stdin w) new (reads w) in
  (r, mk_world (fs w) (clock_ns w) cur input
               (stdout w ++ pending_row ++ carriage_return) log).
Proof. reflexivity. Qed.

(** X1 (the part of C1 the code keeps): the terminal is in its prior mode
    when [read_key] is over, whether it returns a key or raises, on any
    input. *)
Lemma read_key_restores (pending_row : pystr) (w : world) :
  tty (snd (read_key pending_row w)) = tty w.
Proof.
  rewrite read_key_unfold. cbv zeta.
  destruct (key_loop_modes (tty w) (stdin w) 0
              (Termios.cbreak (Termios.without_echo (tty w))) (reads w))
    as [n Hn]; [discriminate .. |].
  destruct (key_loop _ _ _ _ _) as [r [[input cur] log]].
  cbn [snd] in Hn. injection Hn as _ -> _. reflexivity.
Qed.

(** X2: the reads of [read_key], on any input: the first is made in the
    mode without echo and with single keys, every later one in the prior
    mode. *)
Lemma read_key_reads (pending_row : pystr) (w : world) :
  exists n : nat,
    reads (snd (read_key pending_row w))
    = reads w ++ Termios.cbreak (Termios.without_echo (tty w))
                 :: replicate n (tty w).
Proof.
  rewrite read_key_unfold. cbv zeta.
  destruct (key_loop_modes (tty w) (stdin w) 0
              (Termios.cbreak (Termios.without_echo (tty w))) (reads w))
    as [n Hn]; [discriminate .. |].
  exists n.
  destruct (key_loop _ _ _ _ _) as [r [[input cur] log]].
  cbn [snd] in Hn. injection Hn as _ _ ->. reflexivity.
Qed.

(** The loop on keys that are discarded, then Enter or Escape: that key is
    returned, and the keys after it are not read. *)
Lemma key_loop_discards (old : Termios.attrs) (c : N) (rest : list stdin_event)
    (discarded : list N) :
  c = 10%N \/ c = 27%N ->
  Forall (fun d => d <> 10%N /\ d <> 27%N) discarded ->
  forall (key : Z) (cur : Termios.attrs) (log : list Termios.attrs),
    key <> 10 -> key <> 27 ->
    key_loop old key (map Char discarded ++ Char c :: rest) cur log
    = (Ok (Z.of_N c),
       (rest, old, log ++ cur :: replicate (length discarded) old)).
Proof.
  intros Hc. induction 1 as [| d ds [Hd1 Hd2] _ IH]; intros key cur log H1 H2.
  - cbn [map app]. rewrite key_loop_char by assumption.
    rewrite key_loop_done by (destruct Hc; subst; [now left | now right]).
    reflexivity.
  - cbn [map app]. rewrite key_loop_char by assumption.
    rewrite IH by lia. rewrite <- app_assoc. reflexivity.
Qed.

(** [read_key] on keys that are discarded, then Enter or Escape. *)
Lemma read_key_captures (pending_row : pystr) (w : world) (c : N)
    (rest : list stdin_event) (discarded : list N) :
  stdin w = map Char discarded ++ Char c :: rest ->
  Forall (fun d => d <> 10%N /\ d <> 27%N) discarded ->
  c = 10%N \/ c = 27%N ->
  read_key pending_row w
  = (Ok (Z.of_N c),
     mk_world (fs w) (clock_ns w) (tty w) rest
              (stdout w ++ pending_row ++ carriage_return)
              (reads w ++ Termios.cbreak (Termios.without_echo (tty w))
                       :: replicate (length discarded) (tty w))).
Proof.
  intros Hin Hd Hc. rewrite read_key_unfold, Hin. cbv zeta.
  rewrite (key_loop_discards (tty w) c rest discarded Hc Hd) by discriminate.
  reflexivity.
Qed.

(** C1, the code on the keys [a] then Enter: the first read is made without
    echo and with single keys; the [finally] clause of the first turn of
    the loop then puts the terminal back in its prior mode, and the second
    read is made in that mode, with echo and line by line. The prior mode
    is in force at the end. *)
Theorem read_key_second_read_in_prior_mode :
  let w' := snd (read_key [] (at_prompt [Char 97; Char 10])) in
  fst (read_key [] (at_prompt [Char 97; Char 10])) = Ok 10 /\
  reads w' = [Termios.cbreak (Termios.without_echo cooked); cooked] /\
  map Termios.raw_noecho (reads w') = [true; false] /\
  map Termios.echoes (reads w') = [false; true] /\
  tty w' = cooked.
Proof. cbv zeta. repeat split; vm_compute; reflexivity. Qed.

(** * The file system *)

Lemma open_rb_inv (p : pystr) (fsys : filesystem) (i : ino) (f : file) :
  open_rb p fsys = Ok (i, f) ->
  fsencode_error p = None /\ node fsys p = At i /\
  files fsys !! i = Some (Regular f) /\ denied fsys Reading i = None /\
  os_stat p fsys = Ok (i, Regular f).
Proof.
  unfold open_rb, os_stat.
  destruct (fsencode_error p); [discriminate |].
  destruct (node fsys p) as [i' | e]; [| discriminate].
  destruct (files fsys !! i') as [[f' | |] |] eqn:Hf; try discriminate.
  destruct (denied fsys Reading i') eqn:Hd; [discriminate |].
  intros H. injection H as <- <-. repeat split; trivial.
Qed.

Lemma open_wb_inv (p : pystr) (fsys : filesystem) (j : ino) :
  open_wb p fsys = Ok j ->
  fsencode_error p = None /\ node fsys p = At j /\
  (files fsys !! j = None \/ exists g, files fsys !! j = Some (Regular g)) /\
  denied fsys Writing j = None.
Proof.
  unfold open_wb.
  destruct (fsencode_error p); [discriminate |].
  destruct (node fsys p) as [j' | e]; [| discriminate].
  destruct (files fsys !! j') as [[g | |] |] eqn:Hf; try discriminate;
    (destruct (denied fsys Writing j') eqn:Hd; [discriminate |]);
    intros H; injection H as <-; repeat split; trivial;
    [right; now exists g | now left].
Qed.

(** The place of the destination is not the place of the source. *)
Lemma can_export_places (fsys : filesystem) (src dst : pystr)
    (i : ino) (f : file) (j : ino) :
  can_export fsys src dst i f j ->
  node fsys src = At i /\ node fsys dst = At j /\
  files fsys !! i = Some (Regular f) /\
  (files fsys !! j = None \/ exists g, files fsys !! j = Some (Regular g)).
Proof.
  intros (Hr & Hw & _ & _).
  apply open_rb_inv in Hr as (_ & Hi & Hf & _).
  apply open_wb_inv in Hw as (_ & Hj & Hg & _). now repeat split.
Qed.

(** What [copyfile] does: it raises and changes nothing, or it copies the
    file it could open to the place it could open, another place. *)
Lemma copyfile_cases (src dst : pystr) (w : world) :
  (exists e, copyfile src dst w = (Raise e, w)) \/
  (exists (i : ino) (f : file) (j : ino),
     open_rb src (fs w) = Ok (i, f) /\ open_wb dst (fs w) = Ok j /\ i <> j /\
     copyfile src dst w
     = (Ok tt,
        set_fs
          (set_files
             (<[j := Regular
                       (mk_file (content f)
                          match files (fs w) !! j with
                          | Some (Regular g) => st_atime_ns g
                          | _ => clock_ns w
                          end (clock_ns w))]>
                (<[i := Regular (mk_file (content f)
                                   (accessed (fs w) f (clock_ns w))
                                   (st_mtime_ns f))]> (files (fs w))))
             (fs w)) w)).
Proof.
  unfold copyfile. cbv zeta.
  destruct (_samefile src dst (fs w)) as [[|] | e] eqn:Hs;
    [left; eauto | | left; eauto].
  destruct (_refuse_pipe src (fs w)) as [[] | e]; [| left; eauto].
  destruct (_refuse_pipe dst (fs w)) as [[] | e]; [| left; eauto].
  destruct (open_rb src (fs w)) as [[i f] | e] eqn:Hr; [| left; eauto].
  destruct (open_wb dst (fs w)) as [j | e] eqn:Hw.
  2:{ left. destruct e; eauto. }
  right. exists i, f, j. repeat split; trivial.
  apply open_rb_inv in Hr as (_ & _ & Hf & _ & Hst).
  apply open_wb_inv in Hw as (He & Hj & Hg & _).
  unfold _samefile in Hs. rewrite Hst in Hs. unfold os_stat in Hs.
  rewrite He, Hj in Hs. intros <-. rewrite Hf in Hs.
  rewrite N.eqb_refl in Hs. discriminate Hs.
Qed.

(** The copy of a recording that can be exported. *)
Lemma copyfile_ok (src dst : pystr) (w : world) (i : ino) (f : file) (j : ino) :
  open_rb src (fs w) = Ok (i, f) -> open_wb dst (fs w) = Ok j -> i <> j ->
  copyfile src dst w
  = (Ok tt,
     set_fs
       (set_files
          (<[j := Regular
                    (mk_file (content f)
                       match files (fs w) !! j with
                       | Some (Regular g) => st_atime_ns g
                       | _ => clock_ns w
                       end (clock_ns w))]>
             (<[i := Regular (mk_file (content f)
                                (accessed (fs w) f (clock_ns w))
                                (st_mtime_ns f))]> (files (fs w))))
          (fs w)) w).
Proof.
  intros Hr Hw Hne. unfold copyfile. cbv zeta.
  destruct (open_rb_inv _ _ _ _ Hr) as (_ & _ & Hf & _ & Hst).
  destruct (open_wb_inv _ _ _ Hw) as (He & Hj & Hg & _).
  assert (Hs : _samefile src dst (fs w) = Ok false).
  { unfold _samefile. rewrite Hst. unfold os_stat. rewrite He, Hj.
    destruct Hg as [Hg | [g Hg]]; rewrite Hg; [reflexivity |].
    f_equal. now apply N.eqb_neq. }
  assert (Hp1 : _refuse_pipe src (fs w) = Ok tt)
    by (unfold _refuse_pipe; now rewrite Hst).
  assert (Hp2 : _refuse_pipe dst (fs w) = Ok tt).
  { unfold _refuse_pipe, os_stat. rewrite He, Hj.
    destruct Hg as [Hg | [g Hg]]; now rewrite Hg. }
  now rewrite Hs, Hp1, Hp2, Hr, Hw.
Qed.

(** What [utime] does: it raises and changes nothing, or it leaves a
    folder or a pipe as it is, or it stamps a regular file. *)
Lemma utime_cases (path : pystr) (atime mtime : Z) (w : world) :
  (exists e, utime path atime mtime w = (Raise e, w)) \/
  utime path atime mtime w = (Ok tt, w) \/
  (exists (i : ino) (f : file),
     node (fs w) path = At i /\ files (fs w) !! i = Some (Regular f) /\
     utime path atime mtime w
     = (Ok tt,
        set_fs
          (set_files
             (<[i := Regular (mk_file (content f) (atime * 1000000000)
                                      (mtime * 1000000000))]> (files (fs w)))
             (fs w)) w)).
Proof.
  unfold utime, os_stat. cbv zeta.
  destruct (fsencode_error path); [left; eauto |].
  destruct (node (fs w) path) as [i | e]; [| left; eauto].
  destruct (files (fs w) !! i) as [o |] eqn:Hf; [| left; eauto].
  destruct (denied (fs w) Stamping i); [left; eauto |].
  destruct o as [f | |]; [| right; now left | right; now left].
  right. right. exists i, f. now repeat split.
Qed.

(** The export of a recording that can be exported: the destination holds
    the bytes of the recording, and both its times are [mod_time] seconds;
    the recording was read. *)
Lemma export_ok (date : datetime) (path_old path_new exported_row : pystr)
    (w : world) (i : ino) (f : file) (j : ino) :
  can_export (fs w) path_old path_new i f j ->
  export date path_old path_new exported_row w
  = (Ok tt,
     mk_world
       (exported (fs w) i f j (mktime_timetuple date) (clock_ns w))
       (clock_ns w) (tty w) (stdin w)
       (stdout w ++ exported_row ++ newline) (reads w)).
Proof.
  intros (Hr & Hw & Hs & Hne). unfold export, bind.
  rewrite (copyfile_ok _ _ _ _ _ _ Hr Hw Hne).
  destruct (open_wb_inv _ _ _ Hw) as (He & Hj & _ & _).
  unfold utime, os_stat, set_fs, set_files. cbv zeta.
  cbn [fs node files denied accessed]. rewrite He, Hj, lookup_insert_eq, Hs.
  cbn [content fs clock_ns tty stdin stdout reads node files denied accessed].
  rewrite insert_insert_eq. reflexivity.
Qed.

(** What the export leaves at the two places, and at the others. *)
Lemma exported_lookup (fsys : filesystem) (i : ino) (f : file) (j : ino)
    (t now : Z) :
  i <> j ->
  files (exported fsys i f j t now) !! j
  = Some (Regular (mk_file (content f) (t * 1000000000) (t * 1000000000))) /\
  files (exported fsys i f j t now) !! i
  = Some (Regular (mk_file (content f) (accessed fsys f now) (st_mtime_ns f))) /\
  (forall k : ino, k <> i -> k <> j ->
                   files (exported fsys i f j t now) !! k = files fsys !! k) /\
  node (exported fsys i f j t now) = node fsys /\
  denied (exported fsys i f j t now) = denied fsys /\
  accessed (exported fsys i f j t now) = accessed fsys.
Proof.
  intros Hne. unfold exported, set_files. cbn [files node denied accessed].
  repeat split.
  - apply lookup_insert_eq.
  - rewrite lookup_insert_ne by congruence. apply lookup_insert_eq.
  - intros k Hi Hj. now rewrite !lookup_insert_ne by congruence.
Qed.

Lemma classic_no_path (row : Row.t) : no_path row \/ ~ no_path row.
Proof.
  unfold no_path. destruct (Row.ZPATH row) as [[| c p] |].
  - left. now right.
  - right. intros [H | H]; discriminate H.
  - left. now left.
Qed.

(** * What a command leaves alone *)

Lemma no_terminal_ret {A} (a : A) : no_terminal (ret a).
Proof. intros w. repeat split. Qed.

Lemma no_terminal_lift {A} (r : result A) : no_terminal (lift r).
Proof. intros w. repeat split. Qed.

Lemma no_terminal_bind {A B} (m : M A) (k : A -> M B) :
  no_terminal m -> (forall a, no_terminal (k a)) -> no_terminal (bind m k).
Proof.
  intros Hm Hk w. unfold bind. specialize (Hm w).
  destruct (m w) as [[a | e] w1]; cbn [snd] in *; [| exact Hm].
  destruct Hm as (H1 & H2 & H3), (Hk a w1) as (K1 & K2 & K3).
  repeat split; congruence.
Qed.

Lemma no_terminal_print (s e : pystr) : no_terminal (print s e).
Proof. intros w. repeat split. Qed.

Lemma no_terminal_copyfile (src dst : pystr) : no_terminal (copyfile src dst).
Proof.
  intros w.
  destruct (copyfile_cases src dst w) as [[e ->] | (i & f & j & _ & _ & _ & ->)];
    repeat split.
Qed.

Lemma no_terminal_utime (path : pystr) (atime mtime : Z) :
  no_terminal (utime path atime mtime).
Proof.
  intros w.
  destruct (utime_cases path atime mtime w)
    as [[e ->] | [-> | (i & f & _ & _ & ->)]]; repeat split.
Qed.

Lemma no_terminal_export (date : datetime) (path_old path_new row : pystr) :
  no_terminal (export date path_old path_new row).
Proof.
  unfold export. apply no_terminal_bind; [apply no_terminal_copyfile |].
  intros _. apply no_terminal_bind; [apply no_terminal_utime |].
  intros _. apply no_terminal_print.
Qed.

(** ** The file system evolves *)

Lemma evolves_refl (a : filesystem) : evolves a a.
Proof.
  repeat split. intros i. destruct (files a !! i) as [[f | |] |]; eauto.
Qed.

Lemma evolves_trans (a b c : filesystem) :
  evolves a b -> evolves b c -> evolves a c.
Proof.
  intros (N1 & D1 & A1 & H1) (N2 & D2 & A2 & H2).
  repeat split; try congruence. intros i. specialize (H1 i). specialize (H2 i).
  destruct (files a !! i) as [[f | |] |].
  - destruct H1 as [g Hg]. now rewrite Hg in H2.
  - now rewrite H1 in H2.
  - now rewrite H1 in H2.
  - destruct H1 as [Hn | [g Hg]]; [now rewrite Hn in H2 |].
    rewrite Hg in H2. now right.
Qed.

(** A regular file put where there was one, or nothing. *)
Lemma evolves_insert (a : filesystem) (i : ino) (f : file) :
  (files a !! i = None \/ exists g, files a !! i = Some (Regular g)) ->
  evolves a (set_files (<[i := Regular f]> (files a)) a).
Proof.
  intros Hi. repeat split. intros k. cbn [files set_files].
  destruct (decide (i = k)) as [<- | Hne].
  - rewrite lookup_insert_eq. destruct Hi as [-> | [g ->]]; eauto.
  - rewrite lookup_insert_ne by exact Hne.
    destruct (files a !! k) as [[g | |] |]; eauto.
Qed.

Lemma evolves_exported (fsys : filesystem) (src dst : pystr) (i : ino)
    (f : file) (j : ino) (t now : Z) :
  can_export fsys src dst i f j -> evolves fsys (exported fsys i f j t now).
Proof.
  intros H. destruct (can_export_places _ _ _ _ _ _ H) as (_ & _ & Hi & Hj).
  destruct H as (_ & _ & _ & Hne).
  destruct (exported_lookup fsys i f j t now Hne) as (Ej & Ei & Ek & _).
  repeat split. intros k.
  destruct (decide (k = j)) as [-> | Hkj].
  - rewrite Ej. destruct Hj as [-> | [g ->]]; eauto.
  - destruct (decide (k = i)) as [-> | Hki].
    + rewrite Ei, Hi. eauto.
    + rewrite (Ek k Hki Hkj). destruct (files fsys !! k) as [[g | |] |]; eauto.
Qed.

Lemma evolving_same {A} (m : M A) :
  (forall w, fs (snd (m w)) = fs w) -> evolving m.
Proof. intros H w. rewrite H. apply evolves_refl. Qed.

Lemma evolving_bind {A B} (m : M A) (k : A -> M B) :
  evolving m -> (forall a, evolving (k a)) -> evolving (bind m k).
Proof.
  intros Hm Hk w. unfold bind. specialize (Hm w).
  destruct (m w) as [[a | e] w1]; cbn [snd] in *; [| exact Hm].
  eapply evolves_trans; [exact Hm | apply Hk].
Qed.

Lemma evolving_copyfile (src dst : pystr) : evolving (copyfile src dst).
Proof.
  intros w.
  destruct (copyfile_cases src dst w)
    as [[e ->] | (i & f & j & Hr & Hw & Hne & ->)]; [apply evolves_refl |].
  apply open_rb_inv in Hr as (_ & _ & Hi & _).
  apply open_wb_inv in Hw as (_ & _ & Hj & _). cbn [snd fs set_fs].
  repeat split. intros k. cbn [files set_files].
  destruct (decide (j = k)) as [<- | Hkj].
  - rewrite lookup_insert_eq. destruct Hj as [-> | [g ->]]; eauto.
  - rewrite lookup_insert_ne by exact Hkj.
    destruct (decide (i = k)) as [<- | Hki].
    + rewrite lookup_insert_eq, Hi. eauto.
    + rewrite lookup_insert_ne by exact Hki.
      destruct (files (fs w) !! k) as [[g | |] |]; eauto.
Qed.

Lemma evolving_utime (path : pystr) (atime mtime : Z) :
  evolving (utime path atime mtime).
Proof.
  intros w.
  destruct (utime_cases path atime mtime w)
    as [[e ->] | [-> | (i & f & _ & Hf & ->)]]; try apply evolves_refl.
  cbn [snd fs set_fs]. apply evolves_insert. right. now exists f.
Qed.

(** The key read writes no file at all. *)
Lemma read_key_fs (pending_row : pystr) (w : world) :
  fs (snd (read_key pending_row w)) = fs w.
Proof.
  rewrite read_key_unfold. cbv zeta.
  destruct (key_loop _ _ _ _ _) as [r [[input cur] log]]. reflexivity.
Qed.

Lemma decide_key_fs (args : Args.t) (pending_row : pystr) (w : world) :
  fs (snd (decide_key args pending_row w)) = fs w.
Proof.
  unfold decide_key. destruct (Args.all args); [reflexivity |].
  apply read_key_fs.
Qed.

Lemma evolving_export (date : datetime) (path_old path_new row : pystr) :
  evolving (export date path_old path_new row).
Proof.
  unfold export. apply evolving_bind; [apply evolving_copyfile |].
  intros _. apply evolving_bind; [apply evolving_utime |].
  intros _. now apply evolving_same.
Qed.

(** ** The places that are written *)

Lemma leaves_ret {A} view (touched : pystr -> Prop) (a : A) :
  leaves view touched (ret a).
Proof. intros w i _. reflexivity. Qed.

Lemma leaves_print view (touched : pystr -> Prop) (s e : pystr) :
  leaves view touched (print s e).
Proof. intros w i _. reflexivity. Qed.

Lemma leaves_same {A} view (touched : pystr -> Prop) (m : M A) :
  (forall w, fs (snd (m w)) = fs w) -> leaves view touched m.
Proof. intros H w i _. now rewrite H. Qed.

Lemma leaves_bind {A B} view (touched : pystr -> Prop) (m : M A)
    (k : A -> M B) :
  evolving m ->
  leaves view touched m -> (forall a, leaves view touched (k a)) ->
  leaves view touched (bind m k).
Proof.
  intros He Hm Hk w i Hi. unfold bind.
  specialize (Hm w i Hi). destruct (He w) as (Hn & _).
  destruct (m w) as [[a | e] w1]; cbn [snd] in *; [| exact Hm].
  rewrite (Hk a w1 i); [exact Hm |].
  intros p Hp. rewrite Hn. now apply Hi.
Qed.

Lemma leaves_weaken {A} view (touched touched' : pystr -> Prop) (m : M A) :
  (forall p, touched p -> touched' p) ->
  leaves view touched m -> leaves view touched' m.
Proof. intros Hsub Hm w i Hi. apply Hm. intros p Hp. apply Hi, Hsub, Hp. Qed.

(** A copy changes the place of the destination and, by the access time
    only, the place of the source. *)
Lemma leaves_seen_copyfile (src dst : pystr) :
  leaves seen (written src dst) (copyfile src dst).
Proof.
  intros w k Hk.
  destruct (copyfile_cases src dst w)
    as [[e ->] | (i & f & j & Hr & Hw & Hne & ->)]; [reflexivity |].
  apply open_rb_inv in Hr as (_ & _ & Hi & _).
  apply open_wb_inv in Hw as (_ & Hj & _).
  cbn [snd fs set_fs files set_files].
  rewrite lookup_insert_ne by (intros <-; now apply (Hk dst)).
  destruct (decide (i = k)) as [<- | Hik].
  - rewrite lookup_insert_eq, Hi. reflexivity.
  - now rewrite lookup_insert_ne.
Qed.

Lemma leaves_whole_copyfile (src dst : pystr) :
  leaves whole (read_or_written src dst) (copyfile src dst).
Proof.
  intros w k Hk.
  destruct (copyfile_cases src dst w)
    as [[e ->] | (i & f & j & Hr & Hw & Hne & ->)]; [reflexivity |].
  apply open_rb_inv in Hr as (_ & Hi & _).
  apply open_wb_inv in Hw as (_ & Hj & _).
  cbn [snd fs set_fs files set_files]. unfold whole.
  rewrite lookup_insert_ne by (intros <-; apply (Hk dst); [now right | exact Hj]).
  now rewrite lookup_insert_ne
    by (intros <-; apply (Hk src); [now left | exact Hi]).
Qed.

Lemma leaves_utime view (touched : pystr -> Prop) (path : pystr)
    (atime mtime : Z) :
  touched path -> leaves view touched (utime path atime mtime).
Proof.
  intros Ht w k Hk.
  destruct (utime_cases path atime mtime w)
    as [[e ->] | [-> | (i & f & Hn & _ & ->)]]; try reflexivity.
  cbn [snd fs set_fs files set_files].
  rewrite lookup_insert_ne by (intros <-; now apply (Hk path)). reflexivity.
Qed.

(** * The engine: one record *)

Section Engine.

Variable strftime : datetime -> pystr -> pystr.
Variable local_tz : tzinfo.

(** A record without a recording: one row, and nothing else happens. *)
Lemma process_row_no_file (args : Args.t) (row : Row.t) (date : datetime)
    (td : Timedelta.t) (w : world) :
  date_of local_tz row = Ok date ->
  Timedelta.of_seconds (Row.ZDURATION row) = Ok td ->
  no_path row ->
  process_row strftime local_tz args row w
  = (Ok tt,
     set_stdout (stdout w ++ table_row strftime date td [] [] (lit "No File")
                          ++ newline) w).
Proof.
  intros Hd Ht Hn. apply (path_old_of_empty args) in Hn.
  unfold process_row, bind, lift. rewrite Hd, Ht, Hn. reflexivity.
Qed.

(** A record with a recording: the key decides. *)
Lemma process_row_with_file (args : Args.t) (row : Row.t) (date : datetime)
    (td : Timedelta.t) (w : world) :
  date_of local_tz row = Ok date ->
  Timedelta.of_seconds (Row.ZDURATION row) = Ok td ->
  ~ no_path row ->
  let path_old := path_old_of args row in
  let path_new :=
    path_new_of strftime args date (label_of (Row.ZCUSTOMLABEL row)) path_old in
  let row_with := table_row strftime date td path_old path_new in
  process_row strftime local_tz args row w
  = bind (decide_key args (row_with (lit "Export?")))
         (fun key =>
            if key =? 10
            then export date path_old path_new (row_with (lit "Exported!"))
            else if key =? 27
                 then print (row_with (lit "Not Exported")) newline
                 else ret tt) w.
Proof.
  intros Hd Ht Hn path_old path_new row_with.
  assert (Hp : truthy path_old = true).
  { apply truthy_nonempty. intros E. apply Hn.
    now apply (path_old_of_empty args). }
  unfold process_row. unfold bind at 1 2, lift. rewrite Hd, Ht.
  fold path_old. rewrite Hp. reflexivity.
Qed.

(** In bulk mode the turn of a record with a recording is its export. *)
Lemma process_row_bulk (args : Args.t) (row : Row.t) (date : datetime)
    (td : Timedelta.t) (w : world) :
  Args.all args = true ->
  date_of local_tz row = Ok date ->
  Timedelta.of_seconds (Row.ZDURATION row) = Ok td ->
  ~ no_path row ->
  let path_old := path_old_of args row in
  let path_new :=
    path_new_of strftime args date (label_of (Row.ZCUSTOMLABEL row)) path_old in
  process_row strftime local_tz args row w
  = export date path_old path_new
      (table_row strftime date td path_old path_new (lit "Exported!")) w.
Proof.
  intros Hall Hd Ht Hn path_old path_new.
  rewrite (process_row_with_file args row date td w Hd Ht Hn).
  fold path_old. fold path_new.
  unfold bind, decide_key. rewrite Hall. reflexivity.
Qed.

(** In bulk mode a record is processed without a read and without a change
    of the terminal, whatever the outcome. *)
Lemma process_row_bulk_no_terminal (args : Args.t) (row : Row.t) :
  Args.all args = true -> no_terminal (process_row strftime local_tz args row).
Proof.
  intros Hall. unfold process_row.
  apply no_terminal_bind; [apply no_terminal_lift | intros date].
  apply no_terminal_bind; [apply no_terminal_lift | intros td].
  destruct (negb (truthy (path_old_of args row))); [apply no_terminal_print |].
  apply no_terminal_bind.
  - unfold decide_key. rewrite Hall. apply no_terminal_ret.
  - intros key. destruct (key =? 10); [apply no_terminal_export |].
    destruct (key =? 27); [apply no_terminal_print | apply no_terminal_ret].
Qed.

Lemma for_rows_bulk_no_terminal (args : Args.t) (rows : list Row.t) :
  Args.all args = true -> no_terminal (for_rows strftime local_tz args rows).
Proof.
  intros Hall. induction rows as [| row rows IH]; cbn [for_rows].
  - apply no_terminal_ret.
  - apply no_terminal_bind; [now apply process_row_bulk_no_terminal |].
    intros _. exact IH.
Qed.

(** The loop lets the file system evolve, in either mode and whatever the
    outcome. *)
Lemma evolving_process_row (args : Args.t) (row : Row.t) :
  evolving (process_row strftime local_tz args row).
Proof.
  unfold process_row.
  apply evolving_bind; [now apply evolving_same | intros date].
  apply evolving_bind; [now apply evolving_same | intros td].
  cbv zeta. destruct (negb (truthy (path_old_of args row)));
    [now apply evolving_same |].
  apply evolving_bind.
  - apply evolving_same. apply decide_key_fs.
  - intros key. destruct (key =? 10); [apply evolving_export |].
    destruct (key =? 27); now apply evolving_same.
Qed.

Lemma evolving_for_rows (args : Args.t) (rows : list Row.t) :
  evolving (for_rows strftime local_tz args rows).
Proof.
  induction rows as [| row rows IH]; cbn [for_rows].
  - now apply evolving_same.
  - apply evolving_bind; [apply evolving_process_row | intros _; exact IH].
Qed.

(** The places the loop leaves in view, for a view and the places a copy
    is known to leave in that view. *)
Section Leaves.

Variable view : option obj -> option obj.
Variable touched : pystr -> pystr -> pystr -> Prop.
Hypothesis touched_dst : forall src dst, touched src dst dst.
Hypothesis leaves_copyfile :
  forall src dst, leaves view (touched src dst) (copyfile src dst).

Lemma leaves_export (date : datetime) (path_old path_new row : pystr) :
  leaves view (touched path_old path_new)
         (export date path_old path_new row).
Proof.
  unfold export.
  apply leaves_bind; [apply evolving_copyfile | apply leaves_copyfile |].
  intros _.
  apply leaves_bind;
    [apply evolving_utime | apply leaves_utime, touched_dst |].
  intros _. apply leaves_print.
Qed.

(** The turn of a record touches the places of its export only, and no
    place when the record has no recording. *)
Lemma leaves_process_row (args : Args.t) (row : Row.t) :
  leaves view
    (fun p => has_path row = true
              /\ touched (path_old_of args row)
                         (destination strftime local_tz args row) p)
    (process_row strftime local_tz args row).
Proof.
  intros w i Hi. unfold destination in Hi. unfold process_row.
  unfold bind at 1, lift at 1.
  destruct (date_of local_tz row) as [date | e]; [| reflexivity].
  unfold bind at 1, lift.
  destruct (Timedelta.of_seconds (Row.ZDURATION row)) as [td | e];
    [| reflexivity].
  cbv zeta.
  destruct (truthy (path_old_of args row)) eqn:Hp; cbn [negb]; [| reflexivity].
  assert (Hh : has_path row = true).
  { unfold has_path. unfold path_old_of in Hp.
    destruct (Row.ZPATH row) as [p |]; [| discriminate Hp].
    destruct (truthy p); [reflexivity | discriminate Hp]. }
  refine (leaves_bind view
            (touched (path_old_of args row)
               (path_new_of strftime args date
                  (label_of (Row.ZCUSTOMLABEL row)) (path_old_of args row)))
            _ _ _ _ _ w i _).
  - apply evolving_same. apply decide_key_fs.
  - apply leaves_same. apply decide_key_fs.
  - intros key. destruct (key =? 10); [apply leaves_export |].
    destruct (key =? 27); [apply leaves_print | apply leaves_ret].
  - intros p Hp'. apply Hi. now split.
Qed.

Lemma leaves_for_rows (args : Args.t) (rows : list Row.t) :
  leaves view
    (fun p => exists row, In row rows /\ has_path row = true
                          /\ touched (path_old_of args row)
                                     (destination strftime local_tz args row) p)
    (for_rows strftime local_tz args rows).
Proof.
  induction rows as [| row rows IH]; cbn [for_rows].
  - apply leaves_ret.
  - apply leaves_bind.
    + apply evolving_process_row.
    + eapply leaves_weaken; [| apply leaves_process_row].
      cbn beta. intros p [Hp E]. exists row. split; [now left | now split].
    + intros _. eapply leaves_weaken; [| exact IH].
      cbn beta. intros p (r & Hin & H). exists r. split; [now right | exact H].
Qed.

End Leaves.

(** A record that can be exported can be exported later in the run. *)
Lemma can_export_later (a b : filesystem) (src dst : pystr) (i : ino)
    (f : file) (j : ino) :
  evolves a b -> can_export a src dst i f j ->
  exists f', can_export b src dst i f' j.
Proof.
  intros (Hn & Hd & _ & Hk) (Hr & Hw & Hs & Hne).
  apply open_rb_inv in Hr as (He1 & Hi & Hf & Hr & _).
  apply open_wb_inv in Hw as (He2 & Hj & Hg & Hw).
  assert (Hi' := Hk i). rewrite Hf in Hi'. destruct Hi' as [f' Hf'].
  exists f'. unfold can_export, open_rb, open_wb, os_stat.
  rewrite He1, He2, Hn, Hd, Hi, Hj, Hf', Hr, Hw, Hs.
  repeat split; trivial.
  assert (Hj' := Hk j).
  destruct Hg as [Hg | [g Hg]]; rewrite Hg in Hj'.
  - destruct Hj' as [-> | [g' ->]]; reflexivity.
  - destruct Hj' as [g' ->]. reflexivity.
Qed.

Lemma exportable_later (args : Args.t) (a b : filesystem) (row : Row.t) :
  evolves a b ->
  exportable strftime local_tz args a row ->
  exportable strftime local_tz args b row.
Proof.
  intros He (Hd & Ht & [Hn | (i & f & j & H)]); repeat split; trivial.
  - now left.
  - right. destruct (can_export_later _ _ _ _ _ _ _ He H) as [f' H'].
    now exists i, f', j.
Qed.

(** The loop in bulk mode on records that can all be exported. *)
Lemma for_rows_bulk_run (args : Args.t) (rows : list Row.t) :
  Args.all args = true ->
  forall w : world,
    Forall (exportable strftime local_tz args (fs w)) rows ->
    exists fs' : filesystem,
      for_rows strftime local_tz args rows w
      = (Ok tt,
         mk_world fs' (clock_ns w) (tty w) (stdin w)
                  (stdout w ++ concat (map (bulk_line strftime local_tz args) rows))
                  (reads w)) /\
      evolves (fs w) fs' /\
      (forall row, In row rows -> ~ no_path row ->
                   exists (j : ino) (g : file),
                     node fs' (destination strftime local_tz args row) = At j /\
                     files fs' !! j = Some (Regular g)).
Proof.
  intros Hall. induction rows as [| row rows IH]; intros w Hrows.
  - exists (fs w). cbn [for_rows map concat]. rewrite app_nil_r.
    destruct w. repeat split; [apply evolves_refl | intros row []].
  - apply Forall_cons in Hrows as [Hrow Hrows].
    destruct Hrow as ([date Hd] & [td Ht] & Hcase).
    assert (Hdest : destination strftime local_tz args row
                    = path_new_of strftime args date
                        (label_of (Row.ZCUSTOMLABEL row)) (path_old_of args row))
      by (unfold destination; now rewrite Hd).
    assert (Hline : forall status,
               (if truthy (path_old_of args row) then lit "Exported!"
                else lit "No File") = status ->
               bulk_line strftime local_tz args row
               = table_row strftime date td (path_old_of args row)
                   (destination strftime local_tz args row) status ++ newline)
      by (intros status <-; unfold bulk_line; now rewrite Hd, Ht).
    cbn [for_rows]. unfold bind at 1.
    destruct (classic_no_path row) as [Hn | Hn].
    + (* no recording *)
      rewrite (process_row_no_file args row date td w Hd Ht Hn).
      assert (Ho : path_old_of args row = []) by now apply path_old_of_empty.
      set (w1 := set_stdout _ w).
      destruct (IH w1) as (fs' & Erun & Hev & Hdst); [exact Hrows |].
      exists fs'. split; [| split].
      * rewrite Erun. subst w1. cbn [clock_ns tty stdin stdout reads set_stdout].
        cbn [map concat]. rewrite (Hline (lit "No File")) by now rewrite Ho.
        rewrite Hdest, Ho. unfold path_new_of. cbn [truthy].
        rewrite <- !app_assoc. reflexivity.
      * exact Hev.
      * intros r [<- | Hin] Hr; [contradiction | now apply Hdst].
    + (* a recording *)
      destruct Hcase as [Hn' | (i & f & j & Hcan)]; [contradiction |].
      rewrite (process_row_bulk args row date td w Hall Hd Ht Hn).
      cbv zeta. rewrite <- Hdest.
      rewrite (export_ok date _ _ _ w i f j Hcan).
      set (w1 := mk_world _ _ _ _ _ _).
      assert (K1 : evolves (fs w) (fs w1))
        by (subst w1; cbn [fs]; eapply evolves_exported; exact Hcan).
      destruct (IH w1) as (fs' & Erun & Hev & Hdst).
      { eapply Forall_impl; [exact Hrows |]. intros r.
        now apply exportable_later. }
      exists fs'. split; [| split].
      * rewrite Erun. subst w1. cbn [clock_ns tty stdin stdout reads].
        cbn [map concat]. rewrite (Hline (lit "Exported!")).
        -- rewrite <- !app_assoc. reflexivity.
        -- assert (Hp : truthy (path_old_of args row) = true).
           { apply truthy_nonempty. intros E. apply Hn.
             now apply (path_old_of_empty args). }
           now rewrite Hp.
      * eapply evolves_trans; [exact K1 | exact Hev].
      * intros r [<- | Hin] Hr; [| now apply Hdst].
        destruct (can_export_places _ _ _ _ _ _ Hcan) as (_ & Hj & _).
        destruct Hcan as (_ & _ & _ & Hne).
        destruct Hev as (Hn1 & _ & _ & Hk). specialize (Hk j).
        subst w1. cbn [fs] in Hk, Hn1.
        destruct (exported_lookup (fs w) i f j (mktime_timetuple date)
                    (clock_ns w) Hne) as (Ej & _ & _ & En & _).
        rewrite Ej in Hk. destruct Hk as [g Hg].
        exists j, g. split; [| exact Hg]. now rewrite Hn1, En.
Qed.

End Engine.

(** * The extension of a joined path *)

Lemma rfind_range (c : N) (s : pystr) : -1 <= rfind c s < len s.
Proof.
  unfold len. induction s as [| x s IH]; cbn [rfind length]; [lia |].
  destruct (Z.leb_spec 0 (rfind c s)); [lia |].
  destruct (N.eqb x c); lia.
Qed.

Lemma rfind_app (c : N) (a b : pystr) :
  rfind c (a ++ b)
  = if 0 <=? rfind c b then len a + rfind c b else rfind c a.
Proof.
  unfold len. induction a as [| x a IH]; cbn [app rfind length].
  - assert (H := rfind_range c b).
    destruct (Z.leb_spec 0 (rfind c b)); lia.
  - rewrite IH. destruct (Z.leb_spec 0 (rfind c b)) as [Hb | Hb].
    + destruct (Z.leb_spec 0 (Z.of_nat (length a) + rfind c b)); lia.
    + reflexivity.
Qed.

Lemma slice_from_app_plus (a b : pystr) (k : Z) :
  0 <= k -> slice_from (len a + k) (a ++ b) = slice_from k b.
Proof.
  intros Hk. unfold slice_from, len.
  destruct (Z.ltb_spec (Z.of_nat (length a) + k) 0); [lia |].
  destruct (Z.ltb_spec k 0); [lia |].
  replace (Z.to_nat (Z.of_nat (length a) + k))
    with (length a + Z.to_nat k)%nat by lia.
  apply drop_app_add.
Qed.

(** What [os.path.join] puts before a relative path: nothing, or a prefix
    that ends with a separator. *)
Lemma join_prefix (a b : pystr) :
  exists d : pystr,
    Path.join a b = d ++ b /\ (d = [] \/ exists d0, d = d0 ++ [Path.sep]).
Proof.
  unfold Path.join. destruct (Path.startswith_sep b).
  - exists []. split; [reflexivity | now left].
  - destruct a as [| x a'] using rev_ind.
    + exists []. split; [reflexivity | now left].
    + cbn [truthy negb orb]. unfold Path.endswith_sep.
      replace (truthy (a' ++ [x])) with true by (now destruct a').
      cbn [negb orb]. rewrite last_snoc.
      destruct (N.eqb_spec x Path.sep) as [-> | _].
      * exists (a' ++ [Path.sep]). split; [reflexivity | right; now exists a'].
      * exists ((a' ++ [x]) ++ [Path.sep]). split.
        -- now rewrite <- !app_assoc.
        -- right. now exists (a' ++ [x]).
Qed.

(** The extension does not depend on the directory a path is in. *)
Lemma splitext_prefix (d p : pystr) :
  d = [] \/ (exists d0, d = d0 ++ [Path.sep]) ->
  snd (Path.splitext (d ++ p)) = snd (Path.splitext p).
Proof.
  intros [-> | [d0 ->]]; [reflexivity |].
  set (d := d0 ++ [Path.sep]).
  assert (Ld : len d = len d0 + 1)
    by (unfold d, len; rewrite length_app; cbn [length]; lia).
  assert (Hs := rfind_range Path.sep p).
  assert (He := rfind_range Path.extsep p).
  assert (Hd0 := rfind_range Path.extsep d0).
  assert (Es : rfind Path.sep (d ++ p) = len d + rfind Path.sep p).
  { rewrite rfind_app. destruct (Z.leb_spec 0 (rfind Path.sep p)); [reflexivity |].
    rewrite Ld. unfold d. rewrite rfind_last by reflexivity. lia. }
  assert (Ee : rfind Path.extsep (d ++ p)
               = if 0 <=? rfind Path.extsep p
                 then len d + rfind Path.extsep p
                 else rfind Path.extsep d0).
  { rewrite rfind_app. destruct (0 <=? rfind Path.extsep p); [reflexivity |].
    unfold d. rewrite rfind_app. reflexivity. }
  unfold Path.splitext. rewrite Es, Ee.
  destruct (Z.leb_spec 0 (rfind Path.extsep p)) as [Hp | Hp].
  - replace (len d + rfind Path.sep p <? len d + rfind Path.extsep p)
      with (rfind Path.sep p <? rfind Path.extsep p)
      by (destruct (Z.ltb_spec (rfind Path.sep p) (rfind Path.extsep p));
          destruct (Z.ltb_spec (len d + rfind Path.sep p)
                               (len d + rfind Path.extsep p)); lia).
    destruct (rfind Path.sep p <? rfind Path.extsep p); [| reflexivity].
    replace (len d + rfind Path.sep p + 1) with (len d + (rfind Path.sep p + 1))
      by lia.
    rewrite !slice_from_app_plus by lia.
    replace (len d + rfind Path.extsep p - (len d + (rfind Path.sep p + 1)))
      with (rfind Path.extsep p - (rfind Path.sep p + 1)) by lia.
    destruct (forallb _ _); reflexivity.
  - destruct (Z.ltb_spec (len d + rfind Path.sep p) (rfind Path.extsep d0));
      [lia |].
    destruct (Z.ltb_spec (rfind Path.sep p) (rfind Path.extsep p));
      [lia | reflexivity].
Qed.

Lemma splitext_join (a b : pystr) :
  snd (Path.splitext (Path.join a b)) = snd (Path.splitext b).
Proof.
  destruct (join_prefix a b) as (d & -> & Hd). now apply splitext_prefix.
Qed.

(** * The sample record *)

Lemma sample_row_values :
  date_of sample_tz sample_row = Ok sample_date /\
  Timedelta.of_seconds (Row.ZDURATION sample_row) = Ok sample_td /\
  forall all, path_old_of (sample_args all) sample_row
              = lit "/Users/me/Library/Recordings/rec1.m4a".
Proof. repeat split; vm_compute; reflexivity. Qed.


(** * The claims on the engine *)

(** C8: for a record with a recording, the name of the exported file is the
    label followed by the extension of the source file, dot included; when
    the date is wanted in the name, the local date in the configured format
    and an underscore come first. The extension of the source file is that
    of the path in the database, and the destination is the new name in the
    export folder. *)
Theorem new_name_spec (strftime : datetime -> pystr -> pystr)
    (args : Args.t) (row : Row.t) (date : datetime) (p : pystr) :
  Row.ZPATH row = Some p -> p <> [] ->
  let label := label_of (Row.ZCUSTOMLABEL row) in
  let path_old := path_old_of args row in
  let ext := snd (Path.splitext path_old) in
  let name :=
    if Args.date_in_name args
    then strftime date (Args.date_in_name_format args) ++ lit "_" ++ label ++ ext
    else label ++ ext in
  path_old = Path.join (Path.dirname (Args.db_path args)) p /\
  ext = snd (Path.splitext p) /\
  new_name strftime args date label path_old = name /\
  path_new_of strftime args date label path_old
  = Path.join (Args.export_path args) name.
Proof.
  intros Hrow Hp label path_old ext name.
  assert (E : path_old = Path.join (Path.dirname (Args.db_path args)) p)
    by now apply path_old_of_path.
  split; [exact E |].
  split; [unfold ext; rewrite E; apply splitext_join |].
  assert (En : new_name strftime args date label path_old = name).
  { unfold new_name, name, ext. now destruct (Args.date_in_name args). }
  split; [exact En |].
  unfold path_new_of. rewrite En.
  assert (Ht : truthy path_old = true).
  { apply truthy_nonempty. rewrite E. now apply join_nonempty_r. }
  now rewrite Ht.
Qed.

(** The scenario of the specification: label "Meeting Notes", recording
    "rec1.m4a", no date in the name. *)
Lemma new_name_spec_witness :
  let label := label_of (Row.ZCUSTOMLABEL sample_row) in
  let path_old := path_old_of (sample_args false) sample_row in
  new_name sample_strftime (sample_args false) sample_date label path_old
  = lit "Meeting Notes.m4a" /\
  path_new_of sample_strftime (sample_args false) sample_date label path_old
  = lit "/Users/me/Voice Memos Export/Meeting Notes.m4a".
Proof.
  intros label path_old.
  destruct (new_name_spec sample_strftime (sample_args false) sample_row
              sample_date (lit "rec1.m4a") eq_refl ltac:(discriminate))
    as (_ & _ & En & Ep).
  subst label path_old.
  split; [rewrite En | rewrite Ep]; vm_compute; reflexivity.
Defined.

(** C6: the destination path is empty exactly when the source path is. A
    record without a path in the database has both empty, and its turn of
    the loop prints the row with the status "No File" and does nothing
    else. The export folder is not the empty path: [main] creates it with
    [os.makedirs] before the loop, which raises on the empty path. *)
Theorem no_source_no_destination (strftime : datetime -> pystr -> pystr)
    (local_tz : tzinfo)
    (args : Args.t) (row : Row.t) (date : datetime) :
  Args.export_path args <> [] ->
  let path_old := path_old_of args row in
  let path_new :=
    path_new_of strftime args date (label_of (Row.ZCUSTOMLABEL row)) path_old in
  (path_new = [] <-> path_old = []) /\
  (no_path row ->
   path_old = [] /\ path_new = [] /\
   forall (td : Timedelta.t) (w : world),
     date_of local_tz row = Ok date ->
     Timedelta.of_seconds (Row.ZDURATION row) = Ok td ->
     process_row strftime local_tz args row w
     = (Ok tt,
        mk_world (fs w) (clock_ns w) (tty w) (stdin w)
                 (stdout w ++ table_row strftime date td [] [] (lit "No File")
                           ++ newline)
                 (reads w))).
Proof.
  intros He path_old path_new.
  assert (Hiff : path_new = [] <-> path_old = [])
    by now apply path_new_of_empty.
  split; [exact Hiff |]. intros Hn.
  assert (Ho : path_old = []) by now apply path_old_of_empty.
  split; [exact Ho |]. split; [now apply Hiff |].
  intros td w Hd Ht. now apply process_row_no_file.
Qed.

(** The theorem on the record without a recording. *)
Lemma no_source_no_destination_witness :
  path_old_of (sample_args false) sample_row_no_file = [] /\
  path_new_of sample_strftime (sample_args false) sample_date
    (label_of (Row.ZCUSTOMLABEL sample_row_no_file))
    (path_old_of (sample_args false) sample_row_no_file) = [] /\
  process_row sample_strftime sample_tz (sample_args false) sample_row_no_file
    (sample_world [Char 10])
  = (Ok tt,
     mk_world (fs (sample_world [])) 1700000000000000000 cooked [Char 10]
       (table_row sample_strftime sample_date sample_td [] [] (lit "No File")
        ++ newline)
       []).
Proof.
  destruct (no_source_no_destination sample_strftime sample_tz (sample_args false)
              sample_row_no_file sample_date ltac:(discriminate))
    as (_ & H).
  destruct (H ltac:(now left)) as (Ho & Hn & Hrun).
  split; [exact Ho |]. split; [exact Hn |].
  apply (Hrun sample_td (sample_world [Char 10])); vm_compute; reflexivity.
Defined.

(** C5: in interactive mode, on a record with a recording, when the user
    presses Escape or Enter, possibly after keys that are discarded. With
    Escape, the row is printed with the status "Not Exported" and the file
    system is as it was. With Enter, when the recording can be exported
    (the recording can be opened and read, the destination can be opened
    for writing at another place than the recording, and its times may be
    set), the place of the destination holds the bytes of the recording,
    whatever was there before; its access and modification times are both
    the whole second of the local date; the recording has its bytes and its
    modification time, every other place holds what it held; and the row
    is printed with the status "Exported!". In both cases the pending row
    was printed first, the keys after the captured one are left unread,
    and the terminal is in its prior mode. *)
Theorem interactive_escape_or_enter (strftime : datetime -> pystr -> pystr)
    (local_tz : tzinfo)
    (args : Args.t) (row : Row.t) (date : datetime) (td : Timedelta.t)
    (w : world) (discarded : list N) (c : N) (rest : list stdin_event) :
  Args.all args = false ->
  date_of local_tz row = Ok date ->
  Timedelta.of_seconds (Row.ZDURATION row) = Ok td ->
  ~ no_path row ->
  stdin w = map Char discarded ++ Char c :: rest ->
  Forall (fun d => d <> 10%N /\ d <> 27%N) discarded ->
  let path_old := path_old_of args row in
  let path_new :=
    path_new_of strftime args date (label_of (Row.ZCUSTOMLABEL row)) path_old in
  let row_with := table_row strftime date td path_old path_new in
  let pending := stdout w ++ row_with (lit "Export?") ++ carriage_return in
  let read :=
    reads w ++ Termios.cbreak (Termios.without_echo (tty w))
             :: replicate (length discarded) (tty w) in
  (c = 27%N ->
   process_row strftime local_tz args row w
   = (Ok tt,
      mk_world (fs w) (clock_ns w) (tty w) rest
               (pending ++ row_with (lit "Not Exported") ++ newline) read))
  /\
  (c = 10%N ->
   forall (i : ino) (f : file) (j : ino),
     can_export (fs w) path_old path_new i f j ->
     let t := timestamp_us date / 1000000 in
     let fs' := exported (fs w) i f j t (clock_ns w) in
     process_row strftime local_tz args row w
     = (Ok tt,
        mk_world fs' (clock_ns w) (tty w) rest
                 (pending ++ row_with (lit "Exported!") ++ newline) read) /\
     node fs' path_new = At j /\
     files fs' !! j
     = Some (Regular (mk_file (content f) (t * 1000000000) (t * 1000000000))) /\
     seen (files fs' !! i) = seen (files (fs w) !! i) /\
     (forall k : ino, k <> i -> k <> j -> files fs' !! k = files (fs w) !! k)).
Proof.
  intros Hall Hd Ht Hn Hin Hdis path_old path_new row_with pending read.
  rewrite (process_row_with_file strftime local_tz args row date td w Hd Ht Hn).
  fold path_old. fold path_new. fold row_with.
  unfold bind, decide_key. rewrite Hall.
  split.
  - intros ->.
    rewrite (read_key_captures _ w 27 rest discarded Hin Hdis) by now right.
    reflexivity.
  - intros -> i f j Hcan. cbv zeta.
    rewrite (read_key_captures _ w 10 rest discarded Hin Hdis) by now left.
    cbn [Z.of_N Z.eqb Pos.eqb].
    rewrite (export_ok date path_old path_new _ _ i f j) by exact Hcan.
    destruct (can_export_places _ _ _ _ _ _ Hcan) as (_ & Hj & Hi & _).
    destruct Hcan as (_ & _ & _ & Hne).
    destruct (exported_lookup (fs w) i f j (timestamp_us date / 1000000)
                (clock_ns w) Hne) as (Ej & Ei & Ek & En & _).
    split; [reflexivity |]. split; [now rewrite En |].
    split; [exact Ej |]. split; [| exact Ek].
    rewrite Ei, Hi. reflexivity.
Qed.

Lemma sample_row_has_path : ~ no_path sample_row.
Proof. intros [H | H]; discriminate H. Qed.

(** The recording of the scenario can be exported in the sample world: it
    is at the place 1, its destination at the place 11. *)
Lemma sample_can_export (all : bool) (keys : list stdin_event) :
  can_export (fs (sample_world keys))
    (path_old_of (sample_args all) sample_row)
    (path_new_of sample_strftime (sample_args all) sample_date
       (label_of (Row.ZCUSTOMLABEL sample_row))
       (path_old_of (sample_args all) sample_row))
    1%N sample_file 11%N.
Proof. repeat split; destruct all; vm_compute; congruence. Qed.

(** The theorem on the record of the scenario: after Escape the files are
    as before; after the keys [a], Enter and [b], the last is left unread,
    the place of the destination holds the bytes of the recording and both
    its times are the second 1678307200; the path of the destination
    written with two slashes names that file too. *)
Lemma interactive_escape_or_enter_witness :
  (let r := process_row sample_strftime sample_tz (sample_args false) sample_row
              (sample_world [Char 27]) in
   fst r = Ok tt /\ fs (snd r) = fs (sample_world [Char 27])) /\
  (let r := process_row sample_strftime sample_tz (sample_args false) sample_row
              (sample_world [Char 97; Char 10; Char 98]) in
   fst r = Ok tt /\ stdin (snd r) = [Char 98] /\ tty (snd r) = cooked /\
   os_stat (lit "/Users/me/Voice Memos Export/Meeting Notes.m4a") (fs (snd r))
   = Ok (11%N, Regular (mk_file (content sample_file)
                          1678307200000000000 1678307200000000000)) /\
   os_stat (lit "/Users/me/Voice Memos Export//Meeting Notes.m4a") (fs (snd r))
   = Ok (11%N, Regular (mk_file (content sample_file)
                          1678307200000000000 1678307200000000000))).
Proof.
  destruct sample_row_values as (Hd & Ht & Hp).
  split.
  - destruct (interactive_escape_or_enter sample_strftime sample_tz
                (sample_args false)
                sample_row sample_date sample_td (sample_world [Char 27])
                [] 27 [] eq_refl Hd Ht sample_row_has_path eq_refl
                ltac:(constructor))
      as [Hesc _].
    cbv zeta. rewrite (Hesc eq_refl). split; reflexivity.
  - destruct (interactive_escape_or_enter sample_strftime sample_tz
                (sample_args false)
                sample_row sample_date sample_td
                (sample_world [Char 97; Char 10; Char 98])
                [97%N] 10 [Char 98] eq_refl Hd Ht sample_row_has_path eq_refl
                ltac:(repeat constructor; discriminate))
      as [_ Henter].
    destruct (Henter eq_refl 1%N sample_file 11%N (sample_can_export false _))
      as (Hrun & _).
    cbv zeta. rewrite Hrun.
    repeat split; vm_compute; reflexivity.
Defined.

(** C9: in bulk mode no key is read: the key of every record is Enter
    without a read, and the loop leaves the terminal alone, whatever the
    rows and whatever happens to them. The turn of every record with a
    recording is its export, and when the recording can be exported (the
    recording can be opened and read, the destination can be opened for
    writing at another place than the recording, and its times may be set)
    the place of the destination holds its bytes with both times the whole
    second of the local date, and the row is printed once, with the status
    "Exported!". On records that can all be exported the loop ends well and
    prints, in the order of the records, the row "Exported!" of every
    record with a recording and the row "No File" of every other record,
    and the destination of every record with a recording is a regular
    file afterwards. *)
Theorem bulk_mode_exports (strftime : datetime -> pystr -> pystr)
    (local_tz : tzinfo)
    (args : Args.t) :
  Args.all args = true ->
  (forall (pending_row : pystr) (w : world),
     decide_key args pending_row w = (Ok 10, w)) /\
  (forall (rows : list Row.t) (w : world),
     let w' := snd (for_rows strftime local_tz args rows w) in
     stdin w' = stdin w /\ tty w' = tty w /\ reads w' = reads w) /\
  (forall (row : Row.t) (date : datetime) (td : Timedelta.t) (w : world),
     date_of local_tz row = Ok date ->
     Timedelta.of_seconds (Row.ZDURATION row) = Ok td ->
     ~ no_path row ->
     let path_old := path_old_of args row in
     let path_new :=
       path_new_of strftime args date (label_of (Row.ZCUSTOMLABEL row)) path_old in
     let exported_row :=
       table_row strftime date td path_old path_new (lit "Exported!") in
     process_row strftime local_tz args row w
     = export date path_old path_new exported_row w /\
     forall (i : ino) (f : file) (j : ino),
       can_export (fs w) path_old path_new i f j ->
       let t := timestamp_us date / 1000000 in
       let fs' := exported (fs w) i f j t (clock_ns w) in
       process_row strftime local_tz args row w
       = (Ok tt,
          mk_world fs' (clock_ns w) (tty w) (stdin w)
                   (stdout w ++ exported_row ++ newline) (reads w)) /\
       node fs' path_new = At j /\
       files fs' !! j
       = Some (Regular (mk_file (content f) (t * 1000000000)
                                (t * 1000000000)))) /\
  (forall (rows : list Row.t) (w : world),
     Forall (exportable strftime local_tz args (fs w)) rows ->
     let r := for_rows strftime local_tz args rows w in
     fst r = Ok tt /\
     stdout (snd r)
     = stdout w ++ concat (map (bulk_line strftime local_tz args) rows) /\
     forall row : Row.t,
       In row rows -> ~ no_path row ->
       exists (j : ino) (g : file),
         node (fs (snd r)) (destination strftime local_tz args row) = At j /\
         files (fs (snd r)) !! j = Some (Regular g)).
Proof.
  intros Hall. split; [| split; [| split]].
  - intros pending_row w. unfold decide_key. now rewrite Hall.
  - intros rows w. apply (for_rows_bulk_no_terminal strftime local_tz args rows Hall).
  - intros row date td w Hd Ht Hn path_old path_new exported_row.
    assert (E := process_row_bulk strftime local_tz args row date td w Hall
                   Hd Ht Hn).
    cbv zeta in E. fold path_old in E. fold path_new in E.
    fold exported_row in E.
    split; [exact E |]. intros i f j Hcan. cbv zeta. rewrite E.
    rewrite (export_ok date path_old path_new _ _ i f j) by exact Hcan.
    destruct (can_export_places _ _ _ _ _ _ Hcan) as (_ & Hj & _).
    destruct Hcan as (_ & _ & _ & Hne).
    destruct (exported_lookup (fs w) i f j (timestamp_us date / 1000000)
                (clock_ns w) Hne) as (Ej & _ & _ & En & _).
    split; [reflexivity |]. split; [| exact Ej].
    now rewrite En.
  - intros rows w Hrows.
    destruct (for_rows_bulk_run strftime local_tz args rows Hall w Hrows)
      as (fs' & E & _ & Hdst).
    cbv zeta. rewrite E. cbn [fst snd stdout fs]. now repeat split.
Qed.

(** The records of the sample world can be exported. *)
Lemma sample_exportable (row : Row.t) (i : ino) (f : file) (j : ino) :
  (exists date, date_of sample_tz row = Ok date) ->
  (exists td, Timedelta.of_seconds (Row.ZDURATION row) = Ok td) ->
  can_export (fs sample_world_2) (path_old_of (sample_args true) row)
    (destination sample_strftime sample_tz (sample_args true) row) i f j ->
  exportable sample_strftime sample_tz (sample_args true) (fs sample_world_2)
    row.
Proof.
  intros Hd Ht Hc. split; [exact Hd |]. split; [exact Ht |].
  right. now exists i, f, j.
Qed.

(** The theorem on the record of the scenario, a record without a
    recording and a second recording, with keys waiting that are not
    read. *)
Lemma bulk_mode_exports_witness :
  let r := for_rows sample_strftime sample_tz (sample_args true)
             [sample_row; sample_row_no_file; sample_row_2]
             sample_world_2 in
  fst r = Ok tt /\
  stdout (snd r)
  = concat (map (bulk_line sample_strftime sample_tz (sample_args true))
                [sample_row; sample_row_no_file; sample_row_2]) /\
  exists g : file,
    os_stat (lit "/Users/me/Voice Memos Export/Meeting Notes.m4a")
            (fs (snd r))
    = Ok (11%N, Regular g).
Proof.
  destruct (bulk_mode_exports sample_strftime sample_tz (sample_args true)
              eq_refl) as (_ & _ & _ & Hrun).
  destruct (Hrun [sample_row; sample_row_no_file; sample_row_2]
              sample_world_2) as (H1 & H2 & H3).
  - constructor; [| constructor; [| constructor; [| constructor]]].
    + apply (sample_exportable sample_row 1%N sample_file 11%N);
        try (eexists; vm_compute; reflexivity).
      repeat split; vm_compute; congruence.
    + split; [eexists; vm_compute; reflexivity |].
      split; [eexists; vm_compute; reflexivity |]. left. now left.
    + apply (sample_exportable sample_row_2 2%N sample_file_2 11%N);
        try (eexists; vm_compute; reflexivity).
      repeat split; vm_compute; congruence.
  - cbv zeta. split; [exact H1 |]. split; [exact H2 |].
    destruct (H3 sample_row ltac:(now left) sample_row_has_path)
      as (j & g & Hj & Hg).
    exists g. unfold os_stat.
    replace (destination sample_strftime sample_tz (sample_args true) sample_row)
      with (lit "/Users/me/Voice Memos Export/Meeting Notes.m4a") in Hj
      by (vm_compute; reflexivity).
    rewrite Hj in *. 
    assert (Ej : j = 11%N).
    { destruct (evolving_for_rows sample_strftime sample_tz (sample_args true)
                  [sample_row; sample_row_no_file; sample_row_2] sample_world_2)
        as (Hn & _).
      rewrite Hn in Hj. vm_compute in Hj. congruence. }
    subst j. rewrite Hg. reflexivity.
Defined.

(** * Further properties of the code *)

(** ** The prompt at the end of the input and on Control-C *)

(** The loop on keys that are discarded, then the end of the input or
    Control-C. *)
Lemma key_loop_raises (old : Termios.attrs) (discarded : list N)
    (tail : list stdin_event) :
  Forall discarded_key discarded ->
  tail = [] \/ (exists rest, tail = Interrupt :: rest) ->
  forall (key : Z) (cur : Termios.attrs) (log : list Termios.attrs),
    key <> 10 -> key <> 27 ->
    key_loop old key (map Char discarded ++ tail) cur log
    = (Raise (match tail with [] => TypeError | _ => KeyboardInterrupt end),
       (drop 1 tail, old, log ++ cur :: replicate (length discarded) old)).
Proof.
  intros Hd Ht. induction Hd as [| d ds [Hd1 Hd2] _ IH]; intros key cur log H1 H2.
  - cbn [map app length replicate].
    destruct Ht as [-> | [rest ->]]; cbn [key_loop drop];
      destruct (Z.eqb_spec key 10); try contradiction;
      destruct (Z.eqb_spec key 27); try contradiction; reflexivity.
  - cbn [map app]. rewrite key_loop_char by assumption.
    rewrite IH by lia. rewrite <- app_assoc. reflexivity.
Qed.

(** X3: in interactive mode, when the input ends or Control-C comes before
    Enter or Escape, the turn of the loop raises ([TypeError] at the end of
    the input, from [ord] of the empty string; [KeyboardInterrupt] on
    Control-C). Only the pending row was printed, no file is written, the
    terminal is in its prior mode, and nothing after the Control-C is
    read. *)
Theorem interactive_abnormal_exit (strftime : datetime -> pystr -> pystr)
    (local_tz : tzinfo)
    (args : Args.t) (row : Row.t) (date : datetime) (td : Timedelta.t)
    (w : world) (discarded : list N) (tail : list stdin_event) :
  Args.all args = false ->
  date_of local_tz row = Ok date ->
  Timedelta.of_seconds (Row.ZDURATION row) = Ok td ->
  ~ no_path row ->
  stdin w = map Char discarded ++ tail ->
  Forall discarded_key discarded ->
  tail = [] \/ (exists rest, tail = Interrupt :: rest) ->
  let path_old := path_old_of args row in
  let path_new :=
    path_new_of strftime args date (label_of (Row.ZCUSTOMLABEL row)) path_old in
  process_row strftime local_tz args row w
  = (Raise (match tail with [] => TypeError | _ => KeyboardInterrupt end),
     mk_world (fs w) (clock_ns w) (tty w) (drop 1 tail)
       (stdout w ++ table_row strftime date td path_old path_new (lit "Export?")
                 ++ carriage_return)
       (reads w ++ Termios.cbreak (Termios.without_echo (tty w))
                :: replicate (length discarded) (tty w))).
Proof.
  intros Hall Hd Ht Hn Hin Hdis Htail path_old path_new.
  rewrite (process_row_with_file strftime local_tz args row date td w Hd Ht Hn).
  fold path_old. fold path_new.
  unfold bind, decide_key. rewrite Hall.
  rewrite read_key_unfold, Hin. cbv zeta.
  rewrite (key_loop_raises (tty w) discarded tail Hdis Htail) by discriminate.
  reflexivity.
Qed.

(** The theorem on the record of the scenario, when the input ends after
    the key [a]. *)
Lemma interactive_abnormal_exit_witness :
  let r := process_row sample_strftime sample_tz (sample_args false) sample_row
             (sample_world [Char 97]) in
  fst r = Raise TypeError /\ fs (snd r) = fs (sample_world []) /\
  tty (snd r) = cooked /\ stdin (snd r) = [].
Proof.
  destruct sample_row_values as (Hd & Ht & _).
  cbv zeta.
  rewrite (interactive_abnormal_exit sample_strftime sample_tz (sample_args false)
             sample_row sample_date sample_td (sample_world [Char 97])
             [97%N] [] eq_refl Hd Ht sample_row_has_path eq_refl
             ltac:(repeat constructor; discriminate) ltac:(now left)).
  repeat split.
Defined.

(** ** Exports that fail, and exports that collide *)

Lemma export_copy_raises (date : datetime) (path_old path_new row : pystr)
    (w : world) (e : exn) :
  copyfile path_old path_new w = (Raise e, w) ->
  export date path_old path_new row w = (Raise e, w).
Proof. intros H. unfold export, bind. now rewrite H. Qed.

(** A recording that is not there. *)
Lemma copyfile_missing (src dst : pystr) (w : world) :
  os_stat src (fs w) = Raise FileNotFoundError ->
  copyfile src dst w
  = (Raise match _refuse_pipe dst (fs w) with
           | Raise e => e
           | Ok _ => FileNotFoundError
           end, w).
Proof.
  intros Hs. unfold copyfile, _samefile, _refuse_pipe at 1, open_rb.
  cbv zeta. rewrite Hs. cbn [is_OSError].
  now destruct (_refuse_pipe dst (fs w)) as [[] | e].
Qed.

(** A destination that is the recording, however it is spelled. *)
Lemma copyfile_same_file (src dst : pystr) (w : world) (i : ino) (o o' : obj) :
  os_stat src (fs w) = Ok (i, o) -> os_stat dst (fs w) = Ok (i, o') ->
  copyfile src dst w = (Raise SameFileError, w).
Proof.
  intros Hs Hd. unfold copyfile, _samefile. cbv zeta.
  now rewrite Hs, Hd, N.eqb_refl.
Qed.

(** A destination that does not resolve: a folder on the way is missing or
    is no folder, the name is too long. *)
Lemma copyfile_unresolved (src dst : pystr) (w : world) (i : ino) (f : file)
    (e : errno) :
  open_rb src (fs w) = Ok (i, f) ->
  fsencode_error dst = None -> node (fs w) dst = Unresolved e ->
  copyfile src dst w
  = (Raise match e with
           | EISDIR => FileNotFoundError
           | _ => OSError_of e
           end, w).
Proof.
  intros Hr He Hn.
  destruct (open_rb_inv _ _ _ _ Hr) as (_ & _ & _ & _ & Hst).
  assert (Hd : os_stat dst (fs w) = Raise (OSError_of e))
    by (unfold os_stat; now rewrite He, Hn).
  unfold copyfile, _samefile, _refuse_pipe, exists_, open_wb. cbv zeta.
  rewrite Hst, Hd, Hr, He, Hn. now destruct e.
Qed.

(** A destination that is a folder. *)
Lemma copyfile_folder (src dst : pystr) (w : world) (i : ino) (f : file)
    (j : ino) :
  open_rb src (fs w) = Ok (i, f) ->
  os_stat dst (fs w) = Ok (j, Folder) ->
  copyfile src dst w = (Raise IsADirectoryError, w).
Proof.
  intros Hr Hd.
  destruct (open_rb_inv _ _ _ _ Hr) as (_ & _ & Hf & _ & Hst).
  assert (Hne : (i =? j)%N = false).
  { apply N.eqb_neq. intros <-. unfold os_stat in Hd.
    destruct (fsencode_error dst); [discriminate |].
    destruct (node (fs w) dst) as [k | e]; [| discriminate].
    destruct (files (fs w) !! k) eqn:Hk; [| discriminate].
    injection Hd as -> ->. congruence. }
  assert (Hw : open_wb dst (fs w) = Raise IsADirectoryError).
  { unfold open_wb. unfold os_stat in Hd.
    destruct (fsencode_error dst); [discriminate |].
    destruct (node (fs w) dst) as [k | e]; [| discriminate].
    destruct (files (fs w) !! k) as [[g | |] |]; try discriminate.
    reflexivity. }
  unfold copyfile, _samefile, _refuse_pipe, exists_. cbv zeta.
  now rewrite Hst, Hd, Hne, Hr, Hw.
Qed.



(** ** The files the loop leaves alone *)





(** ** The lines of the table *)

(** X7: a body row is never shorter than the table, and it is as long as
    the table (150 characters) exactly when each of its five cells fits its
    column; a longer cell is printed whole and pushes the rest of its row to
    the right. *)
Theorem body_row_length_bounds (c0 c1 c2 c3 c4 : pystr) :
  (150 <= length (body_row (c0, c1, c2, c3, c4)))%nat /\
  (length (body_row (c0, c1, c2, c3, c4)) = 150%nat
   <-> cells_fit (c0, c1, c2, c3, c4)) /\
  length (body_row (c0, c1, c2, c3, c4))
  = (150 + (length c0 - 19) + (length c1 - 11) + (length c2 - 32)
         + (length c3 - 60) + (length c4 - 12))%nat.
Proof.
  rewrite body_row_length. unfold cells_fit. lia.
Qed.

Lemma frame_bars (p0 p1 p2 p3 p4 : pystr) :
  length p0 = 19%nat -> length p1 = 11%nat -> length p2 = 32%nat ->
  length p3 = 60%nat -> length p4 = 12%nat ->
  Forall (fun i =>
            ([bar; 32%N] ++ (p0 ++ [32%N; bar; 32%N] ++ p1 ++ [32%N; bar; 32%N]
                             ++ p2 ++ [32%N; bar; 32%N] ++ p3
                             ++ [32%N; bar; 32%N] ++ p4) ++ [32%N; bar]) !! i
            = Some bar) junctions.
Proof.
  intros H0 H1 H2 H3 H4.
  assert (bar_at : forall (l1 l2 l : pystr) (i : nat),
            l = l1 ++ bar :: l2 -> i = length l1 -> l !! i = Some bar).
  { intros l1 l2 l i -> ->. now apply list_lookup_middle. }
  repeat constructor.
  - eapply (bar_at ([bar; 32%N] ++ p0 ++ [32%N]));
      [rewrite <- !app_assoc; reflexivity |].
    rewrite !length_app, H0. reflexivity.
  - eapply (bar_at ([bar; 32%N] ++ p0 ++ [32%N; bar; 32%N] ++ p1 ++ [32%N]));
      [rewrite <- !app_assoc; reflexivity |].
    rewrite !length_app, H0, H1. reflexivity.
  - eapply (bar_at ([bar; 32%N] ++ p0 ++ [32%N; bar; 32%N] ++ p1
                    ++ [32%N; bar; 32%N] ++ p2 ++ [32%N]));
      [rewrite <- !app_assoc; reflexivity |].
    rewrite !length_app, H0, H1, H2. reflexivity.
  - eapply (bar_at ([bar; 32%N] ++ p0 ++ [32%N; bar; 32%N] ++ p1
                    ++ [32%N; bar; 32%N] ++ p2 ++ [32%N; bar; 32%N] ++ p3
                    ++ [32%N]));
      [rewrite <- !app_assoc; reflexivity |].
    rewrite !length_app, H0, H1, H2, H3. reflexivity.
  - eapply (bar_at ([bar; 32%N] ++ p0 ++ [32%N; bar; 32%N] ++ p1
                    ++ [32%N; bar; 32%N] ++ p2 ++ [32%N; bar; 32%N] ++ p3
                    ++ [32%N; bar; 32%N] ++ p4 ++ [32%N]) []);
      [rewrite <- !app_assoc; reflexivity |].
    rewrite !length_app, H0, H1, H2, H3, H4. reflexivity.
Qed.

(** X8: the columns line up. For cells that fit their columns, the row has
    its six vertical lines at the characters 0, 22, 36, 71, 134 and 149,
    which are the corners and junctions of the top border, of the line
    under the names and of the bottom border, and the vertical lines of the
    row of names; those four lines are 150 characters long, as the row is. *)
Theorem table_columns_align (c0 c1 c2 c3 c4 : pystr) :
  cells_fit (c0, c1, c2, c3, c4) ->
  Forall (fun i => body_row (c0, c1, c2, c3, c4) !! i = Some bar) junctions /\
  length (body_row (c0, c1, c2, c3, c4)) = 150%nat /\
  positions (fun c => negb (N.eqb c dash)) top_border = junctions /\
  positions (fun c => negb (N.eqb c dash)) separator = junctions /\
  positions (fun c => negb (N.eqb c dash)) bottom_border = junctions /\
  positions (N.eqb bar) header_row = junctions /\
  map (@length N) [top_border; header_row; separator; bottom_border]
  = [150; 150; 150; 150]%nat.
Proof.
  intros (F0 & F1 & F2 & F3 & F4).
  split; [| split; [| repeat split; vm_compute; reflexivity]].
  - unfold body_row, helper_str, cell_list, _cols.
    cbn [zip_with Py.join Col.w].
    apply frame_bars; rewrite length_format_width; lia.
  - rewrite body_row_length. lia.
Qed.

(** The theorem on a row of the record of the scenario. *)
Lemma table_columns_align_witness :
  Forall (fun i =>
            body_row (lit "07.03.2023 20:26:40", lit "00:00:05.00",
                      lit "", lit "", lit "No File") !! i = Some bar)
         junctions.
Proof.
  apply (table_columns_align (lit "07.03.2023 20:26:40") (lit "00:00:05.00")
           (lit "") (lit "") (lit "No File")).
  vm_compute. lia.
Defined.

(** ** A whole run in bulk mode *)

Lemma print_head_bulk (args : Args.t) (w : world) :
  Args.all args = true ->
  print_head args w = (Ok tt, set_stdout (stdout w ++ bulk_head_text) w).
Proof.
  intros Hall. unfold print_head, bind, print, ret. rewrite Hall.
  cbn [negb set_stdout stdout fs clock_ns tty stdin reads].
  unfold bulk_head_text. rewrite <- !app_assoc. reflexivity.
Qed.

Lemma print_foot_text (args : Args.t) (w : world) :
  print_foot args w = (Ok tt, set_stdout (stdout w ++ foot_text args) w).
Proof.
  unfold print_foot, bind, print.
  cbn [set_stdout stdout fs clock_ns tty stdin reads].
  unfold foot_text. rewrite <- !app_assoc. reflexivity.
Qed.




(** ** A run without a terminal *)

Lemma appends_ret {A} (a : A) : appends (ret a).
Proof. intros w. exists []. now rewrite app_nil_r. Qed.

Lemma appends_lift {A} (r : result A) : appends (lift r).
Proof. intros w. exists []. now rewrite app_nil_r. Qed.

Lemma appends_print (s e : pystr) : appends (print s e).
Proof. intros w. now exists (s ++ e). Qed.

Lemma appends_same {A} (m : M A) :
  (forall w, stdout (snd (m w)) = stdout w) -> appends m.
Proof. intros H w. exists []. now rewrite H, app_nil_r. Qed.

Lemma appends_bind {A B} (m : M A) (k : A -> M B) :
  appends m -> (forall a, appends (k a)) -> appends (bind m k).
Proof.
  intros Hm Hk w. unfold bind. destruct (Hm w) as [o1 H1].
  destruct (m w) as [[a | e] w1]; cbn [snd] in *; [| now exists o1].
  destruct (Hk a w1) as [o2 H2]. exists (o1 ++ o2).
  now rewrite H2, H1, app_assoc.
Qed.

Lemma appends_copyfile (src dst : pystr) : appends (copyfile src dst).
Proof.
  apply appends_same. intros w.
  now destruct (copyfile_cases src dst w)
    as [[e ->] | (i & f & j & _ & _ & _ & ->)].
Qed.

Lemma appends_utime (path : pystr) (atime mtime : Z) :
  appends (utime path atime mtime).
Proof.
  apply appends_same. intros w.
  now destruct (utime_cases path atime mtime w)
    as [[e ->] | [-> | (i & f & _ & _ & ->)]].
Qed.

Lemma appends_read_key (pending_row : pystr) : appends (read_key pending_row).
Proof.
  intros w. rewrite read_key_unfold. cbv zeta.
  destruct (key_loop _ _ _ _ _) as [r [[input cur] log]].
  now exists (pending_row ++ carriage_return).
Qed.

Lemma appends_print_foot (args : Args.t) : appends (print_foot args).
Proof. intros w. rewrite print_foot_text. now exists (foot_text args). Qed.

Section NoTerminal.

Variable strftime : datetime -> pystr -> pystr.
Variable local_tz : tzinfo.

Lemma appends_process_row (args : Args.t) (row : Row.t) :
  appends (process_row strftime local_tz args row).
Proof.
  unfold process_row.
  apply appends_bind; [apply appends_lift | intros date].
  apply appends_bind; [apply appends_lift | intros td].
  cbv zeta. destruct (negb (truthy (path_old_of args row)));
    [apply appends_print |].
  apply appends_bind.
  - unfold decide_key. destruct (Args.all args);
      [apply appends_ret | apply appends_read_key].
  - intros key. destruct (key =? 10).
    + unfold export. apply appends_bind; [apply appends_copyfile |].
      intros _. apply appends_bind; [apply appends_utime |].
      intros _. apply appends_print.
    + destruct (key =? 27); [apply appends_print | apply appends_ret].
Qed.

Lemma appends_for_rows (args : Args.t) (rows : list Row.t) :
  appends (for_rows strftime local_tz args rows).
Proof.
  induction rows as [| row rows IH]; cbn [for_rows].
  - apply appends_ret.
  - apply appends_bind; [apply appends_process_row | intros _; exact IH].
Qed.

Lemma no_terminal_main_table (args : Args.t) (rows : list Row.t) :
  Args.all args = true -> no_terminal (main_table strftime local_tz args rows).
Proof.
  intros Hall. unfold main_table.
  apply no_terminal_bind.
  - intros w. rewrite (print_head_bulk args w Hall). repeat split.
  - intros _. apply no_terminal_bind;
      [now apply for_rows_bulk_no_terminal |].
    intros _ w. rewrite print_foot_text. repeat split.
Qed.

(** The run from the check of the rows on, in bulk mode. *)
Lemma run_bulk_rows (a : Args.t) (rows : list Row.t) (w0 : world) :
  Args.all a = true ->
  let r := match rows with
           | [] => lift (Raise SystemExit) w0
           | _ :: _ => main_table strftime local_tz a rows w0
           end in
  stdin (snd r) = stdin w0 /\ tty (snd r) = tty w0 /\
  reads (snd r) = reads w0 /\
  (rows = [] ->
   fst r = Raise SystemExit /\ fs (snd r) = fs w0 /\
   stdout (snd r) = stdout w0) /\
  (rows <> [] ->
   exists out, stdout (snd r) = stdout w0 ++ bulk_head_text ++ out).
Proof.
  intros Ha. destruct rows as [| row rows]; cbv zeta.
  - unfold lift. cbn [fst snd].
    split; [reflexivity |]. split; [reflexivity |]. split; [reflexivity |].
    split; [now intros _ | now intros []].
  - destruct (no_terminal_main_table a (row :: rows) Ha w0) as (H1 & H2 & H3).
    split; [exact H1 |]. split; [exact H2 |]. split; [exact H3 |].
    split; [discriminate |]. intros _.
    unfold main_table. unfold bind at 1. rewrite (print_head_bulk a w0 Ha).
    destruct (appends_bind (for_rows strftime local_tz a (row :: rows))
                (fun _ => print_foot a)
                (appends_for_rows a (row :: rows))
                (fun _ => appends_print_foot a)
                (set_stdout (stdout w0 ++ bulk_head_text) w0)) as [out Hout].
    exists out. rewrite Hout. cbn [stdout set_stdout].
    now rewrite <- app_assoc.
Qed.

End NoTerminal.


(** ** The name of the exported file *)

Lemma rfind_negative_absent (c : N) (s : pystr) :
  rfind c s < 0 -> contains c s = false.
Proof.
  unfold contains. induction s as [| x s IH]; [reflexivity |].
  cbn [rfind existsb]. assert (Hr := rfind_range c s).
  destruct (Z.leb_spec 0 (rfind c s)); [lia |].
  destruct (N.eqb_spec x c) as [-> | Hne]; [lia |].
  intros _. rewrite IH by lia.
  destruct (N.eqb_spec c x); [congruence | reflexivity].
Qed.

(** After the last [c] of a string there is no [c]. *)
Lemma contains_drop_after_rfind (c : N) (s : pystr) :
  forall k : nat, rfind c s < Z.of_nat k -> contains c (drop k s) = false.
Proof.
  induction s as [| x s IH]; intros k Hk; [now destruct k |].
  destruct k as [| k].
  - cbn [drop]. apply rfind_negative_absent. lia.
  - cbn [drop]. apply IH. cbn [rfind] in Hk.
    assert (Hr := rfind_range c s).
    destruct (Z.leb_spec 0 (rfind c s)); lia.
Qed.

(** An extension has no separator in it. *)
Lemma splitext_ext_no_sep (p : pystr) :
  contains Path.sep (snd (Path.splitext p)) = false.
Proof.
  unfold Path.splitext.
  assert (Hs := rfind_range Path.sep p).
  destruct (Z.ltb_spec (rfind Path.sep p) (rfind Path.extsep p)) as [Hlt | _];
    [| reflexivity].
  destruct (forallb _ _); [reflexivity |]. cbn [snd].
  unfold slice_from.
  destruct (Z.ltb_spec (rfind Path.extsep p) 0); [lia |].
  apply contains_drop_after_rfind. lia.
Qed.

(** The label of a new name is made of 7-bit characters without a slash,
    whether it is the sanitized label or "VoiceMemo". *)
Lemma label_of_ascii (row2 : pystr) :
  Forall (fun c => (c < 128)%N /\ c <> 47%N) (label_of row2).
Proof.
  unfold label_of.
  destruct (contains 84%N (sanitize row2) && contains 90%N (sanitize row2)).
  - repeat constructor; (lia || discriminate).
  - apply sanitize_ascii.
Qed.

Lemma no_sep_of_ascii (s : pystr) :
  Forall (fun c => (c < 128)%N /\ c <> 47%N) s -> contains Path.sep s = false.
Proof.
  unfold contains. induction 1 as [| c s [_ Hc] _ IH]; [reflexivity |].
  cbn [existsb]. rewrite IH.
  destruct (N.eqb_spec Path.sep c) as [E | _]; [| reflexivity].
  now subst c.
Qed.

(** X11: the label adds no folder to the destination. For a record with a
    recording, the label used in the new name has only 7-bit characters and
    no slash; when the date is not put in the name (or its text has no
    slash), the new name has no slash at all, so it is one component of a
    path and does not replace the export folder; and the destination is
    the export folder, then one slash unless the export folder is the
    empty path or ends with a slash, then the new name. (The new name can
    still be [..], from the label [..] of a recording without extension:
    the destination is then the folder above the export folder.) *)
Theorem new_name_one_component (strftime : datetime -> pystr -> pystr)
    (args : Args.t) (row : Row.t) (date : datetime) (p : pystr) :
  Row.ZPATH row = Some p -> p <> [] ->
  Args.date_in_name args = false \/
  contains Path.sep (strftime date (Args.date_in_name_format args)) = false ->
  let label := label_of (Row.ZCUSTOMLABEL row) in
  let path_old := path_old_of args row in
  let name := new_name strftime args date label path_old in
  let path_new := path_new_of strftime args date label path_old in
  let export_path := Args.export_path args in
  Forall (fun c => (c < 128)%N /\ c <> 47%N) label /\
  contains Path.sep name = false /\
  path_new
  = export_path
    ++ (if negb (truthy export_path) || Path.endswith_sep export_path
        then [] else [Path.sep])
    ++ name.
Proof.
  intros Hrow Hp Hdate label path_old name path_new export_path.
  assert (Hl : Forall (fun c => (c < 128)%N /\ c <> 47%N) label)
    by apply label_of_ascii.
  assert (Hname : contains Path.sep name = false).
  { unfold name, new_name.
    destruct (Args.date_in_name args) eqn:Hd.
    - destruct Hdate as [H | H]; [discriminate H |].
      rewrite !contains_app, H, (no_sep_of_ascii label Hl), splitext_ext_no_sep.
      reflexivity.
    - rewrite contains_app, (no_sep_of_ascii label Hl), splitext_ext_no_sep.
      reflexivity. }
  split; [exact Hl |]. split; [exact Hname |].
  unfold path_new, path_new_of. fold name.
  assert (Ht : truthy path_old = true).
  { apply truthy_nonempty. unfold path_old.
    rewrite (path_old_of_path args row p Hrow Hp). now apply join_nonempty_r. }
  rewrite Ht. unfold Path.join. fold export_path.
  assert (Hs : Path.startswith_sep name = false).
  { destruct name as [| c name']; [reflexivity |]. unfold contains in Hname.
    cbn [existsb] in Hname. apply orb_false_iff in Hname as [Hc _].
    cbn. now rewrite N.eqb_sym. }
  rewrite Hs.
  now destruct (negb (truthy export_path) || Path.endswith_sep export_path).
Qed.

(** The theorem on a record whose label is a path to another folder, and on
    a record with the label [..] and a recording without extension. *)
Lemma new_name_one_component_witness :
  let row := Row.mk 700000000.0 5.0 (lit "../../etc/x") (Some (lit "rec1.m4a")) in
  let row' := Row.mk 700000000.0 5.0 (lit "..") (Some (lit "rec1")) in
  path_new_of sample_strftime (sample_args false) sample_date
    (label_of (Row.ZCUSTOMLABEL row)) (path_old_of (sample_args false) row)
  = lit "/Users/me/Voice Memos Export/.._.._etc_x.m4a" /\
  path_new_of sample_strftime (sample_args false) sample_date
    (label_of (Row.ZCUSTOMLABEL row')) (path_old_of (sample_args false) row')
  = lit "/Users/me/Voice Memos Export/..".
Proof.
  intros row row'. split.
  - destruct (new_name_one_component sample_strftime (sample_args false) row
                sample_date (lit "rec1.m4a") eq_refl ltac:(discriminate)
                ltac:(now left)) as (_ & _ & H).
    rewrite H. vm_compute. reflexivity.
  - destruct (new_name_one_component sample_strftime (sample_args false) row'
                sample_date (lit "rec1") eq_refl ltac:(discriminate)
                ltac:(now left)) as (_ & _ & H).
    rewrite H. vm_compute. reflexivity.
Defined.

(** ** The Duration column for any duration *)

Lemma str_nat_shape (n : Z) :
  0 <= n ->
  contains 46%N (str_nat n) = false /\ (1 <= length (str_nat n))%nat.
Proof.
  revert n. apply (Zlt_0_ind (fun n =>
    contains 46%N (str_nat n) = false /\ (1 <= length (str_nat n))%nat)).
  intros n IH Hn. destruct (Z.lt_ge_cases n 10) as [Hs | Hb].
  - rewrite str_nat_small by lia. unfold contains. cbn [existsb length].
    rewrite digit_no_dot by lia. split; [reflexivity | lia].
  - rewrite str_nat_unfold by lia. rewrite contains_app, length_app.
    cbn [length]. split; [| lia].
    destruct (IH (n / 10)) as [H _].
    { split; [apply Z.div_pos; lia | apply Z.div_lt; lia]. }
    rewrite H. unfold contains. cbn [existsb].
    rewrite digit_no_dot; [reflexivity | apply Z.mod_pos_bound; lia].
Qed.

Lemma fmt_d_shape (n : Z) :
  contains 46%N (fmt_d n) = false /\ (1 <= length (fmt_d n))%nat.
Proof.
  unfold fmt_d. destruct (Z.ltb_spec n 0) as [Hneg | Hpos].
  - destruct (str_nat_shape (- n)) as [H L]; [lia |].
    unfold contains in *. cbn [existsb length]. rewrite H.
    split; [reflexivity | lia].
  - now apply str_nat_shape.
Qed.

Lemma day_text_shape (d : Z) :
  contains 46%N (day_text d) = false /\
  (d <> 0 -> (7 <= length (day_text d))%nat) /\
  (d = 0 -> day_text d = []).
Proof.
  unfold day_text. destruct (fmt_d_shape d) as [H L].
  destruct (Z.eqb_spec d 0) as [E | E].
  - repeat split; trivial. contradiction.
  - split; [| split; [| contradiction]].
    + rewrite !contains_app, H. now destruct (Z.abs d =? 1).
    + intros _. rewrite !length_app. change (length (lit " day")) with 4%nat.
      change (length (lit ", ")) with 2%nat. lia.
Qed.

(** Lines 160-161 on a text without dot, followed by the microseconds that
    [str(td)] shows when there are some. *)
Lemma shorten_fraction (b : pystr) (us : Z) :
  contains 46%N b = false -> 0 <= us < 1000000 ->
  let d := b ++ (if us =? 0 then [] else lit "." ++ fixed_digits 6 us) in
  (if contains 46%N d then slice_to (rfind 46%N d + 3) d else d ++ lit ".00")
  = b ++ lit "." ++ two_digits (us / 10000).
Proof.
  intros Hb Hus d. subst d. destruct (Z.eqb_spec us 0) as [-> | Hne].
  - rewrite app_nil_r, Hb. reflexivity.
  - change (lit "." ++ fixed_digits 6 us) with (46%N :: fixed_digits 6 us).
    assert (Hdot : contains 46%N (b ++ 46%N :: fixed_digits 6 us) = true).
    { rewrite contains_app. unfold contains at 2. cbn [existsb].
      rewrite N.eqb_refl. apply orb_true_r. }
    rewrite Hdot, rfind_last by apply fixed_digits_no_dot.
    rewrite slice_to_app_plus by lia.
    change (Z.to_nat 3) with 3%nat.
    change (take 3 (46%N :: fixed_digits 6 us))
      with (46%N :: take 2 (fixed_digits 6 us)).
    now rewrite take_2_fixed_digits_6 by lia.
Qed.

(** [str(td)] for any number of microseconds: the days, the time of the
    day, the microseconds. *)
Lemma timedelta_str_any (us : Z) :
  let u := us mod 86400000000 in
  Timedelta.str (Timedelta.of_us us)
  = (day_text (us / 86400000000)
     ++ fmt_d (u / 3600000000) ++ lit ":" ++ two_digits (u / 60000000 mod 60)
     ++ lit ":" ++ two_digits (u / 1000000 mod 60))
    ++ (if us mod 1000000 =? 0 then []
        else lit "." ++ fixed_digits 6 (us mod 1000000)).
Proof.
  intros u. unfold Timedelta.str, Timedelta.of_us, day_text.
  cbn [Timedelta.days Timedelta.seconds Timedelta.microseconds]. fold u.
  replace (u / 1000000 / 60 / 60) with (u / 3600000000)
    by (rewrite !Z.div_div by lia; reflexivity).
  replace (u / 1000000 / 60) with (u / 60000000)
    by (rewrite !Z.div_div by lia; reflexivity).
  rewrite !fmt_0d_2 by apply mod_60_two_digits.
  assert (Hu := Z.mod_pos_bound us 1000000 ltac:(lia)).
  destruct (Z.eqb_spec (us mod 1000000) 0) as [E | E];
    destruct (us / 86400000000 =? 0);
    rewrite ?fmt_0d_6 by lia; rewrite <- ?app_assoc, ?app_nil_r; reflexivity.
Qed.

(** X13: the Duration cell always ends with a dot and two digits, the
    hundredths of a second of the duration, and has no other dot. It has 11
    characters exactly when the duration is from zero to less than a day;
    for a negative duration or one of a day or more, [str(td)] starts with
    the days, and the cell has at least 17 characters, more than its
    column. *)
Theorem duration_str_any (us : Z) :
  let td := Timedelta.of_us us in
  (exists pre : pystr,
     duration_str td = pre ++ lit "." ++ two_digits (us mod 1000000 / 10000) /\
     contains 46%N pre = false) /\
  (length (duration_str td) = 11%nat <-> 0 <= us < 86400000000) /\
  (~ 0 <= us < 86400000000 -> (17 <= length (duration_str td))%nat).
Proof.
  intros td. subst td. unfold duration_str. rewrite timedelta_str_any.
  cbv zeta.
  assert (Hu := Z.mod_pos_bound us 1000000 ltac:(lia)).
  assert (Hm := Z.mod_pos_bound us 86400000000 ltac:(lia)).
  set (u := us mod 86400000000) in *.
  assert (Hh : 0 <= u / 3600000000 < 24).
  { split; [apply Z.div_pos; lia | apply Z.div_lt_upper_bound; lia]. }
  set (hh := u / 3600000000) in *.
  set (mm := two_digits (u / 60000000 mod 60)).
  set (ss := two_digits (u / 1000000 mod 60)).
  destruct (day_text_shape (us / 86400000000)) as (Dd & Dl & Dz).
  set (dp := day_text (us / 86400000000)) in *.
  destruct (fmt_d_shape hh) as [Hd _].
  assert (Lh : (length (fmt_d hh) = 1 \/ length (fmt_d hh) = 2)%nat).
  { destruct (Z.lt_ge_cases hh 10).
    - left. now rewrite fmt_d_one by lia.
    - right. now rewrite fmt_d_two by lia. }
  set (b := dp ++ fmt_d hh ++ lit ":" ++ mm ++ lit ":" ++ ss).
  assert (Hb : contains 46%N b = false).
  { unfold b, mm, ss. rewrite !contains_app, Dd, Hd.
    rewrite !two_digits_no_dot by apply mod_60_two_digits. reflexivity. }
  assert (Lb : (length b = length dp + length (fmt_d hh) + 6)%nat).
  { unfold b. rewrite !length_app. unfold mm, ss. cbn [length two_digits lit].
    change (length (lit ":")) with 1%nat. lia. }
  rewrite (shorten_fraction b (us mod 1000000) Hb Hu).
  set (mid := b ++ lit "." ++ two_digits (us mod 1000000 / 10000)).
  assert (Lmid : (length mid = length b + 3)%nat)
    by (unfold mid; rewrite length_app; reflexivity).
  assert (Hday : us / 86400000000 = 0 <-> 0 <= us < 86400000000).
  { rewrite Z.div_small_iff by lia. lia. }
  split; [| split].
  - destruct (len mid =? 10).
    + exists (lit "0" ++ b). split; [unfold mid; now rewrite <- app_assoc |].
      rewrite contains_app, Hb. reflexivity.
    + exists b. split; [reflexivity | exact Hb].
  - unfold len. destruct (Z.eqb_spec (Z.of_nat (length mid)) 10) as [E | E].
    + rewrite length_app. change (length (lit "0")) with 1%nat.
      split; [intros _ | lia].
      apply Hday. destruct (Z.eq_dec (us / 86400000000) 0) as [E0 | E0];
        [exact E0 |]. specialize (Dl E0). lia.
    + split.
      * intros L. apply Hday.
        destruct (Z.eq_dec (us / 86400000000) 0) as [E0 | E0]; [exact E0 |].
        specialize (Dl E0). lia.
      * intros Hr. apply Hday in Hr. specialize (Dz Hr).
        assert (length dp = 0%nat) by (now rewrite Dz). lia.
  - intros Hr.
    assert (E0 : us / 86400000000 <> 0) by (intros E; now apply Hr, Hday).
    specialize (Dl E0). unfold len.
    destruct (Z.eqb_spec (Z.of_nat (length mid)) 10); [lia |]. lia.
Qed.

(** ** An interactive run in which every record is skipped *)

Lemma has_path_no_path (row : Row.t) :
  (has_path row = true <-> ~ no_path row) /\
  (has_path row = false <-> no_path row).
Proof.
  unfold has_path, no_path.
  destruct (Row.ZPATH row) as [[| c p] |]; cbn [truthy];
    (split; split; intros H; try discriminate H; try reflexivity;
     try (now left); try (now right);
     try (destruct H as [H | H]; discriminate H);
     try (intros [H' | H']; discriminate H');
     try (exfalso; apply H; (now left) || (now right))).
Qed.

(** X14: Escape on every record. In interactive mode, when the dates and
    durations of the records convert and the user presses Escape once for
    each record that has a recording, the run of the loop ends well, leaves
    every file as it was and reads exactly those keys; each record with a
    recording gets its pending row and, over it, the row "Not Exported", the
    others the row "No File"; every key was read without echo, and the
    terminal is in its prior mode at the end. *)
Theorem interactive_skip_all (strftime : datetime -> pystr -> pystr)
    (local_tz : tzinfo)
    (args : Args.t) (rows : list Row.t) :
  Args.all args = false ->
  Forall (fun row => (exists date, date_of local_tz row = Ok date) /\
                     (exists td, Timedelta.of_seconds (Row.ZDURATION row) = Ok td))
         rows ->
  forall (w : world) (rest : list stdin_event),
    stdin w = map (fun _ => Char 27) (List.filter has_path rows) ++ rest ->
    for_rows strftime local_tz args rows w
    = (Ok tt,
       mk_world (fs w) (clock_ns w) (tty w) rest
         (stdout w ++ concat (map (skip_line strftime local_tz args) rows))
         (reads w ++ map (fun _ => Termios.cbreak (Termios.without_echo (tty w)))
                         (List.filter has_path rows))).
Proof.
  intros Hall Hrows. induction Hrows as [| row rows ([date Hd] & [td Ht]) _ IH];
    intros w rest Hin.
  - cbn [for_rows map concat List.filter app] in *. rewrite !app_nil_r.
    destruct w. cbn in Hin. now subst.
  - assert (Hdest : destination strftime local_tz args row
                    = path_new_of strftime args date
                        (label_of (Row.ZCUSTOMLABEL row)) (path_old_of args row))
      by (unfold destination; now rewrite Hd).
    assert (Hline : skip_line strftime local_tz args row
                    = if has_path row
                      then table_row strftime date td (path_old_of args row)
                             (destination strftime local_tz args row) (lit "Export?")
                           ++ carriage_return
                           ++ table_row strftime date td (path_old_of args row)
                                (destination strftime local_tz args row) (lit "Not Exported")
                           ++ newline
                      else table_row strftime date td (path_old_of args row)
                             (destination strftime local_tz args row) (lit "No File")
                           ++ newline)
      by (unfold skip_line; now rewrite Hd, Ht).
    destruct (has_path_no_path row) as [Hyes Hno].
    cbn [for_rows List.filter map concat] in *. unfold bind at 1.
    destruct (has_path row) eqn:Hp.
    + (* a recording: Escape is read *)
      assert (Hn : ~ no_path row) by now apply Hyes.
      cbn [map app] in Hin.
      rewrite (process_row_with_file strftime local_tz args row date td w Hd Ht Hn).
      cbv zeta. rewrite <- Hdest. unfold bind at 1, decide_key. rewrite Hall.
      rewrite (read_key_captures _ w 27 _ [] Hin) by first [now right | constructor].
      cbn [Z.of_N Z.eqb Pos.eqb length replicate]. unfold print at 1.
      unfold set_stdout. cbn [fst snd fs clock_ns tty stdin stdout reads].
      rewrite (IH _ rest) by reflexivity.
      cbn [fs clock_ns tty stdin stdout reads map]. rewrite Hline.
      rewrite <- !app_assoc. reflexivity.
    + (* no recording: no key is read *)
      assert (Hn : no_path row) by now apply Hno.
      rewrite (process_row_no_file strftime local_tz args row date td w Hd Ht Hn).
      assert (Ho : path_old_of args row = []) by now apply path_old_of_empty.
      rewrite (IH _ rest) by exact Hin.
      unfold set_stdout. cbn [fs clock_ns tty stdin stdout reads]. rewrite Hline.
      rewrite Hdest, Ho. unfold path_new_of. cbn [truthy].
      rewrite <- !app_assoc. reflexivity.
Qed.

(** The theorem on the two records with a recording and the one without,
    with a third key that stays unread. *)
Lemma interactive_skip_all_witness :
  let r := for_rows sample_strftime sample_tz (sample_args false)
             [sample_row; sample_row_no_file; sample_row_2]
             (sample_world [Char 27; Char 27; Char 10]) in
  fst r = Ok tt /\ fs (snd r) = fs (sample_world []) /\
  stdin (snd r) = [Char 10] /\ tty (snd r) = cooked.
Proof.
  cbv zeta.
  rewrite (interactive_skip_all sample_strftime sample_tz (sample_args false)
             [sample_row; sample_row_no_file; sample_row_2] eq_refl
             ltac:(repeat constructor; eexists; vm_compute; reflexivity)
             (sample_world [Char 27; Char 27; Char 10]) [Char 10] eq_refl).
  repeat split.
Defined.

(** ** The pending row and the row that replaces it *)



(** ** What a bulk run leaves in the export folder *)

(** A recording that is not at the place of an export can be exported after
    it, with the same bytes. *)
Lemma can_export_after (fsys : filesystem) (src dst src' dst' : pystr)
    (i j i' j' : ino) (f f' : file) (t now : Z) :
  can_export fsys src dst i f j ->
  can_export fsys src' dst' i' f' j' ->
  i' <> j ->
  exists f'' : file,
    can_export (exported fsys i f j t now) src' dst' i' f'' j' /\
    content f'' = content f'.
Proof.
  intros Hc Hc' Hij.
  destruct (can_export_later _ _ _ _ _ _ _
              (evolves_exported fsys src dst i f j t now Hc) Hc') as [f'' Hc''].
  exists f''. split; [exact Hc'' |].
  destruct (can_export_places _ _ _ _ _ _ Hc) as (_ & _ & Hf & _).
  destruct (can_export_places _ _ _ _ _ _ Hc') as (_ & _ & Hf' & _).
  destruct (can_export_places _ _ _ _ _ _ Hc'') as (_ & _ & Hf'' & _).
  destruct Hc as (_ & _ & _ & Hne).
  destruct (exported_lookup fsys i f j t now Hne) as (_ & Ei & Ek & _).
  destruct (decide (i' = i)) as [-> | Hi].
  - rewrite Ei in Hf''. injection Hf'' as <-. cbn [content]. congruence.
  - rewrite (Ek i' Hi Hij) in Hf''. congruence.
Qed.

Section Contents.

Variable strftime : datetime -> pystr -> pystr.
Variable local_tz : tzinfo.


End Contents.


(** ** Enter on every record *)

(** The outcome of a command on files depends on the files and the clock
    only. *)
Ltac same_files_cases :=
  repeat match goal with
         | |- context [match ?x with _ => _ end] =>
             destruct x; cbn [fst snd fs clock_ns]
         end;
  now repeat split.

Lemma copyfile_same_files (src dst : pystr) (w1 w2 : world) :
  same_files w1 w2 ->
  fst (copyfile src dst w1) = fst (copyfile src dst w2) /\
  same_files (snd (copyfile src dst w1)) (snd (copyfile src dst w2)).
Proof.
  intros [Hfs Hclock]. unfold copyfile, set_fs. cbv zeta.
  rewrite <- Hfs, <- Hclock. same_files_cases.
Qed.

Lemma utime_same_files (path : pystr) (atime mtime : Z) (w1 w2 : world) :
  same_files w1 w2 ->
  fst (utime path atime mtime w1) = fst (utime path atime mtime w2) /\
  same_files (snd (utime path atime mtime w1))
             (snd (utime path atime mtime w2)).
Proof.
  intros [Hfs Hclock]. unfold utime, set_fs. cbv zeta.
  rewrite <- Hfs. same_files_cases.
Qed.

Lemma export_same_files (date : datetime) (path_old path_new row : pystr)
    (w1 w2 : world) :
  same_files w1 w2 ->
  fst (export date path_old path_new row w1)
  = fst (export date path_old path_new row w2) /\
  same_files (snd (export date path_old path_new row w1))
             (snd (export date path_old path_new row w2)).
Proof.
  intros Hsame. unfold export, bind.
  destruct (copyfile_same_files path_old path_new w1 w2 Hsame) as [H1 H2].
  destruct (copyfile path_old path_new w1) as [[[] | e1] w1'],
           (copyfile path_old path_new w2) as [[[] | e2] w2'];
    cbn [fst snd] in *; try discriminate H1; [| now split].
  destruct (utime_same_files path_new (mktime_timetuple date)
              (mktime_timetuple date) w1' w2' H2) as [K1 K2].
  destruct (utime path_new _ _ w1') as [[[] | e1] w1''],
           (utime path_new _ _ w2') as [[[] | e2] w2''];
    cbn [fst snd] in *; try discriminate K1; now split.
Qed.

Section Enter.

Variable strftime : datetime -> pystr -> pystr.
Variable local_tz : tzinfo.

(** One record: Enter at the prompt does what bulk mode does. *)
Lemma process_row_enter_like_bulk (args : Args.t) (row : Row.t)
    (w1 w2 : world) (rest : list stdin_event) :
  Args.all args = false ->
  same_files w1 w2 ->
  stdin w1 = (if has_path row then [Char 10] else []) ++ rest ->
  let r1 := process_row strftime local_tz args row w1 in
  let r2 := process_row strftime local_tz (set_all true args) row w2 in
  fst r1 = fst r2 /\ same_files (snd r1) (snd r2) /\
  (fst r1 = Ok tt -> stdin (snd r1) = rest).
Proof.
  intros Hall Hsame Hin. cbv zeta.
  destruct (date_of local_tz row) as [date | e] eqn:Hd.
  2:{ unfold process_row, bind, lift. rewrite Hd. cbn [fst snd].
      repeat split; try apply Hsame; discriminate. }
  destruct (Timedelta.of_seconds (Row.ZDURATION row)) as [td | e] eqn:Ht.
  2:{ unfold process_row, bind, lift. rewrite Hd, Ht. cbn [fst snd].
      repeat split; try apply Hsame; discriminate. }
  destruct (has_path_no_path row) as [Hyes Hno].
  destruct (has_path row) eqn:Hp.
  - assert (Hn : ~ no_path row) by now apply Hyes.
    set (path_old := path_old_of args row).
    set (path_new := path_new_of strftime args date
                       (label_of (Row.ZCUSTOMLABEL row)) path_old).
    set (row_with := table_row strftime date td path_old path_new).
    set (w1' := mk_world (fs w1) (clock_ns w1) (tty w1) rest
                  (stdout w1 ++ row_with (lit "Export?") ++ carriage_return)
                  (reads w1 ++ [Termios.cbreak (Termios.without_echo (tty w1))])).
    assert (E1 : process_row strftime local_tz args row w1
                 = export date path_old path_new (row_with (lit "Exported!")) w1').
    { rewrite (process_row_with_file strftime local_tz args row date td w1 Hd Ht Hn).
      cbv zeta. unfold bind at 1, decide_key. rewrite Hall.
      rewrite (read_key_captures _ w1 10 rest [] Hin)
        by first [now left | constructor].
      reflexivity. }
    assert (E2 : process_row strftime local_tz (set_all true args) row w2
                 = export date path_old path_new (row_with (lit "Exported!")) w2).
    { now rewrite (process_row_bulk strftime local_tz (set_all true args) row date td w2
                     eq_refl Hd Ht Hn). }
    rewrite E1, E2.
    assert (Hsame' : same_files w1' w2) by exact Hsame.
    destruct (export_same_files date path_old path_new
                (row_with (lit "Exported!")) w1' w2 Hsame') as [H1 H2].
    split; [exact H1 |]. split; [exact H2 |]. intros _.
    destruct (no_terminal_export date path_old path_new
                (row_with (lit "Exported!")) w1') as [K _].
    rewrite K. reflexivity.
  - assert (Hn : no_path row) by now apply Hno.
    rewrite (process_row_no_file strftime local_tz args row date td w1 Hd Ht Hn).
    rewrite (process_row_no_file strftime local_tz (set_all true args) row date td w2
               Hd Ht Hn).
    cbn [fst snd]. repeat split; try apply Hsame. intros _. exact Hin.
Qed.

Lemma for_rows_enter_like_bulk (args : Args.t) (rows : list Row.t) :
  Args.all args = false ->
  forall (w1 w2 : world) (rest : list stdin_event),
    same_files w1 w2 ->
    stdin w1 = map (fun _ => Char 10) (List.filter has_path rows) ++ rest ->
    let r1 := for_rows strftime local_tz args rows w1 in
    let r2 := for_rows strftime local_tz (set_all true args) rows w2 in
    fst r1 = fst r2 /\ same_files (snd r1) (snd r2) /\
    (fst r1 = Ok tt -> stdin (snd r1) = rest).
Proof.
  intros Hall. induction rows as [| row rows IH]; intros w1 w2 rest Hsame Hin;
    cbv zeta; cbn [for_rows].
  - cbn [List.filter map app] in Hin. unfold ret. cbn [fst snd].
    repeat split; try apply Hsame. intros _. exact Hin.
  - destruct (process_row_enter_like_bulk args row w1 w2
                (map (fun _ => Char 10) (List.filter has_path rows) ++ rest)
                Hall Hsame) as (H1 & H2 & H3).
    { rewrite Hin. cbn [List.filter]. destruct (has_path row); reflexivity. }
    unfold bind.
    destruct (process_row strftime local_tz args row w1) as [[[] | e] w1'];
      destruct (process_row strftime local_tz (set_all true args) row w2)
        as [[[] | e'] w2']; cbn [fst snd] in *; try discriminate H1.
    + apply (IH w1' w2' rest H2). now apply H3.
    + injection H1 as <-. repeat split; try apply H2. discriminate.
Qed.

End Enter.

(** X17: Enter on every record is a bulk run. In interactive mode, when the
    user presses Enter once for each record that has a recording, the run of
    the loop ends as the run in bulk mode from the same files ends, well or
    with the same exception, and leaves the same files, with the same
    contents and timestamps; after a run that ends well exactly those keys
    were read. *)
Theorem interactive_enter_all_like_bulk (strftime : datetime -> pystr -> pystr)
    (local_tz : tzinfo)
    (args : Args.t) (rows : list Row.t) (w : world) (rest : list stdin_event) :
  Args.all args = false ->
  stdin w = map (fun _ => Char 10) (List.filter has_path rows) ++ rest ->
  let interactive := for_rows strftime local_tz args rows w in
  let bulk := for_rows strftime local_tz (set_all true args) rows w in
  fst interactive = fst bulk /\
  fs (snd interactive) = fs (snd bulk) /\
  (fst interactive = Ok tt -> stdin (snd interactive) = rest).
Proof.
  intros Hall Hin.
  destruct (for_rows_enter_like_bulk strftime local_tz args rows Hall w w rest
              (conj eq_refl eq_refl) Hin) as (H1 & [H2 _] & H3).
  repeat split; assumption.
Qed.

(** The theorem on the three records, one without a recording, with a key
    that stays unread. *)
Lemma interactive_enter_all_like_bulk_witness :
  let interactive :=
    for_rows sample_strftime sample_tz (sample_args false)
      [sample_row; sample_row_no_file; sample_row_3]
      (mk_world (fs sample_world_2) 1700000000000000000 cooked
                [Char 10; Char 10; Char 27] [] []) in
  fst interactive = Ok tt /\
  fs (snd interactive)
  = fs (snd (for_rows sample_strftime sample_tz (sample_args true)
               [sample_row; sample_row_no_file; sample_row_3]
               (mk_world (fs sample_world_2) 1700000000000000000 cooked
                         [Char 10; Char 10; Char 27] [] []))) /\
  stdin (snd interactive) = [Char 27].
Proof.
  cbv zeta.
  destruct (interactive_enter_all_like_bulk sample_strftime sample_tz (sample_args false)
              [sample_row; sample_row_no_file; sample_row_3]
              (mk_world (fs sample_world_2) 1700000000000000000 cooked
                        [Char 10; Char 10; Char 27] [] [])
              [Char 27] eq_refl eq_refl) as (H1 & H2 & H3).
  assert (Hok : fst (for_rows sample_strftime sample_tz (sample_args false)
                       [sample_row; sample_row_no_file; sample_row_3]
                       (mk_world (fs sample_world_2) 1700000000000000000 cooked
                                 [Char 10; Char 10; Char 27] [] [])) = Ok tt)
    by (vm_compute; reflexivity).
  split; [exact Hok |]. split; [exact H2 | exact (H3 Hok)].
Defined.

(** ** A record that does not convert *)

Lemma float_exact_not_finite (x : float) (e : exn) :
  not_finite x = Some e -> Seconds.float_exact x = Raise e.
Proof.
  unfold not_finite, Seconds.float_exact.
  destruct (Prim2SF x); intros H; try discriminate H; now injection H as <-.
Qed.

Lemma not_finite_add (x y : float) (e : exn) :
  not_finite x = Some e -> not_finite y = None ->
  not_finite (PrimFloat.add x y) = Some e.
Proof.
  unfold not_finite. rewrite add_spec.
  destruct (Prim2SF x) as [s | s | | s m ex]; intros H; try discriminate H;
    destruct (Prim2SF y) as [s' | s' | | s' m' ex']; intros H';
    try discriminate H'; exact H.
Qed.

(** X18: a record with a date or a duration that is not finite ends the
    run. When the date of a record is infinite or not a number, or its date
    converts and its duration is infinite or not a number, the loop stops at
    that record with [OverflowError] (infinite) or [ValueError] (not a
    number), in either mode: nothing is printed for the record, no key is
    read, no file is written, and the records after it are not reached. *)
Theorem record_not_finite_ends_run (strftime : datetime -> pystr -> pystr)
    (local_tz : tzinfo)
    (args : Args.t) (row : Row.t) (rows : list Row.t) (w : world) (e : exn) :
  not_finite (Row.ZDATE row) = Some e \/
  ((exists date, date_of local_tz row = Ok date) /\
   not_finite (Row.ZDURATION row) = Some e) ->
  for_rows strftime local_tz args (row :: rows) w = (Raise e, w).
Proof.
  intros H. cbn [for_rows]. unfold bind at 1, process_row, bind, lift.
  destruct H as [H | [[date Hd] H]].
  - apply (not_finite_add _ _dt_offset) in H; [| reflexivity].
    apply float_exact_not_finite in H.
    unfold date_of, fromtimestamp, Seconds.to_us. rewrite H. reflexivity.
  - rewrite Hd. apply float_exact_not_finite in H.
    unfold Timedelta.of_seconds, Seconds.to_us. rewrite H. reflexivity.
Qed.

(** The theorem on a record with an infinite duration, followed by a record
    that could be exported. *)
Lemma record_not_finite_ends_run_witness :
  for_rows sample_strftime sample_tz (sample_args true) [sample_row_endless; sample_row]
           (sample_world [])
  = (Raise OverflowError, sample_world []).
Proof.
  apply (record_not_finite_ends_run sample_strftime sample_tz (sample_args true)
           sample_row_endless [sample_row] (sample_world []) OverflowError).
  right. split; [eexists; vm_compute; reflexivity | reflexivity].
Defined.
